(** * IPv4 subnet calculator: the core of [main.go]

    A shallow embedding of [isValidSubnetMask], [parseSubnetMask] and
    [calculateSubnet], together with the parts of the Go standard library
    they call ([strings], [strconv], [unicode/utf8], [net], [net/netip],
    [fmt]), followed by the properties of the calculator.

    The library functions follow the Go 1.24 sources, the release the
    Dockerfile builds with; there [net.ParseIP] is [netip.ParseAddr]
    restricted to addresses without a zone.

    Conventions.
    - A Go [string] is a sequence of bytes: [string], whose characters are
      the 8-bit [ascii].
    - A Go [byte] is [ascii] as well; arithmetic on it goes through [Z]
      and is truncated to eight bits when the result is stored.
    - Go's [int] is the 64-bit two's-complement integer of the platforms
      the Dockerfiles build for; [uint32] is a [Z] reduced modulo [2^32].
    - A slice ([net.IP], [net.IPMask]) is a [list byte]; the nil slice is
      the empty list.  Indexing a slice out of range panics.
    - A Go function returning [(T, error)] returns a pair whose second
      component is [None] for the nil error. *)

From Stdlib Require Import ZArith List String Ascii Bool Lia.
Import ListNotations.

Local Open Scope string_scope.
Local Open Scope Z_scope.

(** ** Bytes *)

Definition byte := ascii.

Definition Z_of_byte (b : byte) : Z := Z.of_N (N_of_ascii b).

(** The conversion [byte(x)] (also [uint8(x)]): the low eight bits. *)
Definition byte_of_Z (z : Z) : byte := ascii_of_N (Z.to_N (z mod 256)).

Definition byte_eqb (a b : byte) : bool := Z_of_byte a =? Z_of_byte b.

(** [a & b], [a | b] and [^a] on bytes. *)
Definition byte_and (a b : byte) : byte :=
  byte_of_Z (Z.land (Z_of_byte a) (Z_of_byte b)).
Definition byte_or (a b : byte) : byte :=
  byte_of_Z (Z.lor (Z_of_byte a) (Z_of_byte b)).
Definition byte_not (a : byte) : byte :=
  byte_of_Z (Z.lxor (Z_of_byte a) 255).

Definition all_bytes : list byte :=
  map (fun n => byte_of_Z (Z.of_nat n)) (seq 0 256).

(** ** Machine integers *)

Definition intSize : Z := 64.
Definition maxInt : Z := 2 ^ (intSize - 1) - 1.
Definition minInt : Z := - 2 ^ (intSize - 1).

(** Two's-complement wrap-around of an [int]. *)
Definition wrap_int (z : Z) : Z :=
  (z + 2 ^ (intSize - 1)) mod 2 ^ intSize - 2 ^ (intSize - 1).

(** [x << n] on [int], for a shift count [0 <= n < intSize]. *)
Definition shl_int (x n : Z) : Z := wrap_int (Z.shiftl x n).

Definition uint32 (z : Z) : Z := z mod 2 ^ 32.

(** [x << n] on [uint32]; a count of 32 or more yields 0. *)
Definition shl_uint32 (x n : Z) : Z := uint32 (Z.shiftl x n).

(** ** Panics

    A run of a Go function either returns or panics. *)

Inductive outcome (A : Type) : Type :=
| Ret (a : A)
| Panic (msg : string).
Arguments Ret {A} a.
Arguments Panic {A} msg.

Definition bind {A B} (m : outcome A) (k : A -> outcome B) : outcome B :=
  match m with
  | Ret a => k a
  | Panic msg => Panic msg
  end.

Declare Scope go_scope.
Delimit Scope go_scope with go.
Notation "x <- m ;; k" := (bind m (fun x => k))
  (at level 61, m at next level, right associativity) : go_scope.
Local Open Scope go_scope.

(** [s[i]] on a slice. *)
Definition index (s : list byte) (i : nat) : outcome byte :=
  match nth_error s i with
  | Some b => Ret b
  | None => Panic "index out of range"
  end.

(** [s[i] = v] on a slice. *)
Fixpoint store (s : list byte) (i : nat) (v : byte) : outcome (list byte) :=
  match s, i with
  | [], _ => Panic "index out of range"
  | _ :: r, O => Ret (v :: r)
  | b :: r, S j => r' <- store r j v ;; Ret (b :: r')
  end.

(** [make([]byte, n)]. *)
Definition make (n : nat) : list byte := repeat (byte_of_Z 0) n.

(** [copy(dst, src)]: the first [min(len(dst), len(src))] elements. *)
Fixpoint copy (dst src : list byte) : list byte :=
  match dst, src with
  | _ :: d, b :: r => b :: copy d r
  | _, _ => dst
  end.

Definition isNil {A} (s : list A) : bool :=
  match s with [] => true | _ => false end.

(** ** Characters of a string *)

Definition code (c : ascii) : Z := Z.of_N (N_of_ascii c).

Definition char_eqb (c d : ascii) : bool := code c =? code d.

(** [s[n:]]. *)
Fixpoint drop (n : nat) (s : string) : string :=
  match n, s with
  | O, _ => s
  | S m, String _ r => drop m r
  | S _, EmptyString => EmptyString
  end.

(** ** Package [unicode/utf8] *)

Module utf8.

Definition RuneError : Z := 0xFFFD.
Definition RuneSelf : Z := 0x80.
Definition UTFMax : nat := 4.

Definition locb : Z := 0x80.
Definition hicb : Z := 0xBF.

(** The table [first]: for each leading byte, [None] for [as] and [xx]
    (a one-byte result, the byte itself or [RuneError]), otherwise the
    size of the sequence and the range accepted for its second byte. *)
Definition first (s0 : Z) : option (Z * (Z * Z)) :=
  if s0 <? 0xC2 then None
  else if s0 <=? 0xDF then Some (2, (locb, hicb))
  else if s0 =? 0xE0 then Some (3, (0xA0, hicb))
  else if s0 <=? 0xEC then Some (3, (locb, hicb))
  else if s0 =? 0xED then Some (3, (locb, 0x9F))
  else if s0 <=? 0xEF then Some (3, (locb, hicb))
  else if s0 =? 0xF0 then Some (4, (0x90, hicb))
  else if s0 <=? 0xF3 then Some (4, (locb, hicb))
  else if s0 =? 0xF4 then Some (4, (locb, 0x8F))
  else None.

Definition cont (b : Z) : bool := (locb <=? b) && (b <=? hicb).

(** [DecodeRuneInString]: the first rune of [s] and its width in bytes. *)
Definition DecodeRuneInString (s : string) : Z * nat :=
  match s with
  | EmptyString => (RuneError, 0%nat)
  | String c0 r0 =>
      let s0 := code c0 in
      match first s0 with
      | None => (if s0 <? RuneSelf then s0 else RuneError, 1%nat)
      | Some (sz, (lo, hi)) =>
          if Z.of_nat (String.length s) <? sz then (RuneError, 1%nat) else
          match r0 with
          | EmptyString => (RuneError, 1%nat)
          | String c1 r1 =>
              let s1 := code c1 in
              if (s1 <? lo) || (hi <? s1) then (RuneError, 1%nat) else
              if sz <=? 2 then
                (Z.lor (Z.shiftl (Z.land s0 0x1F) 6) (Z.land s1 0x3F), 2%nat)
              else
              match r1 with
              | EmptyString => (RuneError, 1%nat)
              | String c2 r2 =>
                  let s2 := code c2 in
                  if negb (cont s2) then (RuneError, 1%nat) else
                  if sz <=? 3 then
                    (Z.lor (Z.lor (Z.shiftl (Z.land s0 0x0F) 12)
                                  (Z.shiftl (Z.land s1 0x3F) 6))
                           (Z.land s2 0x3F), 3%nat)
                  else
                  match r2 with
                  | EmptyString => (RuneError, 1%nat)
                  | String c3 _ =>
                      let s3 := code c3 in
                      if negb (cont s3) then (RuneError, 1%nat) else
                      (Z.lor (Z.lor (Z.lor (Z.shiftl (Z.land s0 0x07) 18)
                                           (Z.shiftl (Z.land s1 0x3F) 12))
                                    (Z.shiftl (Z.land s2 0x3F) 6))
                             (Z.land s3 0x3F), 4%nat)
                  end
              end
          end
      end
  end.

(** [RuneStart(b)]: [b] is not a continuation byte. *)
Definition RuneStart (b : ascii) : bool :=
  negb (Z.land (code b) 0xC0 =? 0x80).

(** The backward search of [DecodeLastRuneInString] for the start of the
    last rune: [back] holds the bytes before the last one, nearest first;
    at most [n] of them are inspected.  The result is the number of bytes
    from the chosen start to the end of the string. *)
Fixpoint lastStart (n : nat) (back : list ascii) (len : nat) : nat :=
  match n, back with
  | O, [] => len
  | O, _ :: _ => S len
  | S _, [] => len
  | S m, b :: r => if RuneStart b then S len else lastStart m r (S len)
  end.

(** [DecodeLastRuneInString], on the reversed bytes of the string. *)
Definition DecodeLastRune (rs : list ascii) : Z * nat :=
  match rs with
  | [] => (RuneError, 0%nat)
  | c :: back =>
      if code c <? RuneSelf then (code c, 1%nat) else
      let k := lastStart (UTFMax - 1) back 1 in
      let '(r, size) :=
        DecodeRuneInString (string_of_list_ascii (rev (firstn k rs))) in
      if Nat.eqb size k then (r, size) else (RuneError, 1%nat)
  end.

End utf8.

(** ** Package [unicode] *)

Module unicode.

Definition MaxLatin1 : Z := 0xFF.

(** [IsSpace]: the Latin-1 cases, then the table [White_Space]. *)
Definition IsSpace (r : Z) : bool :=
  if r <=? MaxLatin1 then
    ((0x09 <=? r) && (r <=? 0x0D)) || (r =? 0x20) || (r =? 0x85) || (r =? 0xA0)
  else
    (r =? 0x1680) || ((0x2000 <=? r) && (r <=? 0x200A))
    || ((0x2028 <=? r) && (r <=? 0x2029)) || (r =? 0x202F)
    || (r =? 0x205F) || (r =? 0x3000).

End unicode.

(** ** Package [strings] *)

Module strings.

(** [s[:n]]. *)
Fixpoint take (n : nat) (s : string) : string :=
  match n, s with
  | S m, String c r => String c (take m r)
  | _, _ => EmptyString
  end.

(** [HasPrefix(s, prefix)]: [s] is at least as long as [prefix] and
    starts with its bytes. *)
Fixpoint startsWith (pre s : string) : bool :=
  match pre, s with
  | EmptyString, _ => true
  | String a p, String b r => Ascii.eqb a b && startsWith p r
  | String _ _, EmptyString => false
  end.

Definition HasPrefix (s pre : string) : bool := startsWith pre s.

(** The table [asciiSpace]: tab, newline, vertical tab, form feed,
    carriage return and space. *)
Definition asciiSpace (c : ascii) : bool :=
  let n := code c in
  (n =? 9) || (n =? 10) || (n =? 11) || (n =? 12) || (n =? 13) || (n =? 32).

(** [TrimLeftFunc(s, f)]: [s] from its first rune that does not satisfy
    [f] on, the empty string when there is none.  Every iteration consumes
    at least one byte, so [length s] iterations are enough. *)
Fixpoint trimLeftLoop (fuel : nat) (f : Z -> bool) (s : string) : string :=
  match fuel, s with
  | O, _ => EmptyString
  | _, EmptyString => EmptyString
  | S n, _ =>
      let '(r, size) := utf8.DecodeRuneInString s in
      if f r then trimLeftLoop n f (drop size s) else s
  end.

Definition TrimLeftFunc (s : string) (f : Z -> bool) : string :=
  trimLeftLoop (String.length s) f s.

(** [lastIndexFunc(s, f, false)], scanning the reversed bytes of [s]:
    the index of the last rune that does not satisfy [f], if any. *)
Fixpoint lastIndexLoop (fuel : nat) (f : Z -> bool) (rs : list ascii)
  : option nat :=
  match fuel, rs with
  | O, _ => None
  | _, [] => None
  | S n, _ =>
      let '(r, size) := utf8.DecodeLastRune rs in
      let rs' := skipn size rs in
      if f r then lastIndexLoop n f rs' else Some (List.length rs')
  end.

Definition lastIndexFunc (s : string) (f : Z -> bool) : option nat :=
  lastIndexLoop (String.length s) f (rev (list_ascii_of_string s)).

(** [TrimRightFunc(s, f)]. *)
Definition TrimRightFunc (s : string) (f : Z -> bool) : string :=
  match lastIndexFunc s f with
  | Some i =>
      match String.get i s with
      | Some c =>
          if utf8.RuneSelf <=? code c
          then take (i + snd (utf8.DecodeRuneInString (drop i s))) s
          else take (i + 1) s
      | None => take (i + 1) s
      end
  | None => EmptyString
  end.

Definition TrimFunc (s : string) (f : Z -> bool) : string :=
  TrimRightFunc (TrimLeftFunc s f) f.

(** The first loop of [TrimSpace]: skip ASCII spaces from the left.  The
    flag tells that a byte outside ASCII was met; the string is [s[start:]]. *)
Fixpoint trimSpaceStart (s : string) : bool * string :=
  match s with
  | EmptyString => (false, EmptyString)
  | String c r =>
      if utf8.RuneSelf <=? code c then (true, s)
      else if asciiSpace c then trimSpaceStart r
      else (false, s)
  end.

(** The second loop of [TrimSpace]: skip ASCII spaces from the right.  The
    flag tells that a byte outside ASCII was met; the string is
    [s[start:stop]]. *)
Fixpoint trimSpaceStop (s : string) : bool * string :=
  match s with
  | EmptyString => (false, EmptyString)
  | String c r =>
      match trimSpaceStop r with
      | (true, t) => (true, String c t)
      | (false, String d t) => (false, String c (String d t))
      | (false, EmptyString) =>
          if utf8.RuneSelf <=? code c then (true, String c EmptyString)
          else if asciiSpace c then (false, EmptyString)
          else (false, String c EmptyString)
      end
  end.

(** [TrimSpace(s)]: the ASCII fast path, with the fall-back to the
    Unicode-aware trimming as soon as a byte outside ASCII is met. *)
Definition TrimSpace (s : string) : string :=
  match trimSpaceStart s with
  | (true, t) => TrimFunc t unicode.IsSpace
  | (false, t) =>
      match trimSpaceStop t with
      | (true, u) => TrimRightFunc u unicode.IsSpace
      | (false, u) => u
      end
  end.

End strings.

(** ** Package [strconv] *)

Module strconv.

Definition isDigit (c : ascii) : bool := (48 <=? code c) && (code c <=? 57).

(** The value of a string of decimal digits, [None] when a character is
    not a digit.  [acc] is the value of the digits read so far. *)
Fixpoint digitsValue (s : string) (acc : Z) : option Z :=
  match s with
  | EmptyString => Some acc
  | String c r =>
      if isDigit c then digitsValue r (acc * 10 + (code c - 48)) else None
  end.

(** [Atoi(s)]: an optional sign and at least one decimal digit; the value
    has to fit an [int].  [None] stands for a non-nil error (its value,
    a [*NumError], is only ever compared with nil by the calculator).
    The fast path for short strings and [ParseInt(s, 10, 0)] compute the
    same result. *)
Definition Atoi (s : string) : option Z :=
  match s with
  | EmptyString => None
  | String c r =>
      let neg := char_eqb c "-" in
      let body := if neg || char_eqb c "+" then r else s in
      match body with
      | EmptyString => None
      | _ =>
          match digitsValue body 0 with
          | None => None
          | Some n =>
              let v := if neg then - n else n in
              if (minInt <=? v) && (v <=? maxInt) then Some v else None
          end
      end
  end.

Definition digit (d : Z) : ascii := byte_of_Z (48 + d).

(** The decimal digits of [n >= 0], prepended to [acc]. *)
Fixpoint formatBits (fuel : nat) (n : Z) (acc : string) : string :=
  match fuel with
  | O => acc
  | S f =>
      let acc' := String (digit (n mod 10)) acc in
      if n <? 10 then acc' else formatBits f (n / 10) acc'
  end.

(** [FormatInt(i, 10)] for an [int]: at most 19 digits and a sign. *)
Definition FormatInt (i : Z) : string :=
  if i <? 0 then String "-" (formatBits 20 (- i) EmptyString)
  else formatBits 20 i EmptyString.

End strconv.

(** ** Package [fmt] *)

Module fmt.

(** [Sprintf("%d", i)] for an [int]. *)
Definition Sprintf_d (i : Z) : string := strconv.FormatInt i.

(** [Errorf(format, arg)] for a format with a single [%s]: the error whose
    message is the text before the verb, the argument and the text after
    it.  An [error] is represented by its message. *)
Definition Errorf (before arg after : string) : string :=
  (before ++ arg ++ after)%string.

End fmt.

Definition error := string.

(** ** Fixed-size byte arrays

    Inside the library, [[4]uint8] and [[16]byte] arrays are written at
    indices that are in range by construction; [update] and [at] are the
    total write and read. *)

Definition zero : byte := byte_of_Z 0.

Fixpoint update (a : list byte) (i : nat) (v : byte) : list byte :=
  match a, i with
  | [], _ => []
  | _ :: r, O => v :: r
  | b :: r, S j => b :: update r j v
  end.

Definition at_ (a : list byte) (i : nat) : byte := nth i a zero.

(** ** Package [net/netip] *)

Module netip.

(** An [Addr] is represented by the sixteen bytes that [As16] returns
    (the IPv4-mapped form for an IPv4 address) and by its zone. *)
Record Addr : Type := mkAddr { bytes16 : list byte; zone : string }.

Definition v4InV6Prefix : list byte :=
  [zero; zero; zero; zero; zero; zero; zero; zero; zero; zero;
   byte_of_Z 0xff; byte_of_Z 0xff].

Definition AddrFrom4 (fields : list byte) : Addr :=
  mkAddr (v4InV6Prefix ++ fields)%list EmptyString.

Definition AddrFrom16 (ip : list byte) : Addr := mkAddr ip EmptyString.

Definition WithZone (a : Addr) (z : string) : Addr := mkAddr (bytes16 a) z.

(** [As16] returns a [[16]byte]. *)
Definition As16 (a : Addr) : list byte :=
  let b := bytes16 a in
  [at_ b 0; at_ b 1; at_ b 2; at_ b 3; at_ b 4; at_ b 5; at_ b 6; at_ b 7;
   at_ b 8; at_ b 9; at_ b 10; at_ b 11; at_ b 12; at_ b 13; at_ b 14;
   at_ b 15].

Definition isDot (c : ascii) : bool := char_eqb c ".".

(** The loop of [parseIPv4Fields] over the bytes of [s].  [prev] is the
    byte before the current one ([None] at index 0); the current byte is
    the last one when nothing follows it.  [None] stands for a
    [parseAddrError]. *)
Fixpoint parseIPv4FieldsLoop (s : string) (prev : option ascii)
    (val : Z) (pos : nat) (digLen : Z) (fields : list byte)
  : option (list byte) :=
  match s with
  | EmptyString =>
      if (pos <? 3)%nat then None (* IPv4 address too short *)
      else Some (update fields 3 (byte_of_Z val))
  | String c r =>
      if strconv.isDigit c then
        if (digLen =? 1) && (val =? 0) then None (* leading zero *)
        else
          let val' := val * 10 + code c - 48 in
          if 255 <? val' then None (* value >255 *)
          else parseIPv4FieldsLoop r (Some c) val' pos (digLen + 1) fields
      else if isDot c then
        if match prev with None => true | Some p => isDot p end
           || match r with EmptyString => true | _ => false end
        then None (* field must have at least one digit *)
        else if (pos =? 3)%nat then None (* IPv4 address too long *)
        else parseIPv4FieldsLoop r (Some c) 0 (S pos) 0
               (update fields pos (byte_of_Z val))
      else None (* unexpected character *)
  end.

Definition parseIPv4Fields (s : string) : option (list byte) :=
  parseIPv4FieldsLoop s None 0 0 0 [zero; zero; zero; zero].

Definition parseIPv4 (s : string) : option Addr :=
  match parseIPv4Fields s with
  | Some fields => Some (AddrFrom4 fields)
  | None => None
  end.

Definition hexVal (c : ascii) : option Z :=
  let n := code c in
  if (48 <=? n) && (n <=? 57) then Some (n - 48)
  else if (97 <=? n) && (n <=? 102) then Some (n - 97 + 10)
  else if (65 <=? n) && (n <=? 70) then Some (n - 65 + 10)
  else None.

(** The inner loop of [parseIPv6] that reads one hexadecimal group:
    the number of digits read, their value and the rest of the string. *)
Fixpoint hexGroup (s : string) (off : nat) (acc : Z)
  : option (nat * Z * string) :=
  match s with
  | EmptyString => Some (off, acc, s)
  | String c r =>
      match hexVal c with
      | None => Some (off, acc, s)
      | Some d =>
          let acc' := uint32 (Z.shiftl acc 4 + d) in
          if (3 <? off)%nat then None (* more than 4 digits in group *)
          else if 0xFFFF <? acc' then None (* value >=2^16 *)
          else hexGroup r (S off) acc'
      end
  end.

(** State of [parseIPv6] when its main loop is left. *)
Record v6state : Type :=
  mkV6 { v6_i : nat; v6_s : string; v6_ellipsis : option nat;
         v6_ip : list byte }.

(** The main loop of [parseIPv6].  [i] grows by two in every iteration
    and the loop runs while [i < 16]: with [k] iterations left,
    [i = 16 - 2 * k]. *)
Fixpoint v6Loop (k : nat) (s : string) (ellipsis : option nat)
    (ip : list byte) : option v6state :=
  match k with
  | O => Some (mkV6 16 s ellipsis ip)
  | S k' =>
      let i := (16 - 2 * k)%nat in
      match hexGroup s 0 0 with
      | None => None
      | Some (off, acc, rest) =>
          if (off =? 0)%nat then None (* no digits *)
          else
            match rest with
            | String c _ =>
                if isDot c then
                  (* trailing IPv4 *)
                  if match ellipsis with None => negb (i =? 12)%nat
                                       | Some _ => false end
                  then None
                  else if (16 <? i + 4)%nat then None
                  else
                    match parseIPv4Fields s with
                    | None => None
                    | Some f =>
                        let ip1 := update ip i (at_ f 0) in
                        let ip2 := update ip1 (i + 1) (at_ f 1) in
                        let ip3 := update ip2 (i + 2) (at_ f 2) in
                        let ip4 := update ip3 (i + 3) (at_ f 3) in
                        Some (mkV6 (i + 4) EmptyString ellipsis ip4)
                    end
                else
                  let ip' := update (update ip i (byte_of_Z (Z.shiftr acc 8)))
                               (i + 1) (byte_of_Z acc) in
                  if negb (char_eqb c ":") then None (* want colon *)
                  else
                    match drop 1 rest with
                    | EmptyString => None (* colon must be followed *)
                    | String c' r' =>
                        if char_eqb c' ":" then
                          match ellipsis with
                          | Some _ => None (* multiple :: *)
                          | None =>
                              match r' with
                              | EmptyString =>
                                  Some (mkV6 (i + 2) EmptyString
                                          (Some (i + 2)%nat) ip')
                              | _ => v6Loop k' r' (Some (i + 2)%nat) ip'
                              end
                          end
                        else v6Loop k' (String c' r') ellipsis ip'
                    end
            | EmptyString =>
                let ip' := update (update ip i (byte_of_Z (Z.shiftr acc 8)))
                             (i + 1) (byte_of_Z acc) in
                Some (mkV6 (i + 2) EmptyString ellipsis ip')
            end
      end
  end.

(** The loop [for j := i - 1; j >= ellipsis; j-- { ip[j+n] = ip[j] }],
    with [cnt] iterations left. *)
Fixpoint shiftTail (cnt : nat) (ellipsis n : nat) (ip : list byte)
  : list byte :=
  match cnt with
  | O => ip
  | S c =>
      let j := (ellipsis + c)%nat in
      shiftTail c ellipsis n (update ip (j + n) (at_ ip j))
  end.

(** [clear(ip[from : from+n])]. *)
Fixpoint clear (n : nat) (from : nat) (ip : list byte) : list byte :=
  match n with
  | O => ip
  | S m => clear m (S from) (update ip from zero)
  end.

(** [IndexByteString(s, '%')], as the split of [s] around the first
    percent sign. *)
Fixpoint splitZone (s : string) : string * option string :=
  match s with
  | EmptyString => (EmptyString, None)
  | String c r =>
      if char_eqb c "%" then (EmptyString, Some r)
      else let '(a, z) := splitZone r in (String c a, z)
  end.

Definition parseIPv6 (input : string) : option Addr :=
  let '(s, z) := splitZone input in
  match z with
  | Some EmptyString => None (* zone must be a non-empty string *)
  | _ =>
      let zone := match z with Some zn => zn | None => EmptyString end in
      let ip := make 16 in
      let lead :=
        match s with
        | String c0 (String c1 r) =>
            if char_eqb c0 ":" && char_eqb c1 ":" then Some r else None
        | _ => None
        end in
      match lead with
      | Some EmptyString => Some (WithZone (AddrFrom16 ip) zone)
      | _ =>
          let '(s1, ellipsis) :=
            match lead with
            | Some r => (r, Some 0%nat)
            | None => (s, None)
            end in
          match v6Loop 8 s1 ellipsis ip with
          | None => None
          | Some st =>
              match v6_s st with
              | String _ _ => None (* trailing garbage *)
              | EmptyString =>
                  let i := v6_i st in
                  if (i <? 16)%nat then
                    match v6_ellipsis st with
                    | None => None (* address string too short *)
                    | Some e =>
                        let n := (16 - i)%nat in
                        let ip' := shiftTail (i - e) e n (v6_ip st) in
                        Some (WithZone (AddrFrom16 (clear n e ip')) zone)
                    end
                  else
                    match v6_ellipsis st with
                    | Some _ => None (* :: must expand to a field *)
                    | None => Some (WithZone (AddrFrom16 (v6_ip st)) zone)
                    end
              end
          end
      end
  end.

(** [ParseAddr]: the first dot, colon or percent sign decides. *)
Fixpoint parseAddrScan (s : string) (whole : string) : option Addr :=
  match s with
  | EmptyString => None (* unable to parse IP *)
  | String c r =>
      if isDot c then parseIPv4 whole
      else if char_eqb c ":" then parseIPv6 whole
      else if char_eqb c "%" then None (* missing IPv6 address *)
      else parseAddrScan r whole
  end.

Definition ParseAddr (s : string) : option Addr := parseAddrScan s s.

(** [appendDecimal]: a byte in decimal, without leading zeros. *)
Definition appendDecimal (x : byte) : string :=
  let n := Z_of_byte x in
  let hundreds :=
    if 100 <=? n then String (strconv.digit (n / 100)) EmptyString
    else EmptyString in
  let tens :=
    if 10 <=? n then String (strconv.digit (n / 10 mod 10)) EmptyString
    else EmptyString in
  (hundreds ++ tens ++ String (strconv.digit (n mod 10)) EmptyString)%string.

(** [Addr.string4]. *)
Definition string4 (a b c d : byte) : string :=
  (appendDecimal a ++ "." ++ appendDecimal b ++ "."
   ++ appendDecimal c ++ "." ++ appendDecimal d)%string.

End netip.

(** ** Package [net] *)

Module net.

Definition IP := list byte.
Definition IPMask := list byte.

Definition IPv4len : nat := 4.
Definition IPv6len : nat := 16.

(** [ParseIP]: the sixteen-byte form of the address, nil when [s] is not
    an address or carries a zone. *)
Definition ParseIP (s : string) : IP :=
  match netip.ParseAddr s with
  | Some a =>
      match netip.zone a with
      | EmptyString => netip.As16 a
      | _ => []
      end
  | None => []
  end.

Definition isZeros (p : list byte) : bool :=
  forallb (fun b => byte_eqb b zero) p.

Definition allFF (p : list byte) : bool :=
  forallb (fun b => byte_eqb b (byte_of_Z 0xff)) p.

Definition bytesEqual (p q : list byte) : bool :=
  (List.length p =? List.length q)%nat
  && forallb (fun '(a, b) => byte_eqb a b) (combine p q).

(** [ip.To4()]. *)
Definition To4 (ip : IP) : IP :=
  if (List.length ip =? IPv4len)%nat then ip
  else if (List.length ip =? IPv6len)%nat
          && isZeros (firstn 10 ip)
          && byte_eqb (at_ ip 10) (byte_of_Z 0xff)
          && byte_eqb (at_ ip 11) (byte_of_Z 0xff)
  then firstn 4 (skipn 12 ip)
  else [].

(** The loop of [CIDRMask] over the [l] bytes of the mask. *)
Fixpoint cidrMaskLoop (l : nat) (n : Z) : IPMask :=
  match l with
  | O => []
  | S l' =>
      if 8 <=? n then byte_of_Z 0xff :: cidrMaskLoop l' (n - 8)
      else byte_not (byte_of_Z (Z.shiftr 0xff n)) :: cidrMaskLoop l' 0
  end.

(** [CIDRMask(ones, bits)]. *)
Definition CIDRMask (ones bits : Z) : IPMask :=
  if negb (bits =? 8 * Z.of_nat IPv4len) && negb (bits =? 8 * Z.of_nat IPv6len)
  then []
  else if (ones <? 0) || (bits <? ones) then []
  else cidrMaskLoop (Z.to_nat (bits / 8)) ones.

(** The loop [for v&0x80 != 0 { n++; v <<= 1 }] on a byte [v]. *)
Fixpoint leadingOnesOfByte (fuel : nat) (v : byte) (n : Z) : Z * byte :=
  match fuel with
  | O => (n, v)
  | S f =>
      if negb (Z.land (Z_of_byte v) 0x80 =? 0)
      then leadingOnesOfByte f (byte_of_Z (Z.shiftl (Z_of_byte v) 1)) (n + 1)
      else (n, v)
  end.

(** [simpleMaskLength(mask)], with [n] the ones counted so far. *)
Fixpoint simpleMaskLengthLoop (mask : IPMask) (n : Z) : Z :=
  match mask with
  | [] => n
  | v :: rest =>
      if byte_eqb v (byte_of_Z 0xff) then simpleMaskLengthLoop rest (n + 8)
      else
        let '(n', v') := leadingOnesOfByte 8 v n in
        if negb (byte_eqb v' zero) then -1
        else if isZeros rest then n' else -1
  end.

Definition simpleMaskLength (mask : IPMask) : Z :=
  simpleMaskLengthLoop mask 0.

(** [m.Size()]. *)
Definition Size (m : IPMask) : Z * Z :=
  let ones := simpleMaskLength m in
  let bits := Z.of_nat (List.length m) * 8 in
  if ones =? -1 then (0, 0) else (ones, bits).

(** The loop [out[i] = ip[i] & mask[i]] of [ip.Mask]; both slices have
    the same length. *)
Fixpoint maskLoop (ip : IP) (mask : IPMask) : IP :=
  match ip, mask with
  | a :: r, m :: q => byte_and a m :: maskLoop r q
  | _, _ => []
  end.

(** [ip.Mask(mask)]. *)
Definition Mask (ip : IP) (mask : IPMask) : IP :=
  let mask1 :=
    if (List.length mask =? IPv6len)%nat && (List.length ip =? IPv4len)%nat
       && allFF (firstn 12 mask)
    then skipn 12 mask else mask in
  let ip1 :=
    if (List.length mask1 =? IPv4len)%nat && (List.length ip =? IPv6len)%nat
       && bytesEqual (firstn 12 ip) netip.v4InV6Prefix
    then skipn 12 ip else ip in
  if negb (List.length ip1 =? List.length mask1)%nat then []
  else maskLoop ip1 mask1.

(** [ip.String()] for the nil slice and for four-byte and IPv4-mapped
    addresses, which Go prints in dotted decimal.  [calculateSubnet] calls
    it on four-byte slices only (see [calculateSubnet_ok]); the texts Go
    prints for other slices are not modelled and stand as "?". *)
Definition String_ (ip : IP) : string :=
  match ip with
  | [] => "<nil>"
  | _ =>
      match To4 ip with
      | [a; b; c; d] => netip.string4 a b c d
      | _ => "?"
      end
  end.

End net.

(** * The calculator ([main.go]) *)

Record SubnetResult : Type := mkSubnetResult {
  IPAddress : string;
  SubnetMask : string;
  NetworkAddress : string;
  BroadcastAddress : string;
  MinHostAddress : string;
  MaxHostAddress : string;
  UsableHosts : string;
  Error : string
}.

(** Assignments to the fields of a result. *)
Definition set_NetworkAddress (r : SubnetResult) (v : string) :=
  mkSubnetResult (IPAddress r) (SubnetMask r) v (BroadcastAddress r)
    (MinHostAddress r) (MaxHostAddress r) (UsableHosts r) (Error r).
Definition set_BroadcastAddress (r : SubnetResult) (v : string) :=
  mkSubnetResult (IPAddress r) (SubnetMask r) (NetworkAddress r) v
    (MinHostAddress r) (MaxHostAddress r) (UsableHosts r) (Error r).
Definition set_MinHostAddress (r : SubnetResult) (v : string) :=
  mkSubnetResult (IPAddress r) (SubnetMask r) (NetworkAddress r)
    (BroadcastAddress r) v (MaxHostAddress r) (UsableHosts r) (Error r).
Definition set_MaxHostAddress (r : SubnetResult) (v : string) :=
  mkSubnetResult (IPAddress r) (SubnetMask r) (NetworkAddress r)
    (BroadcastAddress r) (MinHostAddress r) v (UsableHosts r) (Error r).
Definition set_UsableHosts (r : SubnetResult) (v : string) :=
  mkSubnetResult (IPAddress r) (SubnetMask r) (NetworkAddress r)
    (BroadcastAddress r) (MinHostAddress r) (MaxHostAddress r) v (Error r).

(** [s[n:]] on a string; panics when [n > len(s)]. *)
Definition sliceFrom (s : string) (n : nat) : outcome string :=
  if (String.length s <? n)%nat then Panic "slice bounds out of range"
  else Ret (drop n s).

(** The loop of [isValidSubnetMask] that counts the leading one bits,
    from bit [n - 1] downwards. *)
Fixpoint leadingOnesLoop (n : nat) (maskInt leadingOnes : Z) : Z :=
  match n with
  | O => leadingOnes
  | S i =>
      if negb (Z.land maskInt (shl_uint32 1 (Z.of_nat i)) =? 0)
      then leadingOnesLoop i maskInt (leadingOnes + 1)
      else leadingOnes
  end.

(** [isValidSubnetMask]: the mask has contiguous 1s followed by
    contiguous 0s. *)
Definition isValidSubnetMask (mask : net.IPMask) : outcome bool :=
  m0 <- index mask 0 ;;
  m1 <- index mask 1 ;;
  m2 <- index mask 2 ;;
  m3 <- index mask 3 ;;
  let maskInt :=
    Z.lor (Z.lor (Z.lor (shl_uint32 (Z_of_byte m0) 24)
                        (shl_uint32 (Z_of_byte m1) 16))
                 (shl_uint32 (Z_of_byte m2) 8))
          (Z_of_byte m3) in
  let leadingOnes := leadingOnesLoop 32 maskInt 0 in
  let expectedMask := shl_uint32 0xFFFFFFFF (32 - leadingOnes) in
  Ret (maskInt =? expectedMask).

(** [parseSubnetMask]: a mask in dotted decimal or CIDR notation. *)
Definition parseSubnetMask (mask : string)
  : outcome (net.IPMask * option error) :=
  let mask := strings.TrimSpace mask in
  if strings.HasPrefix mask "/" then
    tail <- sliceFrom mask 1 ;;
    match strconv.Atoi tail with
    | None => Ret ([], Some (fmt.Errorf "invalid CIDR notation: " mask ""))
    | Some cidr =>
        if (cidr <? 0) || (32 <? cidr)
        then Ret ([], Some (fmt.Errorf "invalid CIDR notation: " mask ""))
        else Ret (net.CIDRMask cidr 32, None)
    end
  else
    let ip := net.ParseIP mask in
    if isNil ip
    then Ret ([], Some (fmt.Errorf "invalid subnet mask format: " mask ""))
    else
      let ipv4 := net.To4 ip in
      if isNil ipv4
      then Ret ([], Some (fmt.Errorf "not a valid IPv4 mask: " mask ""))
      else
        let subnetMask : net.IPMask := ipv4 in
        valid <- isValidSubnetMask subnetMask ;;
        if negb valid
        then Ret ([], Some (fmt.Errorf "invalid subnet mask: " mask
                              " (must have contiguous 1s followed by 0s)"))
        else Ret (subnetMask, None).

(** [for i := 0; i < 4; i++ { broadcastAddr[i] = networkAddr[i] | ^mask[i] }],
    with [n] iterations left. *)
Fixpoint broadcastLoop (n i : nat) (networkAddr : net.IP) (mask : net.IPMask)
    (broadcastAddr : net.IP) : outcome net.IP :=
  match n with
  | O => Ret broadcastAddr
  | S n' =>
      a <- index networkAddr i ;;
      m <- index mask i ;;
      b <- store broadcastAddr i (byte_or a (byte_not m)) ;;
      broadcastLoop n' (S i) networkAddr mask b
  end.

(** Add 1 to the address: the loop [for i := 3; i >= 0; i--], at index
    [n - 1]. *)
Fixpoint addOneLoop (n : nat) (addr : net.IP) : outcome net.IP :=
  match n with
  | O => Ret addr
  | S i =>
      v <- index addr i ;;
      if Z_of_byte v <? 255
      then store addr i (byte_of_Z (Z_of_byte v + 1))
      else addr' <- store addr i (byte_of_Z 0) ;; addOneLoop i addr'
  end.

(** Subtract 1 from the address: the loop [for i := 3; i >= 0; i--], at
    index [n - 1]. *)
Fixpoint subOneLoop (n : nat) (addr : net.IP) : outcome net.IP :=
  match n with
  | O => Ret addr
  | S i =>
      v <- index addr i ;;
      if 0 <? Z_of_byte v
      then store addr i (byte_of_Z (Z_of_byte v - 1))
      else addr' <- store addr i (byte_of_Z 255) ;; subOneLoop i addr'
  end.

(** The conversion [uint(x)] of an [int]. *)
Definition uint (x : Z) : Z := x mod 2 ^ intSize.

(** [1 << uint(32-prefixLen)] as an [int]. *)
Definition totalHostsOf (prefixLen : Z) : Z :=
  let n := uint (32 - prefixLen) in
  if intSize <=? n then 0 else shl_int 1 n.

(** [calculateSubnet] performs the subnet calculations. *)
Definition calculateSubnet (ipStr maskStr : string)
  : outcome (option SubnetResult * option error) :=
  (* Parse IP address *)
  let ip := net.ParseIP ipStr in
  if isNil ip
  then Ret (None, Some (fmt.Errorf "invalid IP address: " ipStr ""))
  else
  let ipv4 := net.To4 ip in
  if isNil ipv4
  then Ret (None, Some (fmt.Errorf "not a valid IPv4 address: " ipStr ""))
  else
  (* Parse subnet mask *)
  pm <- parseSubnetMask maskStr ;;
  let '(mask, err) := pm in
  match err with
  | Some e => Ret (None, Some e)
  | None =>
  (* Get CIDR prefix length for corner case handling *)
  let '(prefixLen, _) := net.Size mask in
  (* Calculate network address (first IP in subnet) *)
  let networkAddr := net.Mask ipv4 mask in
  (* Calculate broadcast address (last IP in subnet) *)
  broadcastAddr <- broadcastLoop 4 0 networkAddr mask (make 4) ;;
  let result :=
    mkSubnetResult "" "" (net.String_ networkAddr) (net.String_ broadcastAddr)
      "" "" "" "" in
  (* Handle corner cases based on prefix length *)
  if prefixLen =? 32 then
    let result := set_NetworkAddress result (net.String_ ipv4) in
    let result := set_BroadcastAddress result (net.String_ ipv4) in
    let result := set_MinHostAddress result "N/A" in
    let result := set_MaxHostAddress result "N/A" in
    let result := set_UsableHosts result "0" in
    Ret (Some result, None)
  else if prefixLen =? 31 then
    let result := set_MinHostAddress result "N/A" in
    let result := set_MaxHostAddress result "N/A" in
    let result := set_UsableHosts result "0" in
    Ret (Some result, None)
  else
    (* Calculate min host address (network + 1) *)
    minHostAddr <- addOneLoop 4 (copy (make 4) networkAddr) ;;
    (* Calculate max host address (broadcast - 1) *)
    maxHostAddr <- subOneLoop 4 (copy (make 4) broadcastAddr) ;;
    let result := set_MinHostAddress result (net.String_ minHostAddr) in
    let result := set_MaxHostAddress result (net.String_ maxHostAddr) in
    (* Calculate number of usable hosts *)
    let totalHosts := totalHostsOf prefixLen in
    let usableHosts := wrap_int (totalHosts - 2) in
    let usableHosts := if usableHosts <? 0 then 0 else usableHosts in
    let result := set_UsableHosts result (fmt.Sprintf_d usableHosts) in
    Ret (Some result, None)
  end.



(** * Vocabulary of the specification *)

(** The integers [0 .. n-1]. *)
Definition upto (n : nat) : list Z := map Z.of_nat (seq 0 n).

(** The address [a.b.c.d] as an unsigned 32-bit big-endian integer. *)
Definition be32 (a b c d : byte) : Z :=
  Z_of_byte a * 2 ^ 24 + Z_of_byte b * 2 ^ 16 + Z_of_byte c * 2 ^ 8
  + Z_of_byte d.

(** The numeric value of a four-byte address. *)
Definition ipValue (ip : net.IP) : option Z :=
  match ip with
  | [a; b; c; d] => Some (be32 a b c d)
  | _ => None
  end.

(** The four bytes of an unsigned 32-bit value, most significant first. *)
Definition bytesOf (v : Z) : list byte :=
  [byte_of_Z (v / 2 ^ 24); byte_of_Z (v / 2 ^ 16); byte_of_Z (v / 2 ^ 8);
   byte_of_Z v].

(** [0xFFFFFFFF << (32 - k)] on 32 bits: the mask whose top [k] bits are
    set and whose other bits are clear. *)
Definition prefixMask (k : Z) : Z := shl_uint32 0xFFFFFFFF (32 - k).

(** The numeric value of an address string: the four bytes that
    [calculateSubnet] computes with, read as an unsigned 32-bit big-endian
    integer. *)
Definition addrValue (s : string) : option Z :=
  ipValue (net.To4 (net.ParseIP s)).

(** The error taxonomy of the specification. *)
Inductive SubnetError : Type :=
| InvalidCIDR
| InvalidMaskFormat
| NonContiguousMask
| InvalidIPAddress.

(** The kind of an error of the calculator, read off its message. *)
Definition errorKind (e : error) : option SubnetError :=
  if strings.startsWith "invalid CIDR notation: " e then Some InvalidCIDR
  else if strings.startsWith "invalid subnet mask format: " e
  then Some InvalidMaskFormat
  else if strings.startsWith "not a valid IPv4 mask: " e then Some InvalidMaskFormat
  else if strings.startsWith "invalid subnet mask: " e then Some NonContiguousMask
  else if strings.startsWith "invalid IP address: " e then Some InvalidIPAddress
  else if strings.startsWith "not a valid IPv4 address: " e
  then Some InvalidIPAddress
  else None.

(** [calculateSubnet] fails with an error of the given kind. *)
Definition failsWith (o : outcome (option SubnetResult * option error))
    (k : SubnetError) : Prop :=
  exists e, o = Ret (None, Some e) /\ errorKind e = Some k.

(** [calculateSubnet] accepts the address string. *)
Definition acceptsIP (s : string) : bool :=
  negb (isNil (net.To4 (net.ParseIP s))).

(** The network address: address bitwise-AND mask, octet-wise. *)
Definition networkOf (ipv4 mask : list byte) : list byte :=
  map (fun '(a, m) => byte_and a m) (combine ipv4 mask).

(** The broadcast address: network address bitwise-OR (bitwise-NOT mask),
    octet-wise. *)
Definition broadcastOf (network mask : list byte) : list byte :=
  map (fun '(n, m) => byte_or n (byte_not m)) (combine network mask).

(** Dotted-decimal rendering of a list of octets. *)
Fixpoint renderOctets (l : list byte) : string :=
  match l with
  | [] => EmptyString
  | [x] => netip.appendDecimal x
  | x :: r => (netip.appendDecimal x ++ String "." (renderOctets r))%string
  end.

(** The string contains a colon: it is written in IPv6 syntax. *)
Fixpoint hasColon (s : string) : bool :=
  match s with
  | EmptyString => false
  | String c r => char_eqb c ":" || hasColon r
  end.

(** The digit part of [parseIPv4FieldsLoop]: the state after the decimal
    digits [ds] have been read. *)
Fixpoint octetDigits (ds : string) (prev : option ascii) (val digLen : Z)
  : option (option ascii * Z * Z) :=
  match ds with
  | EmptyString => Some (prev, val, digLen)
  | String c r =>
      if strconv.isDigit c then
        if (digLen =? 1) && (val =? 0) then None
        else
          let val' := val * 10 + code c - 48 in
          if 255 <? val' then None
          else octetDigits r (Some c) val' (digLen + 1)
      else None
  end.

(** The specification's reading of an IPv4 literal: exactly four
    dot-separated segments, each a decimal octet in [[0,255]]. *)
Fixpoint segments (s : string) : list string :=
  match s with
  | EmptyString => [EmptyString]
  | String c r =>
      if netip.isDot c then EmptyString :: segments r
      else
        match segments r with
        | seg :: rest => String c seg :: rest
        | [] => [String c EmptyString]
        end
  end.

Definition isOctetText (seg : string) : bool :=
  match seg with
  | EmptyString => false
  | _ =>
      match strconv.digitsValue seg 0 with
      | Some v => v <=? 255
      | None => false
      end
  end.

Definition isDottedQuad (s : string) : bool :=
  match segments s with
  | [a; b; c; d] =>
      isOctetText a && isOctetText b && isOctetText c && isOctetText d
  | _ => false
  end.

(** A result record with the fields that [calculateSubnet] fills in. *)
Definition resultOf (network broadcast minHost maxHost usable : string)
  : SubnetResult :=
  mkSubnetResult "" "" network broadcast minHost maxHost usable "".

(** The mask [255.255.255.254] of a /31. *)
Definition mask31 : list byte :=
  [byte_of_Z 255; byte_of_Z 255; byte_of_Z 255; byte_of_Z 254].

(** * Auxiliary definitions of the proofs *)

(** Case analysis on an integer [k] known to lie in [0 .. n-1]. *)
Ltac enum_Z k n :=
  let H := fresh "Hin" in
  assert (H : In k (upto n))
    by (unfold upto; apply in_map_iff; exists (Z.to_nat k);
        split; [lia | apply in_seq; lia]);
  vm_compute in H;
  repeat (destruct H as [H | H]; [subst k | ]);
  [ .. | contradiction ].

(** The kinds of error that the mask parser reports. *)
Definition maskErrorKind (k : SubnetError) : Prop :=
  k = InvalidCIDR \/ k = InvalidMaskFormat \/ k = NonContiguousMask.

(** The digits of a byte are read back as its value. *)
Definition octetReadBack (prev : option ascii) (x : byte) : bool :=
  match octetDigits (netip.appendDecimal x) prev 0 0 with
  | Some (Some p, v, _) => (v =? Z_of_byte x) && negb (netip.isDot p)
  | _ => false
  end.

(** Bytes other than the dot, the colon and the percent sign, which
    [ParseAddr] skips. *)
Definition plainChar (c : ascii) : bool :=
  negb (netip.isDot c) && negb (char_eqb c ":") && negb (char_eqb c "%").

Fixpoint allPlain (s : string) : bool :=
  match s with
  | EmptyString => true
  | String c r => plainChar c && allPlain r
  end.

(** The text of the octet being read. *)
Definition curText (val digLen : Z) : string :=
  if digLen =? 0 then EmptyString else netip.appendDecimal (byte_of_Z val).

(** The states that [parseIPv4FieldsLoop] reaches. *)
Definition stateOk (prev : option ascii) (val digLen : Z) : Prop :=
  (digLen = 0 /\ val = 0 /\ (prev = None \/ prev = Some "."%char))
  \/ (1 <= digLen /\ 0 <= val <= 255 /\ (val = 0 -> digLen = 1)
      /\ exists p, prev = Some p /\ netip.isDot p = false).

(** Checks on the decimal text of a byte, decided on all bytes. *)
Definition digitTextCheck (c : byte) : bool :=
  if strconv.isDigit c
  then String.eqb (netip.appendDecimal (byte_of_Z (code c - 48)))
         (String c EmptyString)
  else true.

Definition moreDigitTextCheck (v c : byte) : bool :=
  if strconv.isDigit c && (1 <=? Z_of_byte v)
     && (Z_of_byte v * 10 + code c - 48 <=? 255)
  then String.eqb
         (netip.appendDecimal (byte_of_Z (Z_of_byte v * 10 + code c - 48)))
         (netip.appendDecimal v ++ String c EmptyString)
  else true.

(** Case analysis on the conditions of the goal. *)
Ltac split_ifs :=
  repeat match goal with
         | |- context [if ?b then _ else _] => destruct b eqn:?
         end.

(** Boolean comparisons in the hypotheses, as propositions. *)
Ltac bool_hyps :=
  repeat match goal with
         | H : negb _ = true |- _ => apply negb_true_iff in H
         | H : negb _ = false |- _ => apply negb_false_iff in H
         | H : (_ || _) = false |- _ =>
             apply orb_false_iff in H; destruct H
         | H : (_ && _) = true |- _ =>
             apply andb_true_iff in H; destruct H
         | H : (_ || _) = true |- _ =>
             apply orb_true_iff in H; destruct H
         | H : (_ && _) = false |- _ =>
             apply andb_false_iff in H; destruct H
         | H : (_ <? _) = true |- _ => apply Z.ltb_lt in H
         | H : (_ <? _) = false |- _ => apply Z.ltb_ge in H
         | H : (_ <=? _) = true |- _ => apply Z.leb_le in H
         | H : (_ <=? _) = false |- _ => apply Z.leb_gt in H
         | H : (_ =? _) = true |- _ => apply Z.eqb_eq in H
         | H : (_ =? _) = false |- _ => apply Z.eqb_neq in H
         end.

(** The bits of [2^32 - 2^(32-n)], checked for one [n]. *)
Definition topBitsCheck (n : Z) : bool :=
  forallb (fun i => Bool.eqb (Z.testbit (2 ^ 32 - 2 ^ (32 - n)) i)
                      (32 - n <=? i)) (upto 32).

(** * The rest of the program *)

(** ** [handler] ([main.go])

    The value of [result] when the handler reaches [tmpl.Execute(w, result)],
    as a function of the request method and of the form values
    [r.FormValue("ip")] and [r.FormValue("mask")].  Loading the template
    and writing the response are input and output and stay outside. *)

Definition MethodPost : string := "POST".

Definition set_IPAddress (r : SubnetResult) (v : string) :=
  mkSubnetResult v (SubnetMask r) (NetworkAddress r) (BroadcastAddress r)
    (MinHostAddress r) (MaxHostAddress r) (UsableHosts r) (Error r).
Definition set_SubnetMask (r : SubnetResult) (v : string) :=
  mkSubnetResult (IPAddress r) v (NetworkAddress r) (BroadcastAddress r)
    (MinHostAddress r) (MaxHostAddress r) (UsableHosts r) (Error r).
Definition set_Error (r : SubnetResult) (v : string) :=
  mkSubnetResult (IPAddress r) (SubnetMask r) (NetworkAddress r)
    (BroadcastAddress r) (MinHostAddress r) (MaxHostAddress r)
    (UsableHosts r) v.

(** [p.f] on a pointer to a struct; panics on the nil pointer. *)
Definition deref {A} (p : option A) : outcome A :=
  match p with
  | Some a => Ret a
  | None => Panic "nil pointer dereference"
  end.

Definition handlerResult (method ipForm maskForm : string)
  : outcome SubnetResult :=
  let result := mkSubnetResult "" "" "" "" "" "" "" "" in
  if String.eqb method MethodPost then
    let ip := strings.TrimSpace ipForm in
    let mask := strings.TrimSpace maskForm in
    let result := set_IPAddress result ip in
    let result := set_SubnetMask result mask in
    if negb (String.eqb ip "") && negb (String.eqb mask "") then
      cr <- calculateSubnet ip mask ;;
      let '(calcResult, err) := cr in
      match err with
      | Some e => Ret (set_Error result e)
      | None =>
          c <- deref calcResult ;;
          let result := set_NetworkAddress result (NetworkAddress c) in
          let result := set_BroadcastAddress result (BroadcastAddress c) in
          let result := set_MinHostAddress result (MinHostAddress c) in
          let result := set_MaxHostAddress result (MaxHostAddress c) in
          let result := set_UsableHosts result (UsableHosts c) in
          Ret result
      end
    else Ret result
  else Ret result.

(** ** [main] ([main.go])

    What [main] does with the value of [GO_SUBNET_CALCULATOR_PORT] (the
    empty string when the variable is unset): it stops in [log.Fatalf],
    or prints the banner and calls [http.ListenAndServe] on an address. *)

Inductive mainAction : Type :=
| Fatalf (msg : string)
| ListenAndServe (banner address : string).

Definition newline : string := String (ascii_of_nat 10) EmptyString.

Definition mainAction_of (env : string) : mainAction :=
  let port := env in
  let port := if String.eqb port "" then "8080" else port in
  match strconv.Atoi port with
  | None => Fatalf ("Invalid port number: " ++ port)
  | Some _ =>
      let address := (":" ++ port)%string in
      ListenAndServe
        ("IPv4 Subnet Calculator starting on http://localhost:" ++ port
         ++ newline)
        address
  end.

(** ** [ipEqual] ([main_test.go]) *)

(** [ip.Equal(x)] of package [net]. *)
Definition IP_Equal (ip x : net.IP) : bool :=
  if (List.length ip =? List.length x)%nat then net.bytesEqual ip x
  else if (List.length ip =? net.IPv4len)%nat
          && (List.length x =? net.IPv6len)%nat
  then net.bytesEqual (firstn 12 x) netip.v4InV6Prefix
       && net.bytesEqual ip (skipn 12 x)
  else if (List.length ip =? net.IPv6len)%nat
          && (List.length x =? net.IPv4len)%nat
  then net.bytesEqual (firstn 12 ip) netip.v4InV6Prefix
       && net.bytesEqual (skipn 12 ip) x
  else false.

Definition ipEqual (ip1 ip2 : string) : bool :=
  let parsedIP1 := net.ParseIP ip1 in
  let parsedIP2 := net.ParseIP ip2 in
  IP_Equal parsedIP1 parsedIP2.

(** * Further vocabulary *)

(** A string of ASCII white space: tabs, line feeds, vertical tabs, form
    feeds, carriage returns and spaces. *)
Fixpoint allAsciiSpace (s : string) : bool :=
  match s with
  | EmptyString => true
  | String c r => strings.asciiSpace c && allAsciiSpace r
  end.

(** The byte of a prefix mask whose low [t] bits are clear. *)
Definition maskByte (t : Z) : byte := byte_of_Z (256 - 2 ^ t).

(** The number of clear low bits in byte [i] of the mask of prefix
    length [k]. *)
Definition clearBits (k i : Z) : Z := Z.min 8 (Z.max 0 (8 * (i + 1) - k)).

(** A string of zeros. *)
Fixpoint zeros (n : nat) : string :=
  match n with
  | O => EmptyString
  | S m => String "0" (zeros m)
  end.

(** The bytes an address string can be made of: hexadecimal digits, dots
    and colons. *)
Definition isAddrChar (c : ascii) : bool :=
  match netip.hexVal c with
  | Some _ => true
  | None => netip.isDot c || char_eqb c ":"
  end.

Fixpoint allAddrChars (s : string) : bool :=
  match s with
  | EmptyString => true
  | String c r => isAddrChar c && allAddrChars r
  end.

(** A byte whose leading ones are followed by zeros only is one of the
    nine bytes [maskByte 0 .. maskByte 8]; decided on all bytes. *)
Definition maskByteCheck (v : byte) : bool :=
  if byte_eqb (snd (net.leadingOnesOfByte 8 v 0)) zero
  then existsb (fun t => byte_eqb v (maskByte t)) (upto 9)
  else true.
(** * Properties *)

(** ** Bytes and finite checks *)

Lemma Z_of_byte_range (b : byte) : 0 <= Z_of_byte b < 256.
Proof.
  unfold Z_of_byte. pose proof (N_ascii_bounded b). lia.
Qed.

Lemma byte_of_Z_of_byte (b : byte) : byte_of_Z (Z_of_byte b) = b.
Proof.
  unfold byte_of_Z, Z_of_byte.
  rewrite Z.mod_small by (pose proof (N_ascii_bounded b); lia).
  rewrite N2Z.id. apply ascii_N_embedding.
Qed.

Lemma Z_of_byte_of_Z (z : Z) : Z_of_byte (byte_of_Z z) = z mod 256.
Proof.
  unfold byte_of_Z, Z_of_byte.
  assert (0 <= z mod 256 < 256) by (apply Z.mod_pos_bound; lia).
  rewrite N_ascii_embedding by lia. lia.
Qed.

Lemma Z_of_byte_inj (a b : byte) : Z_of_byte a = Z_of_byte b -> a = b.
Proof.
  intros H. rewrite <- (byte_of_Z_of_byte a), <- (byte_of_Z_of_byte b).
  now rewrite H.
Qed.

Lemma byte_eqb_eq (a b : byte) : byte_eqb a b = true <-> a = b.
Proof.
  unfold byte_eqb. rewrite Z.eqb_eq. split.
  - apply Z_of_byte_inj.
  - now intros ->.
Qed.

Lemma in_all_bytes (b : byte) : In b all_bytes.
Proof.
  unfold all_bytes. apply in_map_iff.
  exists (Z.to_nat (Z_of_byte b)). pose proof (Z_of_byte_range b). split.
  - rewrite Z2Nat.id by lia. apply byte_of_Z_of_byte.
  - apply in_seq. lia.
Qed.

(** A property checked on the 256 bytes holds of every byte. *)
Lemma forall_byte (P : byte -> bool) :
  forallb P all_bytes = true -> forall b, P b = true.
Proof.
  intros H b. rewrite forallb_forall in H. apply H, in_all_bytes.
Qed.

Lemma forall_byte2 (P : byte -> byte -> bool) :
  forallb (fun a => forallb (P a) all_bytes) all_bytes = true ->
  forall a b, P a b = true.
Proof.
  intros H a b.
  apply (forall_byte (P a)). revert a. apply forall_byte. exact H.
Qed.

Lemma in_upto (n : nat) (k : Z) : 0 <= k < Z.of_nat n -> In k (upto n).
Proof.
  intros H. unfold upto. apply in_map_iff. exists (Z.to_nat k). split.
  - lia.
  - apply in_seq. lia.
Qed.

Lemma forall_upto (n : nat) (P : Z -> bool) :
  forallb P (upto n) = true -> forall k, 0 <= k < Z.of_nat n -> P k = true.
Proof.
  intros H k Hk. rewrite forallb_forall in H. apply H, in_upto, Hk.
Qed.

Lemma be32_range (a b c d : byte) : 0 <= be32 a b c d < 2 ^ 32.
Proof.
  unfold be32.
  pose proof (Z_of_byte_range a). pose proof (Z_of_byte_range b).
  pose proof (Z_of_byte_range c). pose proof (Z_of_byte_range d). lia.
Qed.

Lemma bytesOf_be32 (a b c d : byte) : bytesOf (be32 a b c d) = [a; b; c; d].
Proof.
  unfold bytesOf, be32.
  pose proof (Z_of_byte_range a). pose proof (Z_of_byte_range b).
  pose proof (Z_of_byte_range c). pose proof (Z_of_byte_range d).
  repeat f_equal; apply Z_of_byte_inj; rewrite Z_of_byte_of_Z.
  - change (2 ^ 24) with 16777216. change (2 ^ 16) with 65536.
    change (2 ^ 8) with 256.
    Z.div_mod_to_equations. lia.
  - change (2 ^ 24) with 16777216. change (2 ^ 16) with 65536.
    change (2 ^ 8) with 256.
    Z.div_mod_to_equations. lia.
  - change (2 ^ 24) with 16777216. change (2 ^ 16) with 65536.
    change (2 ^ 8) with 256.
    Z.div_mod_to_equations. lia.
  - change (2 ^ 24) with 16777216. change (2 ^ 16) with 65536.
    change (2 ^ 8) with 256.
    Z.div_mod_to_equations. lia.
Qed.

Lemma lor_shifted (x y k : Z) :
  0 <= k -> 0 <= y < 2 ^ k -> Z.lor (x * 2 ^ k) y = x * 2 ^ k + y.
Proof.
  intros Hk Hy.
  rewrite <- Z.add_lor_land.
  assert (E : Z.land (x * 2 ^ k) y = 0).
  { apply Z.bits_inj'. intros n Hn.
    rewrite Z.land_spec, Z.bits_0.
    destruct (Z.ltb_spec n k).
    - rewrite Z.mul_pow2_bits_low by lia. reflexivity.
    - rewrite <- (Z.mod_small y (2 ^ k)) by lia.
      rewrite Z.mod_pow2_bits_high by lia. apply andb_false_r. }
  rewrite E. lia.
Qed.

(** The [maskInt] of [isValidSubnetMask] is the big-endian value. *)
Lemma maskInt_be32 (a b c d : byte) :
  Z.lor (Z.lor (Z.lor (shl_uint32 (Z_of_byte a) 24)
                      (shl_uint32 (Z_of_byte b) 16))
               (shl_uint32 (Z_of_byte c) 8))
        (Z_of_byte d) = be32 a b c d.
Proof.
  unfold shl_uint32, uint32, be32.
  pose proof (Z_of_byte_range a). pose proof (Z_of_byte_range b).
  pose proof (Z_of_byte_range c). pose proof (Z_of_byte_range d).
  rewrite !Z.shiftl_mul_pow2 by lia.
  rewrite !Z.mod_small by lia.
  rewrite (lor_shifted (Z_of_byte a) (Z_of_byte b * 2 ^ 16) 24) by lia.
  replace (Z_of_byte a * 2 ^ 24 + Z_of_byte b * 2 ^ 16)
    with ((Z_of_byte a * 2 ^ 8 + Z_of_byte b) * 2 ^ 16) by lia.
  rewrite (lor_shifted _ (Z_of_byte c * 2 ^ 8) 16) by lia.
  replace ((Z_of_byte a * 2 ^ 8 + Z_of_byte b) * 2 ^ 16 + Z_of_byte c * 2 ^ 8)
    with (((Z_of_byte a * 2 ^ 8 + Z_of_byte b) * 2 ^ 8 + Z_of_byte c) * 2 ^ 8)
    by lia.
  rewrite (lor_shifted _ (Z_of_byte d) 8) by lia.
  lia.
Qed.

(** ** Subnet masks *)

Lemma leadingOnesLoop_bounds (n : nat) (m l : Z) :
  l <= leadingOnesLoop n m l <= l + Z.of_nat n.
Proof.
  revert l. induction n as [| n IH]; intros l; simpl leadingOnesLoop.
  - lia.
  - destruct (negb _).
    + specialize (IH (l + 1)). lia.
    + lia.
Qed.

Lemma isValidSubnetMask_run (a b c d : byte) :
  isValidSubnetMask [a; b; c; d]
  = Ret (be32 a b c d
         =? prefixMask (leadingOnesLoop 32 (be32 a b c d) 0)).
Proof.
  unfold isValidSubnetMask, index. simpl nth_error. unfold bind.
  rewrite maskInt_be32. reflexivity.
Qed.

Lemma prefixMask_valid (k : Z) :
  0 <= k <= 32 ->
  (prefixMask k =? prefixMask (leadingOnesLoop 32 (prefixMask k) 0)) = true.
Proof.
  intros Hk. enum_Z k 33%nat; vm_compute; reflexivity.
Qed.

(** [isValidSubnetMask] accepts exactly the 33 prefix masks. *)
Lemma isValidSubnetMask_iff (a b c d : byte) :
  isValidSubnetMask [a; b; c; d] = Ret true
  <-> exists k, 0 <= k <= 32 /\ be32 a b c d = prefixMask k.
Proof.
  rewrite isValidSubnetMask_run. split.
  - intros H. injection H as H. apply Z.eqb_eq in H.
    exists (leadingOnesLoop 32 (be32 a b c d) 0). split; [| exact H].
    pose proof (leadingOnesLoop_bounds 32 (be32 a b c d) 0). lia.
  - intros [k [Hk E]]. rewrite E. f_equal. apply prefixMask_valid, Hk.
Qed.

Lemma CIDRMask_bytes (k : Z) :
  0 <= k <= 32 -> net.CIDRMask k 32 = bytesOf (prefixMask k).
Proof.
  intros Hk. enum_Z k 33%nat; vm_compute; reflexivity.
Qed.

Lemma CIDRMask_Size (k : Z) :
  0 <= k <= 32 -> net.Size (net.CIDRMask k 32) = (k, 32).
Proof.
  intros Hk. enum_Z k 33%nat; vm_compute; reflexivity.
Qed.

Lemma prefixMask_value (k : Z) :
  0 <= k <= 32 -> prefixMask k = 2 ^ 32 - 2 ^ (32 - k).
Proof.
  intros Hk. enum_Z k 33%nat; vm_compute; reflexivity.
Qed.

Lemma valid_mask_is_CIDRMask (a b c d : byte) :
  isValidSubnetMask [a; b; c; d] = Ret true ->
  exists k, 0 <= k <= 32 /\ [a; b; c; d] = net.CIDRMask k 32.
Proof.
  intros H. apply isValidSubnetMask_iff in H. destruct H as [k [Hk E]].
  exists k. split; [exact Hk |].
  rewrite CIDRMask_bytes by exact Hk. rewrite <- E.
  symmetry. apply bytesOf_be32.
Qed.

(** ** Shapes of the parsed values *)

Lemma To4_As16 (a : netip.Addr) :
  net.To4 (netip.As16 a) = []
  \/ exists b0 b1 b2 b3, net.To4 (netip.As16 a) = [b0; b1; b2; b3].
Proof.
  unfold netip.As16, net.To4.
  set (b := netip.bytes16 a).
  change (List.length [at_ b 0; at_ b 1; at_ b 2; at_ b 3; at_ b 4; at_ b 5;
                       at_ b 6; at_ b 7; at_ b 8; at_ b 9; at_ b 10; at_ b 11;
                       at_ b 12; at_ b 13; at_ b 14; at_ b 15]) with 16%nat.
  change (16 =? net.IPv4len)%nat with false.
  change (16 =? net.IPv6len)%nat with true.
  cbv iota.
  match goal with |- context [if ?c then _ else _] => destruct c end.
  - right. simpl. eauto.
  - left. reflexivity.
Qed.

(** An address string yields either no address or four bytes. *)
Lemma To4_ParseIP_shape (s : string) :
  net.To4 (net.ParseIP s) = []
  \/ exists a b c d, net.To4 (net.ParseIP s) = [a; b; c; d].
Proof.
  unfold net.ParseIP.
  destruct (netip.ParseAddr s) as [a |]; [| left; reflexivity].
  destruct (netip.zone a); [| left; reflexivity].
  apply To4_As16.
Qed.

Lemma To4_nil_of_ParseIP_nil (s : string) :
  net.ParseIP s = [] -> net.To4 (net.ParseIP s) = [].
Proof. intros ->. reflexivity. Qed.

Lemma errorKind_CIDR (m : string) :
  errorKind (fmt.Errorf "invalid CIDR notation: " m "") = Some InvalidCIDR.
Proof. reflexivity. Qed.

Lemma errorKind_format (m : string) :
  errorKind (fmt.Errorf "invalid subnet mask format: " m "")
  = Some InvalidMaskFormat.
Proof. reflexivity. Qed.

Lemma errorKind_notIPv4Mask (m : string) :
  errorKind (fmt.Errorf "not a valid IPv4 mask: " m "")
  = Some InvalidMaskFormat.
Proof. reflexivity. Qed.

Lemma errorKind_contiguous (m : string) :
  errorKind (fmt.Errorf "invalid subnet mask: " m
               " (must have contiguous 1s followed by 0s)")
  = Some NonContiguousMask.
Proof. reflexivity. Qed.

Lemma errorKind_IP (s : string) :
  errorKind (fmt.Errorf "invalid IP address: " s "") = Some InvalidIPAddress.
Proof. reflexivity. Qed.

Lemma errorKind_notIPv4 (s : string) :
  errorKind (fmt.Errorf "not a valid IPv4 address: " s "")
  = Some InvalidIPAddress.
Proof. reflexivity. Qed.

(** [parseSubnetMask] never panics: it returns one of the 33 prefix masks
    and no error, or the nil mask and an error about the mask. *)
Lemma parseSubnetMask_shape (s : string) :
  (exists k, 0 <= k <= 32 /\ parseSubnetMask s = Ret (net.CIDRMask k 32, None))
  \/ (exists e k, parseSubnetMask s = Ret ([], Some e)
                  /\ errorKind e = Some k /\ maskErrorKind k).
Proof.
  unfold parseSubnetMask. set (m := strings.TrimSpace s).
  destruct (strings.HasPrefix m "/") eqn:Hp.
  - assert (Hs : sliceFrom m 1 = Ret (drop 1 m)).
    { destruct m; [discriminate Hp | reflexivity]. }
    rewrite Hs. unfold bind.
    destruct (strconv.Atoi (drop 1 m)) as [cidr |].
    + destruct ((cidr <? 0) || (32 <? cidr)) eqn:Hc.
      * right. eexists _, _. split; [reflexivity |].
        split; [apply errorKind_CIDR | left; reflexivity].
      * left. exists cidr. split; [lia | reflexivity].
    + right. eexists _, _. split; [reflexivity |].
      split; [apply errorKind_CIDR | left; reflexivity].
  - destruct (isNil (net.ParseIP m)) eqn:Hip.
    + right. eexists _, _. split; [reflexivity |].
      split; [apply errorKind_format | right; left; reflexivity].
    + destruct (To4_ParseIP_shape m) as [E | [a [b [c [d E]]]]]; rewrite E.
      * right. eexists _, _. split; [reflexivity |].
        split; [apply errorKind_notIPv4Mask | right; left; reflexivity].
      * simpl isNil. cbv iota.
        rewrite isValidSubnetMask_run. unfold bind.
        destruct (be32 a b c d =? _) eqn:Hv.
        -- left.
           destruct (valid_mask_is_CIDRMask a b c d) as [k [Hk Ek]].
           { rewrite isValidSubnetMask_run, Hv. reflexivity. }
           exists k. split; [exact Hk |]. simpl negb. cbv iota.
           rewrite Ek. reflexivity.
        -- right. eexists _, _. split; [reflexivity |].
           split; [apply errorKind_contiguous | right; right; reflexivity].
Qed.

(** ** Octet-wise arithmetic *)

Lemma byte_and_le_l (a m : byte) : Z_of_byte (byte_and a m) <= Z_of_byte a.
Proof.
  apply Z.leb_le.
  apply (forall_byte2 (fun a m => Z_of_byte (byte_and a m) <=? Z_of_byte a)).
  vm_compute. reflexivity.
Qed.

Lemma byte_and_le_r (a m : byte) : Z_of_byte (byte_and a m) <= Z_of_byte m.
Proof.
  apply Z.leb_le.
  apply (forall_byte2 (fun a m => Z_of_byte (byte_and a m) <=? Z_of_byte m)).
  vm_compute. reflexivity.
Qed.

Lemma byte_or_not_ge_l (a m : byte) :
  Z_of_byte a <= Z_of_byte (byte_or (byte_and a m) (byte_not m)).
Proof.
  apply Z.leb_le.
  apply (forall_byte2
           (fun a m => Z_of_byte a
                       <=? Z_of_byte (byte_or (byte_and a m) (byte_not m)))).
  vm_compute. reflexivity.
Qed.

Lemma byte_or_not_ge_r (a m : byte) :
  255 - Z_of_byte m <= Z_of_byte (byte_or (byte_and a m) (byte_not m)).
Proof.
  apply Z.leb_le.
  apply (forall_byte2
           (fun a m => 255 - Z_of_byte m
                       <=? Z_of_byte (byte_or (byte_and a m) (byte_not m)))).
  vm_compute. reflexivity.
Qed.

Lemma byte_and_ff (a : byte) : byte_and a (byte_of_Z 255) = a.
Proof.
  apply byte_eqb_eq.
  apply (forall_byte (fun a => byte_eqb (byte_and a (byte_of_Z 255)) a)).
  vm_compute. reflexivity.
Qed.

Lemma be32_bytesOf (v : Z) :
  0 <= v < 2 ^ 32 ->
  match bytesOf v with
  | [a; b; c; d] => be32 a b c d = v
  | _ => False
  end.
Proof.
  intros Hv. unfold bytesOf, be32. rewrite !Z_of_byte_of_Z.
  change (2 ^ 32) with 4294967296 in Hv.
  change (2 ^ 24) with 16777216. change (2 ^ 16) with 65536.
  change (2 ^ 8) with 256.
  Z.div_mod_to_equations. lia.
Qed.

(** ** The loops of [calculateSubnet] *)

Lemma Mask_four (a b c d m0 m1 m2 m3 : byte) :
  net.Mask [a; b; c; d] [m0; m1; m2; m3]
  = networkOf [a; b; c; d] [m0; m1; m2; m3].
Proof. reflexivity. Qed.

Lemma broadcastLoop_four (n0 n1 n2 n3 m0 m1 m2 m3 : byte) :
  broadcastLoop 4 0 [n0; n1; n2; n3] [m0; m1; m2; m3] (make 4)
  = Ret (broadcastOf [n0; n1; n2; n3] [m0; m1; m2; m3]).
Proof. reflexivity. Qed.

(** Adding one to an address is the numeric increment modulo [2^32], the
    carry propagating across all four octets. *)
Lemma addOneLoop_four (a b c d : byte) :
  exists a' b' c' d',
    addOneLoop 4 [a; b; c; d] = Ret [a'; b'; c'; d']
    /\ be32 a' b' c' d' = (be32 a b c d + 1) mod 2 ^ 32.
Proof.
  pose proof (Z_of_byte_range a) as Ha. pose proof (Z_of_byte_range b) as Hb.
  pose proof (Z_of_byte_range c) as Hc. pose proof (Z_of_byte_range d) as Hd.
  cbn [addOneLoop index nth_error bind store].
  destruct (Z_of_byte d <? 255) eqn:Ed;
    [| destruct (Z_of_byte c <? 255) eqn:Ec;
       [| destruct (Z_of_byte b <? 255) eqn:Eb;
          [| destruct (Z_of_byte a <? 255) eqn:Ea]]];
    cbn [addOneLoop index nth_error bind store];
    (eexists _, _, _, _; split; [reflexivity |]);
    unfold be32; rewrite ?Z_of_byte_of_Z; change (0 mod 256) with 0;
    rewrite ?Z.ltb_lt, ?Z.ltb_ge in *.
  - rewrite (Z.mod_small (Z_of_byte d + 1)) by lia.
    rewrite Z.mod_small by lia. lia.
  - rewrite (Z.mod_small (Z_of_byte c + 1)) by lia.
    rewrite Z.mod_small by lia. lia.
  - rewrite (Z.mod_small (Z_of_byte b + 1)) by lia.
    rewrite Z.mod_small by lia. lia.
  - rewrite (Z.mod_small (Z_of_byte a + 1)) by lia.
    rewrite Z.mod_small by lia. lia.
  - replace (Z_of_byte a) with 255 by lia.
    replace (Z_of_byte b) with 255 by lia.
    replace (Z_of_byte c) with 255 by lia.
    replace (Z_of_byte d) with 255 by lia.
    reflexivity.
Qed.

(** Subtracting one from an address is the numeric decrement modulo
    [2^32], the borrow propagating across all four octets. *)
Lemma subOneLoop_four (a b c d : byte) :
  exists a' b' c' d',
    subOneLoop 4 [a; b; c; d] = Ret [a'; b'; c'; d']
    /\ be32 a' b' c' d' = (be32 a b c d - 1) mod 2 ^ 32.
Proof.
  pose proof (Z_of_byte_range a) as Ha. pose proof (Z_of_byte_range b) as Hb.
  pose proof (Z_of_byte_range c) as Hc. pose proof (Z_of_byte_range d) as Hd.
  cbn [subOneLoop index nth_error bind store].
  destruct (0 <? Z_of_byte d) eqn:Ed;
    [| destruct (0 <? Z_of_byte c) eqn:Ec;
       [| destruct (0 <? Z_of_byte b) eqn:Eb;
          [| destruct (0 <? Z_of_byte a) eqn:Ea]]];
    cbn [subOneLoop index nth_error bind store];
    (eexists _, _, _, _; split; [reflexivity |]);
    unfold be32; rewrite ?Z_of_byte_of_Z; change (255 mod 256) with 255;
    rewrite ?Z.ltb_lt, ?Z.ltb_ge in *.
  - rewrite (Z.mod_small (Z_of_byte d - 1)) by lia.
    rewrite Z.mod_small by lia. lia.
  - rewrite (Z.mod_small (Z_of_byte c - 1)) by lia.
    rewrite Z.mod_small by lia. lia.
  - rewrite (Z.mod_small (Z_of_byte b - 1)) by lia.
    rewrite Z.mod_small by lia. lia.
  - rewrite (Z.mod_small (Z_of_byte a - 1)) by lia.
    rewrite Z.mod_small by lia. lia.
  - replace (Z_of_byte a) with 0 by lia.
    replace (Z_of_byte b) with 0 by lia.
    replace (Z_of_byte c) with 0 by lia.
    replace (Z_of_byte d) with 0 by lia.
    reflexivity.
Qed.

(** ** Numeric order of network, address and broadcast *)

Lemma network_le_address (a b c d m0 m1 m2 m3 : byte) :
  be32 (byte_and a m0) (byte_and b m1) (byte_and c m2) (byte_and d m3)
  <= be32 a b c d.
Proof.
  unfold be32.
  pose proof (byte_and_le_l a m0). pose proof (byte_and_le_l b m1).
  pose proof (byte_and_le_l c m2). pose proof (byte_and_le_l d m3). lia.
Qed.

Lemma network_le_mask (a b c d m0 m1 m2 m3 : byte) :
  be32 (byte_and a m0) (byte_and b m1) (byte_and c m2) (byte_and d m3)
  <= be32 m0 m1 m2 m3.
Proof.
  unfold be32.
  pose proof (byte_and_le_r a m0). pose proof (byte_and_le_r b m1).
  pose proof (byte_and_le_r c m2). pose proof (byte_and_le_r d m3). lia.
Qed.

Lemma address_le_broadcast (a b c d m0 m1 m2 m3 : byte) :
  be32 a b c d
  <= be32 (byte_or (byte_and a m0) (byte_not m0))
          (byte_or (byte_and b m1) (byte_not m1))
          (byte_or (byte_and c m2) (byte_not m2))
          (byte_or (byte_and d m3) (byte_not m3)).
Proof.
  unfold be32.
  pose proof (byte_or_not_ge_l a m0). pose proof (byte_or_not_ge_l b m1).
  pose proof (byte_or_not_ge_l c m2). pose proof (byte_or_not_ge_l d m3). lia.
Qed.

Lemma broadcast_ge_hostmask (a b c d m0 m1 m2 m3 : byte) :
  2 ^ 32 - 1 - be32 m0 m1 m2 m3
  <= be32 (byte_or (byte_and a m0) (byte_not m0))
          (byte_or (byte_and b m1) (byte_not m1))
          (byte_or (byte_and c m2) (byte_not m2))
          (byte_or (byte_and d m3) (byte_not m3)).
Proof.
  unfold be32.
  pose proof (byte_or_not_ge_r a m0). pose proof (byte_or_not_ge_r b m1).
  pose proof (byte_or_not_ge_r c m2). pose proof (byte_or_not_ge_r d m3). lia.
Qed.

(** ** Usable hosts *)

Lemma usableHosts_value (k : Z) :
  0 <= k <= 30 ->
  (let usableHosts := wrap_int (totalHostsOf k - 2) in
   if usableHosts <? 0 then 0 else usableHosts) = 2 ^ (32 - k) - 2.
Proof.
  intros Hk. enum_Z k 31%nat; vm_compute; reflexivity.
Qed.

Lemma FormatInt_Atoi_usable (k : Z) :
  0 <= k <= 30 ->
  strconv.Atoi (strconv.FormatInt (2 ^ (32 - k) - 2)) = Some (2 ^ (32 - k) - 2).
Proof.
  intros Hk. enum_Z k 31%nat; vm_compute; reflexivity.
Qed.

Lemma ParseIP_not_nil (s : string) (a b c d : byte) :
  net.To4 (net.ParseIP s) = [a; b; c; d] -> isNil (net.ParseIP s) = false.
Proof.
  destruct (net.ParseIP s); [discriminate | reflexivity].
Qed.

Lemma pow2_host_bits (k : Z) :
  0 <= k <= 30 -> 4 <= 2 ^ (32 - k) <= 2 ^ 32.
Proof.
  intros Hk. enum_Z k 31%nat; vm_compute; split; discriminate.
Qed.

Lemma be32_CIDRMask (k : Z) :
  0 <= k <= 32 ->
  exists m0 m1 m2 m3,
    net.CIDRMask k 32 = [m0; m1; m2; m3]
    /\ be32 m0 m1 m2 m3 = 2 ^ 32 - 2 ^ (32 - k).
Proof.
  intros Hk. rewrite CIDRMask_bytes by exact Hk.
  assert (Hr : 0 <= prefixMask k < 2 ^ 32).
  { unfold prefixMask, shl_uint32, uint32. apply Z.mod_pos_bound. lia. }
  pose proof (be32_bytesOf (prefixMask k) Hr) as E.
  unfold bytesOf in *. eexists _, _, _, _. split; [reflexivity |].
  rewrite E. apply prefixMask_value, Hk.
Qed.

(** What [calculateSubnet] returns for an accepted address and an accepted
    mask of prefix length [k]. *)
Lemma calculateSubnet_ok (ipStr maskStr : string) (a b c d : byte) (k : Z) :
  net.To4 (net.ParseIP ipStr) = [a; b; c; d] ->
  0 <= k <= 32 ->
  parseSubnetMask maskStr = Ret (net.CIDRMask k 32, None) ->
  let ipv4 := [a; b; c; d] in
  let network := networkOf ipv4 (net.CIDRMask k 32) in
  let broadcast := broadcastOf network (net.CIDRMask k 32) in
  exists r,
    calculateSubnet ipStr maskStr = Ret (Some r, None)
    /\ IPAddress r = "" /\ SubnetMask r = "" /\ Error r = ""
    /\ ((k = 32
         /\ NetworkAddress r = net.String_ ipv4
         /\ BroadcastAddress r = net.String_ ipv4
         /\ MinHostAddress r = "N/A" /\ MaxHostAddress r = "N/A"
         /\ UsableHosts r = "0")
        \/ (k = 31
            /\ NetworkAddress r = net.String_ network
            /\ BroadcastAddress r = net.String_ broadcast
            /\ MinHostAddress r = "N/A" /\ MaxHostAddress r = "N/A"
            /\ UsableHosts r = "0")
        \/ (k <= 30
            /\ NetworkAddress r = net.String_ network
            /\ BroadcastAddress r = net.String_ broadcast
            /\ (exists minHost maxHost n bc,
                   MinHostAddress r = net.String_ minHost
                   /\ MaxHostAddress r = net.String_ maxHost
                   /\ ipValue network = Some n
                   /\ ipValue broadcast = Some bc
                   /\ ipValue minHost = Some (n + 1)
                   /\ ipValue maxHost = Some (bc - 1))
            /\ UsableHosts r = strconv.FormatInt (2 ^ (32 - k) - 2))).
Proof.
  intros Hip Hk Hm ipv4 network broadcast.
  subst ipv4 network broadcast.
  unfold calculateSubnet.
  rewrite (ParseIP_not_nil _ _ _ _ _ Hip), Hip, Hm.
  cbn [isNil bind]. rewrite (CIDRMask_Size k Hk).
  destruct (be32_CIDRMask k Hk) as [m0 [m1 [m2 [m3 [Em Ev]]]]].
  rewrite Em. rewrite Mask_four. unfold networkOf. cbn [combine map].
  rewrite broadcastLoop_four. cbn [bind]. unfold broadcastOf.
  cbn [combine map copy make repeat].
  destruct (k =? 32) eqn:E32.
  { apply Z.eqb_eq in E32. eexists. split; [reflexivity |].
    cbn. repeat split. left. repeat split. exact E32. }
  destruct (k =? 31) eqn:E31.
  { apply Z.eqb_eq in E31. eexists. split; [reflexivity |].
    cbn -[net.String_]. repeat split. right. left. repeat split. exact E31. }
  apply Z.eqb_neq in E32, E31. assert (Hk' : 0 <= k <= 30) by lia.
  set (n0 := byte_and a m0). set (n1 := byte_and b m1).
  set (n2 := byte_and c m2). set (n3 := byte_and d m3).
  set (b0 := byte_or n0 (byte_not m0)). set (b1 := byte_or n1 (byte_not m1)).
  set (b2 := byte_or n2 (byte_not m2)). set (b3 := byte_or n3 (byte_not m3)).
  destruct (addOneLoop_four n0 n1 n2 n3) as [x0 [x1 [x2 [x3 [Ex Vx]]]]].
  destruct (subOneLoop_four b0 b1 b2 b3) as [y0 [y1 [y2 [y3 [Ey Vy]]]]].
  rewrite Ex, Ey. cbn [bind].
  pose proof (usableHosts_value k Hk') as Hu. cbv zeta in Hu. rewrite Hu.
  eexists. split; [reflexivity |].
  cbn -[net.String_ Z.pow Z.sub]. repeat split. right. right.
  split; [lia |]. split; [reflexivity |]. split; [reflexivity |].
  split; [| reflexivity].
  exists [x0; x1; x2; x3], [y0; y1; y2; y3], (be32 n0 n1 n2 n3),
    (be32 b0 b1 b2 b3).
  split; [reflexivity |]. split; [reflexivity |].
  split; [reflexivity |]. split; [reflexivity |].
  pose proof (pow2_host_bits k Hk') as Hp.
  pose proof (network_le_mask a b c d m0 m1 m2 m3) as Hn.
  pose proof (broadcast_ge_hostmask a b c d m0 m1 m2 m3) as Hb.
  fold n0 n1 n2 n3 in Hn, Hb. fold b0 b1 b2 b3 in Hb.
  pose proof (be32_range n0 n1 n2 n3). pose proof (be32_range b0 b1 b2 b3).
  cbn [ipValue]. rewrite Vx, Vy.
  rewrite !Z.mod_small by lia. split; reflexivity.
Qed.

(** ** Printing an address and parsing it back *)

Lemma append_empty_r (s : string) : (s ++ "")%string = s.
Proof. induction s as [| c s IH]; simpl; [| rewrite IH]; reflexivity. Qed.

Lemma append_assoc (s t u : string) :
  ((s ++ t) ++ u)%string = (s ++ (t ++ u))%string.
Proof. induction s as [| c s IH]; simpl; [| rewrite IH]; reflexivity. Qed.

Lemma String_four (a b c d : byte) :
  net.String_ [a; b; c; d] = netip.string4 a b c d.
Proof. reflexivity. Qed.

Lemma string4_render (a b c d : byte) :
  netip.string4 a b c d = renderOctets [a; b; c; d].
Proof.
  unfold netip.string4, renderOctets. reflexivity.
Qed.

Lemma loop_digits (ds rest : string) :
  forall prev val pos digLen fields,
    match octetDigits ds prev val digLen with
    | Some (p', v', l') =>
        netip.parseIPv4FieldsLoop (ds ++ rest) prev val pos digLen fields
        = netip.parseIPv4FieldsLoop rest p' v' pos l' fields
    | None => True
    end.
Proof.
  induction ds as [| c r IH]; intros prev val pos digLen fields.
  - reflexivity.
  - cbn [octetDigits append netip.parseIPv4FieldsLoop].
    destruct (strconv.isDigit c); [| exact I].
    destruct ((digLen =? 1) && (val =? 0)); [exact I |].
    cbv zeta. destruct (255 <? val * 10 + code c - 48); [exact I |].
    apply IH.
Qed.

Lemma octetReadBack_ok (prev : option ascii) (x : byte) :
  prev = None \/ prev = Some "."%char -> octetReadBack prev x = true.
Proof.
  intros [-> | ->]; revert x; apply forall_byte; vm_compute; reflexivity.
Qed.

Lemma appendDecimal_cons (x : byte) (rest : string) :
  exists c t, (netip.appendDecimal x ++ rest)%string = String c t.
Proof.
  unfold netip.appendDecimal. cbv zeta.
  destruct (100 <=? Z_of_byte x); destruct (10 <=? Z_of_byte x);
    simpl; eauto.
Qed.

(** One octet followed by a dot and more text. *)
Lemma loop_octet_dot (x : byte) (rest : string) (prev : option ascii)
    (pos : nat) (fields : list byte) :
  prev = None \/ prev = Some "."%char ->
  (pos < 3)%nat ->
  rest <> EmptyString ->
  netip.parseIPv4FieldsLoop
    (netip.appendDecimal x ++ String "." rest) prev 0 pos 0 fields
  = netip.parseIPv4FieldsLoop rest (Some "."%char) 0 (S pos) 0
      (update fields pos x).
Proof.
  intros Hprev Hpos Hrest.
  pose proof (octetReadBack_ok prev x Hprev) as Hx. unfold octetReadBack in Hx.
  pose proof (loop_digits (netip.appendDecimal x) (String "." rest)
                prev 0 pos 0 fields) as Hd.
  destruct (octetDigits (netip.appendDecimal x) prev 0 0)
    as [[[[p |] v] l] |]; try discriminate Hx.
  apply andb_true_iff in Hx. destruct Hx as [Hv Hp]. apply Z.eqb_eq in Hv.
  rewrite Hd. cbn [netip.parseIPv4FieldsLoop].
  change (strconv.isDigit ".") with false.
  change (netip.isDot ".") with true. cbv iota.
  apply negb_true_iff in Hp. rewrite Hp.
  destruct rest as [| c r]; [contradiction |].
  cbn [orb]. cbv iota.
  destruct (pos =? 3)%nat eqn:E3; [apply Nat.eqb_eq in E3; lia |].
  rewrite Hv, byte_of_Z_of_byte. reflexivity.
Qed.

(** The last octet. *)
Lemma loop_octet_end (x : byte) (prev : option ascii) (fields : list byte) :
  prev = None \/ prev = Some "."%char ->
  netip.parseIPv4FieldsLoop (netip.appendDecimal x) prev 0 3 0 fields
  = Some (update fields 3 x).
Proof.
  intros Hprev.
  pose proof (octetReadBack_ok prev x Hprev) as Hx. unfold octetReadBack in Hx.
  pose proof (loop_digits (netip.appendDecimal x) EmptyString
                prev 0 3%nat 0 fields) as Hd.
  rewrite append_empty_r in Hd.
  destruct (octetDigits (netip.appendDecimal x) prev 0 0)
    as [[[[p |] v] l] |]; try discriminate Hx.
  apply andb_true_iff in Hx. destruct Hx as [Hv Hp]. apply Z.eqb_eq in Hv.
  rewrite Hd. cbn [netip.parseIPv4FieldsLoop Nat.ltb Nat.leb].
  rewrite Hv, byte_of_Z_of_byte. reflexivity.
Qed.

Lemma appendDecimal_nonempty (x : byte) (rest : string) :
  (netip.appendDecimal x ++ rest)%string <> EmptyString.
Proof.
  destruct (appendDecimal_cons x rest) as [c [t E]]. rewrite E. discriminate.
Qed.

(** Parsing the dotted-decimal text of four octets yields the octets. *)
Lemma parseIPv4Fields_string4 (a b c d : byte) :
  netip.parseIPv4Fields (netip.string4 a b c d) = Some [a; b; c; d].
Proof.
  unfold netip.parseIPv4Fields, netip.string4.
  change (netip.appendDecimal a ++ "." ++ netip.appendDecimal b ++ "."
          ++ netip.appendDecimal c ++ "." ++ netip.appendDecimal d)%string
    with (netip.appendDecimal a
          ++ String "." (netip.appendDecimal b
          ++ String "." (netip.appendDecimal c
          ++ String "." (netip.appendDecimal d))))%string.
  rewrite loop_octet_dot;
    [| left; reflexivity | lia | apply appendDecimal_nonempty].
  rewrite loop_octet_dot;
    [| right; reflexivity | lia | apply appendDecimal_nonempty].
  rewrite loop_octet_dot;
    [| right; reflexivity | lia
     | rewrite <- (append_empty_r (netip.appendDecimal d));
       apply appendDecimal_nonempty].
  rewrite loop_octet_end by (right; reflexivity).
  reflexivity.
Qed.

Lemma scan_plain (ds rest whole : string) :
  allPlain ds = true ->
  netip.parseAddrScan (ds ++ rest) whole = netip.parseAddrScan rest whole.
Proof.
  induction ds as [| c r IH]; intros H; [reflexivity |].
  cbn [allPlain] in H. apply andb_true_iff in H. destruct H as [Hc Hr].
  unfold plainChar in Hc. rewrite !andb_true_iff, !negb_true_iff in Hc.
  destruct Hc as [[H1 H2] H3].
  cbn [append netip.parseAddrScan]. rewrite H1, H2, H3. apply IH, Hr.
Qed.

Lemma appendDecimal_plain (x : byte) : allPlain (netip.appendDecimal x) = true.
Proof.
  revert x. apply forall_byte. vm_compute. reflexivity.
Qed.

Lemma scan_string4 (a b c d : byte) (whole : string) :
  netip.parseAddrScan (netip.string4 a b c d) whole = netip.parseIPv4 whole.
Proof.
  unfold netip.string4.
  rewrite scan_plain by apply appendDecimal_plain.
  reflexivity.
Qed.

Lemma ParseAddr_string4 (a b c d : byte) :
  netip.ParseAddr (netip.string4 a b c d)
  = Some (netip.AddrFrom4 [a; b; c; d]).
Proof.
  unfold netip.ParseAddr. rewrite scan_string4.
  unfold netip.parseIPv4. rewrite parseIPv4Fields_string4. reflexivity.
Qed.

(** Every dotted-decimal text of four octets is accepted as an address and
    denotes these octets. *)
Lemma To4_ParseIP_string4 (a b c d : byte) :
  net.To4 (net.ParseIP (netip.string4 a b c d)) = [a; b; c; d].
Proof.
  unfold net.ParseIP. rewrite ParseAddr_string4. reflexivity.
Qed.

Lemma addrValue_String (a b c d : byte) :
  addrValue (net.String_ [a; b; c; d]) = Some (be32 a b c d).
Proof.
  unfold addrValue. rewrite String_four, To4_ParseIP_string4. reflexivity.
Qed.

(** ** Parsing an address and printing it back *)

Lemma code_inj (c d : ascii) : code c = code d -> c = d.
Proof. apply Z_of_byte_inj. Qed.

Lemma isDot_eq (c : ascii) : netip.isDot c = true -> c = "."%char.
Proof.
  unfold netip.isDot, char_eqb. intros H. apply Z.eqb_eq in H.
  apply code_inj, H.
Qed.

Lemma isDigit_range (c : ascii) :
  strconv.isDigit c = true -> 48 <= code c <= 57.
Proof. unfold strconv.isDigit. lia. Qed.

Lemma isDigit_not_dot (c : ascii) :
  strconv.isDigit c = true -> netip.isDot c = false.
Proof.
  intros H. apply isDigit_range in H.
  unfold netip.isDot, char_eqb. change (code ".") with 46. lia.
Qed.

Lemma digit_text (c : ascii) :
  strconv.isDigit c = true ->
  netip.appendDecimal (byte_of_Z (code c - 48)) = String c EmptyString.
Proof.
  intros H. apply String.eqb_eq.
  assert (G : digitTextCheck c = true).
  { revert c H. intros c _. revert c. apply forall_byte.
    vm_compute. reflexivity. }
  unfold digitTextCheck in G. rewrite H in G. exact G.
Qed.

Lemma more_digit_text (val : Z) (c : ascii) :
  strconv.isDigit c = true -> 1 <= val -> val * 10 + code c - 48 <= 255 ->
  netip.appendDecimal (byte_of_Z (val * 10 + code c - 48))
  = (netip.appendDecimal (byte_of_Z val) ++ String c EmptyString)%string.
Proof.
  intros Hd Hv Hle.
  pose proof (isDigit_range c Hd) as Hc.
  assert (G : moreDigitTextCheck (byte_of_Z val) c = true).
  { apply forall_byte2. vm_compute. reflexivity. }
  unfold moreDigitTextCheck in G. rewrite Z_of_byte_of_Z in G.
  rewrite (Z.mod_small val 256) in G by lia.
  rewrite Hd in G.
  destruct (1 <=? val) eqn:E1; [| lia].
  destruct (val * 10 + code c - 48 <=? 255) eqn:E2; [| lia].
  cbn [andb] in G. apply String.eqb_eq in G. exact G.
Qed.

Lemma loop_render (s : string) :
  forall prev val pos digLen f0 f1 f2 f3 out,
    stateOk prev val digLen ->
    (digLen = 0 -> s <> EmptyString) ->
    (pos <= 3)%nat ->
    netip.parseIPv4FieldsLoop s prev val pos digLen [f0; f1; f2; f3]
    = Some out ->
    List.length out = 4%nat
    /\ firstn pos out = firstn pos [f0; f1; f2; f3]
    /\ (curText val digLen ++ s)%string = renderOctets (skipn pos out).
Proof.
  induction s as [| c r IH];
    intros prev val pos digLen f0 f1 f2 f3 out Hok Hne Hpos Hrun.
  - cbn [netip.parseIPv4FieldsLoop] in Hrun.
    destruct (pos <? 3)%nat eqn:E; [discriminate |].
    apply Nat.ltb_ge in E. assert (pos = 3%nat) by lia. subst pos.
    injection Hrun as <-. cbn [update firstn skipn List.length renderOctets].
    split; [reflexivity |]. split; [reflexivity |].
    unfold curText. destruct (digLen =? 0) eqn:E0.
    + apply Z.eqb_eq in E0. exfalso. now apply Hne.
    + apply append_empty_r.
  - cbn [netip.parseIPv4FieldsLoop] in Hrun.
    destruct (strconv.isDigit c) eqn:Hd.
    + destruct ((digLen =? 1) && (val =? 0)) eqn:Hlz; [discriminate |].
      cbv zeta in Hrun.
      destruct (255 <? val * 10 + code c - 48) eqn:Hbig; [discriminate |].
      apply Z.ltb_ge in Hbig. pose proof (isDigit_range c Hd) as Hc.
      assert (Hval : 0 <= val /\ 0 <= digLen
                     /\ (digLen = 0 -> val = 0) /\ (1 <= digLen -> 1 <= val)).
      { destruct Hok as [[-> [-> _]] | [H1 [H2 [H3 _]]]]; [lia |].
        repeat split; lia. }
      destruct Hval as [Hv0 [Hl0 [Hz Hnz]]].
      destruct (IH (Some c) (val * 10 + code c - 48) pos (digLen + 1)
                  f0 f1 f2 f3 out) as [L [F T]].
      * right. split; [lia |]. split; [lia |]. split.
        -- intros E. destruct (Z.eq_dec digLen 0) as [-> |]; [reflexivity |].
           assert (1 <= val) by (apply Hnz; lia). lia.
        -- exists c. split; [reflexivity | apply isDigit_not_dot, Hd].
      * lia.
      * exact Hpos.
      * exact Hrun.
      * split; [exact L |]. split; [exact F |]. rewrite <- T.
        unfold curText.
        destruct (digLen + 1 =? 0) eqn:E1; [lia |].
        destruct (digLen =? 0) eqn:E0.
        -- apply Z.eqb_eq in E0. rewrite (Hz E0).
           change (0 * 10 + code c - 48) with (code c - 48).
           rewrite digit_text by exact Hd. reflexivity.
        -- apply Z.eqb_neq in E0.
           rewrite more_digit_text by (try exact Hd; try apply Hnz; lia).
           rewrite append_assoc. reflexivity.
    + destruct (netip.isDot c) eqn:Hdot; [| discriminate].
      apply isDot_eq in Hdot. subst c.
      destruct Hok as [[_ [_ Hp]] | [Hl [Hv [_ [p [-> Hp]]]]]].
      { destruct Hp as [-> | ->]; discriminate Hrun. }
      rewrite Hp in Hrun. cbn [orb] in Hrun.
      destruct r as [| c' r']; [discriminate |].
      destruct (pos =? 3)%nat eqn:E3; [discriminate |].
      apply Nat.eqb_neq in E3.
      assert (Hcur : curText val digLen
                     = netip.appendDecimal (byte_of_Z val)).
      { unfold curText. destruct (digLen =? 0) eqn:E0; [lia | reflexivity]. }
      rewrite Hcur.
      assert (Hpos' : (pos = 0 \/ pos = 1 \/ pos = 2)%nat) by lia.
      destruct Hpos' as [-> | [-> | ->]]; cbn [update] in Hrun;
        (eapply IH in Hrun;
         [| left; repeat split; right; reflexivity | discriminate | lia]);
        destruct Hrun as [L [F T]];
        destruct out as [| o0 [| o1 [| o2 [| o3 [| ? ?]]]]];
        try discriminate L;
        cbn [firstn skipn] in *; unfold curText in T;
        change (0 =? 0) with true in T; cbv iota in T;
        cbn [append] in T;
        (split; [reflexivity |]); injection F as; subst;
        (split; [reflexivity |]);
        cbn [renderOctets]; rewrite T; reflexivity.
Qed.

(** A text that [parseIPv4Fields] accepts is the dotted-decimal text of
    the octets it returns: no leading zeros, no other spelling. *)
Lemma parseIPv4Fields_render (s : string) (out : list byte) :
  netip.parseIPv4Fields s = Some out ->
  exists a b c d, out = [a; b; c; d] /\ s = netip.string4 a b c d.
Proof.
  unfold netip.parseIPv4Fields. intros H.
  destruct s as [| c r]; [discriminate H |].
  apply loop_render in H.
  - destruct H as [L [_ T]].
    destruct out as [| o0 [| o1 [| o2 [| o3 [| ? ?]]]]]; try discriminate L.
    exists o0, o1, o2, o3. split; [reflexivity |].
    rewrite string4_render. exact T.
  - left. repeat split. left. reflexivity.
  - discriminate.
  - lia.
Qed.

Lemma scan_cases (s whole : string) (a : netip.Addr) :
  netip.parseAddrScan s whole = Some a ->
  netip.parseIPv4 whole = Some a \/ hasColon s = true.
Proof.
  induction s as [| c r IH]; intros H; [discriminate |].
  cbn [netip.parseAddrScan hasColon] in *.
  destruct (netip.isDot c); [left; exact H |].
  destruct (char_eqb c ":"); [right; reflexivity |].
  destruct (char_eqb c "%"); [discriminate |].
  apply IH, H.
Qed.

(** An accepted address string without a colon is the dotted-decimal text
    of its four octets. *)
Lemma accepted_dotted (ip : string) (a b c d : byte) :
  net.To4 (net.ParseIP ip) = [a; b; c; d] ->
  hasColon ip = false ->
  ip = netip.string4 a b c d.
Proof.
  unfold net.ParseIP. intros H Hc.
  destruct (netip.ParseAddr ip) as [addr |] eqn:E; [| discriminate].
  apply scan_cases in E. destruct E as [E | E]; [| congruence].
  unfold netip.parseIPv4 in E.
  destruct (netip.parseIPv4Fields ip) as [out |] eqn:F; [| discriminate].
  injection E as <-.
  apply parseIPv4Fields_render in F.
  destruct F as [o0 [o1 [o2 [o3 [-> ->]]]]].
  cbn in H. injection H as -> -> -> ->. reflexivity.
Qed.

(** ** Strings that cannot be addresses *)

Lemma scan_none (s whole : string) :
  netip.parseIPv4 whole = None -> netip.parseIPv6 whole = None ->
  netip.parseAddrScan s whole = None.
Proof.
  intros H4 H6. induction s as [| c r IH]; [reflexivity |].
  cbn [netip.parseAddrScan].
  destruct (netip.isDot c); [exact H4 |].
  destruct (char_eqb c ":"); [exact H6 |].
  destruct (char_eqb c "%"); [reflexivity | exact IH].
Qed.

Lemma hexVal_none_not_digit (c : ascii) :
  netip.hexVal c = None -> strconv.isDigit c = false.
Proof.
  unfold netip.hexVal, strconv.isDigit. cbv zeta.
  destruct ((48 <=? code c) && (code c <=? 57)); [discriminate | reflexivity].
Qed.

(** A string whose first byte is neither a hexadecimal digit nor a colon
    is not an address. *)
Lemma ParseIP_bad_head (c : ascii) (r : string) :
  netip.hexVal c = None -> char_eqb c ":" = false ->
  net.ParseIP (String c r) = [].
Proof.
  intros Hh Hc. unfold net.ParseIP, netip.ParseAddr.
  rewrite scan_none; [reflexivity | |].
  - unfold netip.parseIPv4, netip.parseIPv4Fields.
    cbn [netip.parseIPv4FieldsLoop].
    rewrite (hexVal_none_not_digit c Hh).
    destruct (netip.isDot c); reflexivity.
  - unfold netip.parseIPv6. cbn [netip.splitZone].
    destruct (char_eqb c "%") eqn:Hp.
    + destruct r; [reflexivity |]. reflexivity.
    + destruct (netip.splitZone r) as [a z].
      assert (Hl : match String c a with
                   | String c0 (String c1 r0) =>
                       if char_eqb c0 ":" && char_eqb c1 ":"
                       then Some r0 else None
                   | _ => None
                   end = None).
      { destruct a; [reflexivity |]. rewrite Hc. reflexivity. }
      destruct z as [[| z0 zr] |]; [reflexivity | |];
        rewrite Hl; cbn [netip.v6Loop netip.hexGroup]; rewrite Hh;
        reflexivity.
Qed.

Lemma ParseIP_space (s : string) : net.ParseIP (String " " s) = [].
Proof. apply ParseIP_bad_head; reflexivity. Qed.

Lemma ParseIP_slash (s : string) : net.ParseIP (String "/" s) = [].
Proof. apply ParseIP_bad_head; reflexivity. Qed.

(** ** Trimming white space *)

Lemma length_append (s t : string) :
  String.length (s ++ t) = (String.length s + String.length t)%nat.
Proof. induction s as [| c s IH]; simpl; [| rewrite IH]; reflexivity. Qed.

Lemma drop_append (n : nat) (s t : string) :
  (n <= String.length s)%nat -> drop n (s ++ t) = (drop n s ++ t)%string.
Proof.
  revert s. induction n as [| n IH]; intros s H; [reflexivity |].
  destruct s as [| c s]; simpl in *; [lia | apply IH; lia].
Qed.

Lemma take_append (n : nat) (s t : string) :
  (n <= String.length s)%nat -> strings.take n (s ++ t) = strings.take n s.
Proof.
  revert s. induction n as [| n IH]; intros s H.
  - destruct s; reflexivity.
  - destruct s as [| c s]; simpl in *; [lia | rewrite IH by lia; reflexivity].
Qed.

Lemma get_append (n : nat) (s t : string) :
  (n < String.length s)%nat -> String.get n (s ++ t) = String.get n s.
Proof.
  revert s. induction n as [| n IH]; intros s H;
    destruct s as [| c s]; simpl in *; try lia; [reflexivity | apply IH; lia].
Qed.

Lemma length_drop (n : nat) (s : string) :
  String.length (drop n s) = (String.length s - n)%nat.
Proof.
  revert s. induction n as [| n IH]; intros s.
  - simpl. lia.
  - destruct s as [| c s]; simpl; [reflexivity | apply IH].
Qed.

Lemma first_facts (s0 sz lo hi : Z) :
  utf8.first s0 = Some (sz, (lo, hi)) ->
  (sz = 2 \/ sz = 3 \/ sz = 4) /\ 128 <= lo.
Proof.
  unfold utf8.first, utf8.locb, utf8.hicb.
  repeat match goal with
         | |- context [if ?b then _ else _] => destruct b
         end; intros H; inversion H; subst; lia.
Qed.

(** A space appended to a string does not change its first rune. *)
Lemma decode_append_space (c : ascii) (r : string) :
  utf8.DecodeRuneInString (String c r ++ " ")
  = utf8.DecodeRuneInString (String c r).
Proof.
  unfold utf8.DecodeRuneInString. cbn [append].
  destruct (utf8.first (code c)) as [[sz [lo hi]] |] eqn:F; [| reflexivity].
  apply first_facts in F. destruct F as [Hsz Hlo].
  unfold utf8.cont, utf8.locb, utf8.hicb.
  destruct r as [| c1 [| c2 [| c3 r3]]]; cbn [append String.length];
    change (code " ") with 32;
    destruct Hsz as [-> | [-> | ->]]; split_ifs;
    try reflexivity; exfalso; bool_hyps; lia.
Qed.

Lemma decode_size (c : ascii) (r : string) :
  (1 <= snd (utf8.DecodeRuneInString (String c r)) <= String.length (String c r))%nat.
Proof.
  unfold utf8.DecodeRuneInString.
  destruct (utf8.first (code c)) as [[sz [lo hi]] |] eqn:F;
    [| simpl; lia].
  destruct r as [| c1 [| c2 [| c3 r3]]]; cbn [String.length];
    split_ifs; cbn [snd]; bool_hyps; lia.
Qed.

Lemma trimLeftLoop_empty (n : nat) (f : Z -> bool) :
  strings.trimLeftLoop n f EmptyString = EmptyString.
Proof. destruct n; reflexivity. Qed.

Lemma trimLeftLoop_append_space (n : nat) :
  forall t,
    (String.length t <= n)%nat ->
    strings.trimLeftLoop (S n) unicode.IsSpace (t ++ " ")
    = match strings.trimLeftLoop n unicode.IsSpace t with
      | EmptyString => EmptyString
      | u => (u ++ " ")%string
      end.
Proof.
  induction n as [| n IH]; intros t Hlen.
  - destruct t; [reflexivity | simpl in Hlen; lia].
  - destruct t as [| c r].
    + cbn. rewrite ?trimLeftLoop_empty. reflexivity.
    + change (strings.trimLeftLoop (S (S n)) unicode.IsSpace (String c r ++ " "))
        with (let '(rn, size) :=
                utf8.DecodeRuneInString (String c r ++ " ") in
              if unicode.IsSpace rn
              then strings.trimLeftLoop (S n) unicode.IsSpace
                     (drop size (String c r ++ " "))
              else (String c r ++ " ")%string).
      change (strings.trimLeftLoop (S n) unicode.IsSpace (String c r))
        with (let '(rn, size) := utf8.DecodeRuneInString (String c r) in
              if unicode.IsSpace rn
              then strings.trimLeftLoop n unicode.IsSpace
                     (drop size (String c r))
              else String c r).
      rewrite decode_append_space.
      pose proof (decode_size c r) as Hs.
      destruct (utf8.DecodeRuneInString (String c r)) as [rn size].
      cbn [snd] in Hs.
      destruct (unicode.IsSpace rn); [| reflexivity].
      rewrite drop_append by (cbn [String.length] in Hs |- *; lia).
      apply IH. rewrite length_drop.
      cbn [String.length] in Hlen, Hs |- *. lia.
Qed.

Lemma TrimLeftFunc_append_space (t : string) :
  strings.TrimLeftFunc (t ++ " ") unicode.IsSpace
  = match strings.TrimLeftFunc t unicode.IsSpace with
    | EmptyString => EmptyString
    | u => (u ++ " ")%string
    end.
Proof.
  unfold strings.TrimLeftFunc. rewrite length_append.
  replace (String.length t + String.length " ")%nat with (S (String.length t))
    by (simpl; lia).
  apply trimLeftLoop_append_space. lia.
Qed.

Lemma list_ascii_append (s t : string) :
  list_ascii_of_string (s ++ t)
  = (list_ascii_of_string s ++ list_ascii_of_string t)%list.
Proof. induction s as [| c s IH]; simpl; [| rewrite IH]; reflexivity. Qed.

Lemma length_list_ascii (s : string) :
  List.length (list_ascii_of_string s) = String.length s.
Proof. induction s as [| c s IH]; simpl; [| rewrite IH]; reflexivity. Qed.

Lemma lastIndexFunc_append_space (u : string) :
  strings.lastIndexFunc (u ++ " ") unicode.IsSpace
  = strings.lastIndexFunc u unicode.IsSpace.
Proof.
  unfold strings.lastIndexFunc.
  rewrite length_append, list_ascii_append, rev_app_distr.
  replace (String.length u + String.length " ")%nat with (S (String.length u))
    by (simpl; lia).
  reflexivity.
Qed.

Lemma DecodeLastRune_size (c : ascii) (back : list ascii) :
  (1 <= snd (utf8.DecodeLastRune (c :: back)))%nat.
Proof.
  unfold utf8.DecodeLastRune.
  destruct (code c <? utf8.RuneSelf); [simpl; lia |].
  set (k := utf8.lastStart (utf8.UTFMax - 1) back 1).
  assert (Hk : (1 <= k)%nat).
  { subst k. cbn [utf8.UTFMax Nat.sub utf8.lastStart].
    destruct back as [| b0 [| b1 [| b2 [| b3 r]]]];
      cbn [utf8.lastStart]; split_ifs; lia. }
  destruct (utf8.DecodeRuneInString _) as [r size].
  destruct (Nat.eqb_spec size k); cbn [snd]; lia.
Qed.

Lemma lastIndexLoop_bound (n : nat) (f : Z -> bool) :
  forall rs i,
    strings.lastIndexLoop n f rs = Some i -> (i < List.length rs)%nat.
Proof.
  induction n as [| n IH]; intros rs i H; [discriminate |].
  destruct rs as [| c back]; [discriminate |].
  cbn [strings.lastIndexLoop] in H.
  pose proof (DecodeLastRune_size c back) as Hs.
  destruct (utf8.DecodeLastRune (c :: back)) as [r size]. cbn [snd] in Hs.
  pose proof (length_skipn size (c :: back)) as Hl.
  destruct (f r).
  - apply IH in H. lia.
  - injection H as <-. simpl List.length in *. lia.
Qed.

Lemma TrimRightFunc_append_space (u : string) :
  strings.TrimRightFunc (u ++ " ") unicode.IsSpace
  = strings.TrimRightFunc u unicode.IsSpace.
Proof.
  unfold strings.TrimRightFunc. rewrite lastIndexFunc_append_space.
  destruct (strings.lastIndexFunc u unicode.IsSpace) as [i |] eqn:E;
    [| reflexivity].
  unfold strings.lastIndexFunc in E. apply lastIndexLoop_bound in E.
  rewrite length_rev, length_list_ascii in E.
  rewrite get_append by exact E.
  destruct (String.get i u) as [c |] eqn:G.
  - destruct (utf8.RuneSelf <=? code c).
    + rewrite drop_append by lia.
      assert (Hd : exists c' r', drop i u = String c' r').
      { destruct (drop i u) as [| c' r'] eqn:D; [| eauto].
        pose proof (length_drop i u) as L. rewrite D in L. simpl in L. lia. }
      destruct Hd as [c' [r' D]]. rewrite D, decode_append_space.
      pose proof (decode_size c' r') as Hs.
      assert (L : String.length (String c' r') = (String.length u - i)%nat)
        by (rewrite <- D; apply length_drop).
      apply take_append. lia.
    + apply take_append. lia.
  - apply take_append. lia.
Qed.

Lemma TrimFunc_append_space (t : string) :
  strings.TrimFunc (t ++ " ") unicode.IsSpace
  = strings.TrimFunc t unicode.IsSpace.
Proof.
  unfold strings.TrimFunc. rewrite TrimLeftFunc_append_space.
  destruct (strings.TrimLeftFunc t unicode.IsSpace) as [| c r];
    [reflexivity |].
  apply TrimRightFunc_append_space.
Qed.

Lemma trimSpaceStart_append_space (s : string) :
  strings.trimSpaceStart (s ++ " ")
  = match strings.trimSpaceStart s with
    | (true, t) => (true, (t ++ " ")%string)
    | (false, EmptyString) => (false, EmptyString)
    | (false, t) => (false, (t ++ " ")%string)
    end.
Proof.
  induction s as [| c r IH]; [reflexivity |].
  cbn [append strings.trimSpaceStart].
  destruct (utf8.RuneSelf <=? code c); [reflexivity |].
  destruct (strings.asciiSpace c); [exact IH | reflexivity].
Qed.

Lemma trimSpaceStop_append_space (t : string) :
  strings.trimSpaceStop (t ++ " ") = strings.trimSpaceStop t.
Proof.
  induction t as [| c r IH]; [reflexivity |].
  cbn [append strings.trimSpaceStop]. rewrite IH. reflexivity.
Qed.

(** White space around a string is trimmed away. *)
Lemma TrimSpace_append_space (s : string) :
  strings.TrimSpace (s ++ " ") = strings.TrimSpace s.
Proof.
  unfold strings.TrimSpace. rewrite trimSpaceStart_append_space.
  destruct (strings.trimSpaceStart s) as [[|] [| c t]].
  - apply TrimFunc_append_space.
  - apply TrimFunc_append_space.
  - reflexivity.
  - rewrite trimSpaceStop_append_space. reflexivity.
Qed.

Lemma TrimSpace_space_append (s : string) :
  strings.TrimSpace (String " " s) = strings.TrimSpace s.
Proof. reflexivity. Qed.

Lemma TrimSpace_padded (s : string) :
  strings.TrimSpace (" " ++ s ++ " ") = strings.TrimSpace s.
Proof.
  cbn [append]. rewrite TrimSpace_space_append. apply TrimSpace_append_space.
Qed.

(** ** Runs of [calculateSubnet] *)

Lemma calculateSubnet_bad_ip (ip mask : string) :
  net.To4 (net.ParseIP ip) = [] ->
  failsWith (calculateSubnet ip mask) InvalidIPAddress.
Proof.
  intros H. unfold failsWith, calculateSubnet. rewrite H.
  destruct (isNil (net.ParseIP ip)).
  - eexists. split; [reflexivity | apply errorKind_IP].
  - eexists. split; [reflexivity | apply errorKind_notIPv4].
Qed.

Lemma calculateSubnet_mask_error (ip mask : string) (a b c d : byte)
    (e : error) :
  net.To4 (net.ParseIP ip) = [a; b; c; d] ->
  parseSubnetMask mask = Ret ([], Some e) ->
  calculateSubnet ip mask = Ret (None, Some e).
Proof.
  intros Hip Hm. unfold calculateSubnet.
  rewrite (ParseIP_not_nil _ _ _ _ _ Hip), Hip, Hm. reflexivity.
Qed.

(** A successful run has parsed an address of four bytes and one of the
    33 prefix masks. *)
Lemma calculateSubnet_success_inv (ip mask : string) (r : SubnetResult) :
  calculateSubnet ip mask = Ret (Some r, None) ->
  exists a b c d k,
    net.To4 (net.ParseIP ip) = [a; b; c; d]
    /\ 0 <= k <= 32
    /\ parseSubnetMask mask = Ret (net.CIDRMask k 32, None).
Proof.
  intros H.
  destruct (To4_ParseIP_shape ip) as [E | [a [b [c [d E]]]]].
  - destruct (calculateSubnet_bad_ip ip mask E) as [e [He _]]. congruence.
  - destruct (parseSubnetMask_shape mask) as [[k [Hk Hm]] | [e [k [Hm _]]]].
    + exists a, b, c, d, k. auto.
    + rewrite (calculateSubnet_mask_error ip mask a b c d e E Hm) in H.
      discriminate.
Qed.

Lemma parseSubnetMask_cidr (k : Z) :
  0 <= k <= 32 ->
  parseSubnetMask ("/" ++ strconv.FormatInt k) = Ret (net.CIDRMask k 32, None).
Proof.
  intros Hk. enum_Z k 33%nat; vm_compute; reflexivity.
Qed.

Lemma parseSubnetMask_padded (m : string) :
  parseSubnetMask (" " ++ m ++ " ") = parseSubnetMask m.
Proof.
  unfold parseSubnetMask. rewrite TrimSpace_padded. reflexivity.
Qed.

Lemma calculateSubnet_padded (ip m : string) :
  calculateSubnet ip (" " ++ m ++ " ") = calculateSubnet ip m.
Proof.
  unfold calculateSubnet. rewrite parseSubnetMask_padded. reflexivity.
Qed.

Lemma acceptsIP_false (ip : string) :
  acceptsIP ip = false <-> net.To4 (net.ParseIP ip) = [].
Proof.
  unfold acceptsIP. destruct (net.To4 (net.ParseIP ip)); simpl; split;
    intros; congruence.
Qed.

Lemma top_bits (n i : Z) :
  0 <= n <= 32 -> 0 <= i < 32 ->
  Z.testbit (2 ^ 32 - 2 ^ (32 - n)) i = (32 - n <=? i).
Proof.
  intros Hn Hi. apply Bool.eqb_prop.
  assert (G : topBitsCheck n = true).
  { apply (forall_upto 33 topBitsCheck); [vm_compute; reflexivity | lia]. }
  unfold topBitsCheck in G.
  apply (forall_upto 32 _ G). lia.
Qed.

(** ** The mask of a /31 *)

Lemma byte_or_not_ff (a : byte) :
  byte_or (byte_and a (byte_of_Z 255)) (byte_not (byte_of_Z 255)) = a.
Proof.
  apply byte_eqb_eq.
  apply (forall_byte
           (fun a => byte_eqb (byte_or (byte_and a (byte_of_Z 255))
                                 (byte_not (byte_of_Z 255))) a)).
  vm_compute. reflexivity.
Qed.

Lemma byte_and_fe (d : byte) :
  Z_of_byte (byte_and d (byte_of_Z 254)) = 2 * (Z_of_byte d / 2).
Proof.
  apply Z.eqb_eq.
  apply (forall_byte
           (fun d => Z_of_byte (byte_and d (byte_of_Z 254))
                     =? 2 * (Z_of_byte d / 2))).
  vm_compute. reflexivity.
Qed.

Lemma byte_or_not_fe (d : byte) :
  Z_of_byte (byte_or (byte_and d (byte_of_Z 254)) (byte_not (byte_of_Z 254)))
  = 2 * (Z_of_byte d / 2) + 1.
Proof.
  apply Z.eqb_eq.
  apply (forall_byte
           (fun d => Z_of_byte (byte_or (byte_and d (byte_of_Z 254))
                                  (byte_not (byte_of_Z 254)))
                     =? 2 * (Z_of_byte d / 2) + 1)).
  vm_compute. reflexivity.
Qed.

Lemma network31 (a b c d : byte) :
  networkOf [a; b; c; d] mask31 = [a; b; c; byte_and d (byte_of_Z 254)].
Proof.
  unfold networkOf, mask31. cbn [combine map].
  rewrite !byte_and_ff. reflexivity.
Qed.

Lemma broadcast31 (a b c d : byte) :
  broadcastOf (networkOf [a; b; c; d] mask31) mask31
  = [a; b; c;
     byte_or (byte_and d (byte_of_Z 254)) (byte_not (byte_of_Z 254))].
Proof.
  unfold broadcastOf, networkOf, mask31. cbn [combine map].
  rewrite !byte_or_not_ff. reflexivity.
Qed.

Lemma be32_clear_low_bit (a b c d : byte) :
  be32 a b c (byte_and d (byte_of_Z 254)) = 2 * (be32 a b c d / 2)
  /\ be32 a b c
       (byte_or (byte_and d (byte_of_Z 254)) (byte_not (byte_of_Z 254)))
     = 2 * (be32 a b c d / 2) + 1.
Proof.
  unfold be32. rewrite byte_and_fe, byte_or_not_fe.
  change (2 ^ 24) with 16777216. change (2 ^ 16) with 65536.
  change (2 ^ 8) with 256.
  split; Z.div_mod_to_equations; lia.
Qed.

(** * The claims *)

(** ** C1: range of the usable host count *)

(** C1, as stated, fails: for the address 10.0.0.1 and the mask /0 the
    usable host count is 4294967294, above [2^30 - 2]. *)
Lemma usableHosts_above_2_30 :
  ~ (forall ip mask r,
        calculateSubnet ip mask = Ret (Some r, None) ->
        exists n, strconv.Atoi (UsableHosts r) = Some n
                  /\ 0 <= n <= 2 ^ 30 - 2).
Proof.
  intros H.
  destruct (H "10.0.0.1" "/0"
              (resultOf "0.0.0.0" "255.255.255.255" "0.0.0.1"
                 "255.255.255.254" "4294967294"))
    as [n [Hn Hr]].
  - vm_compute. reflexivity.
  - vm_compute in Hn. injection Hn as <-. vm_compute in Hr.
    destruct Hr as [_ Hr]. apply Hr. reflexivity.
Qed.

(** C1, amended: for every successful computation the usable host count
    is the decimal text of an integer in [[0, 2^32 - 2]]. *)
Theorem usableHosts_in_range (ip mask : string) (r : SubnetResult) :
  calculateSubnet ip mask = Ret (Some r, None) ->
  exists n,
    UsableHosts r = strconv.FormatInt n
    /\ strconv.Atoi (UsableHosts r) = Some n
    /\ 0 <= n <= 2 ^ 32 - 2.
Proof.
  intros H.
  destruct (calculateSubnet_success_inv ip mask r H)
    as [a [b [c [d [k [Hip [Hk Hm]]]]]]].
  destruct (calculateSubnet_ok ip mask a b c d k Hip Hk Hm)
    as [r' [Hr [_ [_ [_ Hcases]]]]].
  rewrite Hr in H. injection H as <-.
  destruct Hcases as [[_ [_ [_ [_ [_ Hu]]]]]
                     | [[_ [_ [_ [_ [_ Hu]]]]]
                       | [Hk30 [_ [_ [_ Hu]]]]]].
  - exists 0. rewrite Hu. repeat split; lia.
  - exists 0. rewrite Hu. repeat split; lia.
  - exists (2 ^ (32 - k) - 2). rewrite Hu.
    split; [reflexivity |].
    split; [apply FormatInt_Atoi_usable; lia |].
    pose proof (pow2_host_bits k ltac:(lia)). lia.
Qed.

Lemma usableHosts_in_range_witness :
  calculateSubnet "192.168.1.100" "/24"
  = Ret (Some (resultOf "192.168.1.0" "192.168.1.255" "192.168.1.1"
                 "192.168.1.254" "254"), None)
  /\ exists n,
       "254" = strconv.FormatInt n
       /\ strconv.Atoi "254" = Some n
       /\ 0 <= n <= 2 ^ 32 - 2.
Proof.
  split; [vm_compute; reflexivity |].
  apply (usableHosts_in_range "192.168.1.100" "/24"
           (resultOf "192.168.1.0" "192.168.1.255" "192.168.1.1"
              "192.168.1.254" "254")).
  vm_compute. reflexivity.
Defined.

(** ** C2: rejection of the address string *)

(** C2, as stated, fails: the IPv6 spelling [::ffff:192.168.1.1] of an
    IPv4-mapped address is not a literal of four dot-separated octets, and
    [calculateSubnet] accepts it. *)
Lemma mapped_address_accepted :
  ~ (forall ip mask,
        failsWith (calculateSubnet ip mask) InvalidIPAddress
        <-> isDottedQuad ip = false).
Proof.
  intros H.
  destruct (proj2 (H "::ffff:192.168.1.1" "/24")) as [e [He _]].
  - vm_compute. reflexivity.
  - vm_compute in He. discriminate He.
Qed.

(** C2, amended: [calculateSubnet] fails with [InvalidIPAddress] exactly
    when [net.ParseIP(ip).To4()] is nil.  Every dotted-decimal literal of
    four octets written without leading zeros is accepted; an accepted
    string without a colon is such a literal; the empty string,
    out-of-range octets, leading zeros and wrong segment counts are
    rejected, and an IPv6 literal of an IPv4-mapped address is accepted. *)
Theorem invalid_address_iff (ip mask : string) :
  (failsWith (calculateSubnet ip mask) InvalidIPAddress
   <-> acceptsIP ip = false)
  /\ (forall a b c d, acceptsIP (netip.string4 a b c d) = true)
  /\ (acceptsIP ip = true -> hasColon ip = false ->
      exists a b c d, ip = netip.string4 a b c d)
  /\ acceptsIP "" = false
  /\ acceptsIP "999.999.999.999" = false
  /\ acceptsIP "192.168.1.256" = false
  /\ acceptsIP "192.168.01.1" = false
  /\ acceptsIP "192.168.1" = false
  /\ acceptsIP "192.168.1.1.1" = false
  /\ acceptsIP "::ffff:192.168.1.1" = true.
Proof.
  split; [| split; [| split]].
  - split.
    + intros [e [He Hk]]. apply acceptsIP_false.
      destruct (To4_ParseIP_shape ip) as [E | [a [b [c [d E]]]]];
        [exact E | exfalso].
      destruct (parseSubnetMask_shape mask)
        as [[k [Hk' Hm]] | [e' [k [Hm [Hek Hkind]]]]].
      * destruct (calculateSubnet_ok ip mask a b c d k E Hk' Hm)
          as [r [Hr _]]. congruence.
      * rewrite (calculateSubnet_mask_error ip mask a b c d e' E Hm) in He.
        injection He as <-. rewrite Hk in Hek. injection Hek as <-.
        destruct Hkind as [? | [? | ?]]; discriminate.
    + intros H. apply calculateSubnet_bad_ip, acceptsIP_false, H.
  - intros a b c d. unfold acceptsIP. rewrite To4_ParseIP_string4.
    reflexivity.
  - intros Ha Hc. unfold acceptsIP in Ha.
    destruct (To4_ParseIP_shape ip) as [E | [a [b [c [d E]]]]].
    + rewrite E in Ha. discriminate.
    + exists a, b, c, d. apply accepted_dotted; assumption.
  - vm_compute. repeat split; reflexivity.
Qed.

(** ** C3: the address lies between network and broadcast *)

(** C3: for every successful computation, the network address is at most
    the input address, which is at most the broadcast address, as unsigned
    32-bit big-endian integers. *)
Theorem network_le_address_le_broadcast (ip mask : string)
    (r : SubnetResult) :
  calculateSubnet ip mask = Ret (Some r, None) ->
  exists n a b,
    addrValue (NetworkAddress r) = Some n
    /\ addrValue ip = Some a
    /\ addrValue (BroadcastAddress r) = Some b
    /\ 0 <= n <= a /\ a <= b < 2 ^ 32.
Proof.
  intros H.
  destruct (calculateSubnet_success_inv ip mask r H)
    as [a [b [c [d [k [Hip [Hk Hm]]]]]]].
  destruct (calculateSubnet_ok ip mask a b c d k Hip Hk Hm)
    as [r' [Hr [_ [_ [_ Hcases]]]]].
  rewrite Hr in H. injection H as <-.
  assert (Ha : addrValue ip = Some (be32 a b c d))
    by (unfold addrValue; rewrite Hip; reflexivity).
  pose proof (be32_range a b c d) as Hrange.
  destruct (be32_CIDRMask k Hk) as [m0 [m1 [m2 [m3 [Em _]]]]].
  rewrite Em in Hcases. unfold networkOf, broadcastOf in Hcases.
  cbn [combine map] in Hcases.
  pose proof (network_le_address a b c d m0 m1 m2 m3) as Hlo.
  pose proof (address_le_broadcast a b c d m0 m1 m2 m3) as Hhi.
  match type of Hlo with be32 ?n0 ?n1 ?n2 ?n3 <= _ =>
    pose proof (be32_range n0 n1 n2 n3) as Hn end.
  match type of Hhi with _ <= be32 ?b0 ?b1 ?b2 ?b3 =>
    pose proof (be32_range b0 b1 b2 b3) as Hb end.
  destruct Hcases as [[_ [Hn' [Hb' _]]]
                     | [[_ [Hn' [Hb' _]]] | [_ [Hn' [Hb' _]]]]];
    rewrite Hn', Hb', !addrValue_String; eexists _, _, _;
    (split; [reflexivity |]); (split; [exact Ha |]);
    (split; [reflexivity |]); lia.
Qed.

Lemma network_le_address_le_broadcast_witness :
  calculateSubnet "172.16.0.50" "255.255.255.192"
  = Ret (Some (resultOf "172.16.0.0" "172.16.0.63" "172.16.0.1"
                 "172.16.0.62" "62"), None)
  /\ exists n a b,
       addrValue "172.16.0.0" = Some n
       /\ addrValue "172.16.0.50" = Some a
       /\ addrValue "172.16.0.63" = Some b
       /\ 0 <= n <= a /\ a <= b < 2 ^ 32.
Proof.
  split; [vm_compute; reflexivity |].
  apply (network_le_address_le_broadcast "172.16.0.50" "255.255.255.192"
           (resultOf "172.16.0.0" "172.16.0.63" "172.16.0.1"
              "172.16.0.62" "62")).
  vm_compute. reflexivity.
Defined.

(** ** C4: ordinary subnets *)

(** C4: for every prefix length [k] in [[0,30]] and every accepted address,
    [calculateSubnet ip "/k"] succeeds; the usable host count is
    [2^(32-k) - 2], the first host is the network address plus one and the
    last host is the broadcast address minus one, numerically. *)
Theorem ordinary_subnet (k : Z) (ip : string) (a b c d : byte) :
  0 <= k <= 30 ->
  net.To4 (net.ParseIP ip) = [a; b; c; d] ->
  exists r n bc,
    calculateSubnet ip ("/" ++ strconv.FormatInt k) = Ret (Some r, None)
    /\ UsableHosts r = strconv.FormatInt (2 ^ (32 - k) - 2)
    /\ NetworkAddress r
       = net.String_ (networkOf [a; b; c; d] (net.CIDRMask k 32))
    /\ BroadcastAddress r
       = net.String_ (broadcastOf (networkOf [a; b; c; d] (net.CIDRMask k 32))
                        (net.CIDRMask k 32))
    /\ addrValue (NetworkAddress r) = Some n
    /\ addrValue (BroadcastAddress r) = Some bc
    /\ addrValue (MinHostAddress r) = Some (n + 1)
    /\ addrValue (MaxHostAddress r) = Some (bc - 1)
    /\ n + 1 < 2 ^ 32 /\ 0 <= bc - 1.
Proof.
  intros Hk Hip.
  assert (Hk' : 0 <= k <= 32) by lia.
  pose proof (parseSubnetMask_cidr k Hk') as Hm.
  destruct (calculateSubnet_ok ip _ a b c d k Hip Hk' Hm)
    as [r [Hr [_ [_ [_ Hcases]]]]].
  destruct Hcases as [[E _] | [[E _] | [_ [Hn [Hb [Hhosts Hu]]]]]];
    [lia | lia |].
  destruct Hhosts as [mn [mx [n [bc [Hmin [Hmax [Vn [Vb [Vmin Vmax]]]]]]]]].
  exists r, n, bc.
  split; [exact Hr |]. split; [exact Hu |].
  split; [exact Hn |]. split; [exact Hb |].
  destruct (be32_CIDRMask k Hk') as [m0 [m1 [m2 [m3 [Em Ev]]]]].
  rewrite Hn, Hb, Hmin, Hmax. rewrite Em in *.
  unfold networkOf, broadcastOf in *. cbn [combine map] in *.
  cbn [ipValue] in Vn, Vb. injection Vn as <-. injection Vb as <-.
  destruct mn as [| x0 [| x1 [| x2 [| x3 [| ? ?]]]]]; try discriminate Vmin.
  destruct mx as [| y0 [| y1 [| y2 [| y3 [| ? ?]]]]]; try discriminate Vmax.
  cbn [ipValue] in Vmin, Vmax. injection Vmin as Vmin. injection Vmax as Vmax.
  rewrite !addrValue_String, Vmin, Vmax.
  repeat (split; [reflexivity |]).
  pose proof (be32_range x0 x1 x2 x3). pose proof (be32_range y0 y1 y2 y3).
  lia.
Qed.

Lemma ordinary_subnet_witness :
  0 <= 24 <= 30
  /\ net.To4 (net.ParseIP "192.168.1.100")
     = [byte_of_Z 192; byte_of_Z 168; byte_of_Z 1; byte_of_Z 100]
  /\ exists r n bc,
       calculateSubnet "192.168.1.100" ("/" ++ strconv.FormatInt 24)
       = Ret (Some r, None)
       /\ UsableHosts r = strconv.FormatInt (2 ^ (32 - 24) - 2)
       /\ NetworkAddress r
          = net.String_
              (networkOf [byte_of_Z 192; byte_of_Z 168; byte_of_Z 1;
                          byte_of_Z 100] (net.CIDRMask 24 32))
       /\ BroadcastAddress r
          = net.String_
              (broadcastOf
                 (networkOf [byte_of_Z 192; byte_of_Z 168; byte_of_Z 1;
                             byte_of_Z 100] (net.CIDRMask 24 32))
                 (net.CIDRMask 24 32))
       /\ addrValue (NetworkAddress r) = Some n
       /\ addrValue (BroadcastAddress r) = Some bc
       /\ addrValue (MinHostAddress r) = Some (n + 1)
       /\ addrValue (MaxHostAddress r) = Some (bc - 1)
       /\ n + 1 < 2 ^ 32 /\ 0 <= bc - 1.
Proof.
  split; [lia |]. split; [vm_compute; reflexivity |].
  apply (ordinary_subnet 24 "192.168.1.100"); [lia | vm_compute; reflexivity].
Defined.

(** ** C5: contiguity of a dotted-decimal mask *)

Lemma not_slash_of_parsed (m : string) (a b c d : byte) :
  net.To4 (net.ParseIP m) = [a; b; c; d] ->
  strings.HasPrefix m "/" = false.
Proof.
  intros H. destruct m as [| x r]; [reflexivity |].
  unfold strings.HasPrefix. cbn [strings.startsWith].
  destruct (Ascii.eqb "/" x) eqn:E; [| reflexivity].
  apply Ascii.eqb_eq in E. subst x.
  rewrite ParseIP_slash in H. discriminate H.
Qed.

(** C5: a mask string that parses as four octets is accepted exactly when
    its big-endian value is [0xFFFFFFFF << (32 - k)] on 32 bits for some
    [k] in [[0,32]], and is rejected with [NonContiguousMask] otherwise;
    0.0.0.0 and 255.255.255.255 are accepted, 255.255.255.253,
    255.255.254.255, 255.254.255.0 and 255.255.255.251 are rejected. *)
Theorem dotted_mask_contiguity :
  (forall (s : string) (a b c d : byte),
      net.To4 (net.ParseIP (strings.TrimSpace s)) = [a; b; c; d] ->
      ((exists k, 0 <= k <= 32 /\ be32 a b c d = prefixMask k)
       /\ parseSubnetMask s = Ret ([a; b; c; d], None))
      \/ ((forall k, 0 <= k <= 32 -> be32 a b c d <> prefixMask k)
          /\ exists e, parseSubnetMask s = Ret ([], Some e)
                       /\ errorKind e = Some NonContiguousMask))
  /\ parseSubnetMask "0.0.0.0"
     = Ret ([byte_of_Z 0; byte_of_Z 0; byte_of_Z 0; byte_of_Z 0], None)
  /\ parseSubnetMask "255.255.255.255"
     = Ret ([byte_of_Z 255; byte_of_Z 255; byte_of_Z 255; byte_of_Z 255],
            None)
  /\ (forall s,
         In s ["255.255.255.253"; "255.255.254.255"; "255.254.255.0";
               "255.255.255.251"] ->
         exists e, parseSubnetMask s = Ret ([], Some e)
                   /\ errorKind e = Some NonContiguousMask).
Proof.
  split; [| split; [| split]].
  - intros s a b c d H.
    unfold parseSubnetMask.
    rewrite (not_slash_of_parsed _ _ _ _ _ H).
    rewrite (ParseIP_not_nil _ _ _ _ _ H), H. cbn [isNil].
    destruct (isValidSubnetMask [a; b; c; d]) as [[|] | msg] eqn:V.
    + left. split; [apply isValidSubnetMask_iff, V | reflexivity].
    + right. split.
      * intros k Hk E.
        assert (V' : isValidSubnetMask [a; b; c; d] = Ret true)
          by (apply isValidSubnetMask_iff; eauto).
        congruence.
      * eexists. split; [reflexivity | apply errorKind_contiguous].
    + rewrite isValidSubnetMask_run in V. discriminate V.
  - vm_compute. reflexivity.
  - vm_compute. reflexivity.
  - intros s Hs. cbn [In] in Hs.
    destruct Hs as [<- | [<- | [<- | [<- | []]]]];
      (eexists; split; [vm_compute; reflexivity | vm_compute; reflexivity]).
Qed.

Lemma dotted_mask_contiguity_witness :
  net.To4 (net.ParseIP (strings.TrimSpace "255.255.255.0"))
  = [byte_of_Z 255; byte_of_Z 255; byte_of_Z 255; byte_of_Z 0]
  /\ (((exists k, 0 <= k <= 32
                  /\ be32 (byte_of_Z 255) (byte_of_Z 255) (byte_of_Z 255)
                       (byte_of_Z 0) = prefixMask k)
       /\ parseSubnetMask "255.255.255.0"
          = Ret ([byte_of_Z 255; byte_of_Z 255; byte_of_Z 255; byte_of_Z 0],
                 None))
      \/ ((forall k, 0 <= k <= 32 ->
                     be32 (byte_of_Z 255) (byte_of_Z 255) (byte_of_Z 255)
                       (byte_of_Z 0) <> prefixMask k)
          /\ exists e, parseSubnetMask "255.255.255.0" = Ret ([], Some e)
                       /\ errorKind e = Some NonContiguousMask)).
Proof.
  split; [vm_compute; reflexivity |].
  apply (proj1 dotted_mask_contiguity "255.255.255.0").
  vm_compute. reflexivity.
Defined.

(** ** C6: the two notations of a mask *)

(** C6: the masks "/24" and "255.255.255.0" parse to the same four bytes
    ff ff ff 00, and a CIDR string "/n" with [n] in [[0,32]] yields the
    four-byte mask whose top [n] bits are set and whose other bits are
    clear. *)
Theorem cidr_mask_bits :
  parseSubnetMask "/24" = parseSubnetMask "255.255.255.0"
  /\ parseSubnetMask "/24"
     = Ret ([byte_of_Z 0xff; byte_of_Z 0xff; byte_of_Z 0xff; byte_of_Z 0x00],
            None)
  /\ forall n, 0 <= n <= 32 ->
       exists m0 m1 m2 m3,
         parseSubnetMask ("/" ++ strconv.FormatInt n)
         = Ret ([m0; m1; m2; m3], None)
         /\ be32 m0 m1 m2 m3 = prefixMask n
         /\ forall i, 0 <= i < 32 ->
              Z.testbit (be32 m0 m1 m2 m3) i = (32 - n <=? i).
Proof.
  split; [vm_compute; reflexivity |].
  split; [vm_compute; reflexivity |].
  intros n Hn.
  destruct (be32_CIDRMask n Hn) as [m0 [m1 [m2 [m3 [Em Ev]]]]].
  exists m0, m1, m2, m3.
  split; [rewrite parseSubnetMask_cidr by exact Hn; rewrite Em; reflexivity |].
  split; [rewrite Ev; symmetry; apply prefixMask_value, Hn |].
  intros i Hi. rewrite Ev. apply top_bits; assumption.
Qed.

Lemma cidr_mask_bits_witness :
  0 <= 16 <= 32
  /\ exists m0 m1 m2 m3,
       parseSubnetMask ("/" ++ strconv.FormatInt 16)
       = Ret ([m0; m1; m2; m3], None)
       /\ be32 m0 m1 m2 m3 = prefixMask 16
       /\ forall i, 0 <= i < 32 ->
            Z.testbit (be32 m0 m1 m2 m3) i = (32 - 16 <=? i).
Proof.
  split; [lia |].
  apply (proj2 (proj2 cidr_mask_bits) 16). lia.
Defined.

(** ** C7: the single host /32 *)

(** C7: for every accepted address, [calculateSubnet ip "/32"] succeeds;
    network and broadcast address are the input address (its
    dotted-decimal text, which is the input string itself unless that is
    written in IPv6 syntax), both host bounds are "N/A" and the usable
    host count is "0". *)
Theorem single_host_32 :
  (forall (ip : string) (a b c d : byte),
      net.To4 (net.ParseIP ip) = [a; b; c; d] ->
      exists r,
        calculateSubnet ip "/32" = Ret (Some r, None)
        /\ NetworkAddress r = netip.string4 a b c d
        /\ BroadcastAddress r = netip.string4 a b c d
        /\ addrValue (NetworkAddress r) = addrValue ip
        /\ addrValue (BroadcastAddress r) = addrValue ip
        /\ (hasColon ip = false ->
            NetworkAddress r = ip /\ BroadcastAddress r = ip)
        /\ MinHostAddress r = "N/A" /\ MaxHostAddress r = "N/A"
        /\ UsableHosts r = "0")
  /\ calculateSubnet "192.168.1.1" "/32"
     = Ret (Some (resultOf "192.168.1.1" "192.168.1.1" "N/A" "N/A" "0"),
            None).
Proof.
  split; [| vm_compute; reflexivity].
  intros ip a b c d Hip.
  assert (Hm : parseSubnetMask "/32" = Ret (net.CIDRMask 32 32, None))
    by (vm_compute; reflexivity).
  destruct (calculateSubnet_ok ip "/32" a b c d 32 Hip ltac:(lia) Hm)
    as [r [Hr [_ [_ [_ Hcases]]]]].
  destruct Hcases as [[_ [Hn [Hb [Hmin [Hmax Hu]]]]] | [[E _] | [E _]]];
    [| lia | lia].
  rewrite String_four in Hn, Hb.
  exists r. split; [exact Hr |]. rewrite Hn, Hb.
  assert (Hv : addrValue (netip.string4 a b c d) = addrValue ip).
  { unfold addrValue. rewrite To4_ParseIP_string4, Hip. reflexivity. }
  repeat (split; [first [reflexivity | exact Hv] |]).
  split.
  - intros Hc. rewrite <- (accepted_dotted ip a b c d Hip Hc).
    split; reflexivity.
  - auto.
Qed.

Lemma single_host_32_witness :
  net.To4 (net.ParseIP "10.0.0.255")
  = [byte_of_Z 10; byte_of_Z 0; byte_of_Z 0; byte_of_Z 255]
  /\ exists r,
       calculateSubnet "10.0.0.255" "/32" = Ret (Some r, None)
       /\ NetworkAddress r
          = netip.string4 (byte_of_Z 10) (byte_of_Z 0) (byte_of_Z 0)
              (byte_of_Z 255)
       /\ BroadcastAddress r
          = netip.string4 (byte_of_Z 10) (byte_of_Z 0) (byte_of_Z 0)
              (byte_of_Z 255)
       /\ addrValue (NetworkAddress r) = addrValue "10.0.0.255"
       /\ addrValue (BroadcastAddress r) = addrValue "10.0.0.255"
       /\ (hasColon "10.0.0.255" = false ->
           NetworkAddress r = "10.0.0.255"
           /\ BroadcastAddress r = "10.0.0.255")
       /\ MinHostAddress r = "N/A" /\ MaxHostAddress r = "N/A"
       /\ UsableHosts r = "0".
Proof.
  split; [vm_compute; reflexivity |].
  apply (proj1 single_host_32 "10.0.0.255"). vm_compute. reflexivity.
Defined.

(** ** C8: the point-to-point link /31 *)

(** C8: for every accepted address, [calculateSubnet ip "/31"] succeeds;
    the network address is the address AND the mask 255.255.255.254
    octet-wise, the broadcast address is the network address OR the
    complement of the mask octet-wise (the address with its lowest bit
    cleared, respectively set), both host bounds are "N/A" and the usable
    host count is "0". *)
Theorem point_to_point_31 :
  (forall (ip : string) (a b c d : byte),
      net.To4 (net.ParseIP ip) = [a; b; c; d] ->
      exists r,
        calculateSubnet ip "/31" = Ret (Some r, None)
        /\ NetworkAddress r = net.String_ (networkOf [a; b; c; d] mask31)
        /\ BroadcastAddress r
           = net.String_ (broadcastOf (networkOf [a; b; c; d] mask31) mask31)
        /\ addrValue (NetworkAddress r) = Some (2 * (be32 a b c d / 2))
        /\ addrValue (BroadcastAddress r) = Some (2 * (be32 a b c d / 2) + 1)
        /\ MinHostAddress r = "N/A" /\ MaxHostAddress r = "N/A"
        /\ UsableHosts r = "0")
  /\ calculateSubnet "192.168.1.1" "/31"
     = Ret (Some (resultOf "192.168.1.0" "192.168.1.1" "N/A" "N/A" "0"),
            None).
Proof.
  split; [| vm_compute; reflexivity].
  intros ip a b c d Hip.
  assert (Hm : parseSubnetMask "/31" = Ret (net.CIDRMask 31 32, None))
    by (vm_compute; reflexivity).
  destruct (calculateSubnet_ok ip "/31" a b c d 31 Hip ltac:(lia) Hm)
    as [r [Hr [_ [_ [_ Hcases]]]]].
  destruct Hcases as [[E _] | [[_ [Hn [Hb [Hmin [Hmax Hu]]]]] | [E _]]];
    [lia | | lia].
  change (net.CIDRMask 31 32) with mask31 in Hn, Hb.
  exists r. split; [exact Hr |]. rewrite Hn, Hb.
  split; [reflexivity |]. split; [reflexivity |].
  rewrite broadcast31, network31, !addrValue_String.
  destruct (be32_clear_low_bit a b c d) as [E1 E2]. rewrite E1, E2.
  auto.
Qed.

Lemma point_to_point_31_witness :
  net.To4 (net.ParseIP "10.0.0.255")
  = [byte_of_Z 10; byte_of_Z 0; byte_of_Z 0; byte_of_Z 255]
  /\ exists r,
       calculateSubnet "10.0.0.255" "/31" = Ret (Some r, None)
       /\ NetworkAddress r
          = net.String_
              (networkOf [byte_of_Z 10; byte_of_Z 0; byte_of_Z 0;
                          byte_of_Z 255] mask31)
       /\ BroadcastAddress r
          = net.String_
              (broadcastOf
                 (networkOf [byte_of_Z 10; byte_of_Z 0; byte_of_Z 0;
                             byte_of_Z 255] mask31) mask31)
       /\ addrValue (NetworkAddress r)
          = Some (2 * (be32 (byte_of_Z 10) (byte_of_Z 0) (byte_of_Z 0)
                         (byte_of_Z 255) / 2))
       /\ addrValue (BroadcastAddress r)
          = Some (2 * (be32 (byte_of_Z 10) (byte_of_Z 0) (byte_of_Z 0)
                         (byte_of_Z 255) / 2) + 1)
       /\ MinHostAddress r = "N/A" /\ MaxHostAddress r = "N/A"
       /\ UsableHosts r = "0".
Proof.
  split; [vm_compute; reflexivity |].
  apply (proj1 point_to_point_31 "10.0.0.255"). vm_compute. reflexivity.
Defined.

(** ** C9: no panic, a result or a typed error *)

(** C9: for every pair of strings, [calculateSubnet] returns without a
    panic; it returns either a result and the nil error, or the nil result
    and an error of one of the four kinds. *)
Theorem never_panics (ip mask : string) :
  (exists r, calculateSubnet ip mask = Ret (Some r, None))
  \/ (exists e k, calculateSubnet ip mask = Ret (None, Some e)
                  /\ errorKind e = Some k).
Proof.
  destruct (To4_ParseIP_shape ip) as [E | [a [b [c [d E]]]]].
  - right. destruct (calculateSubnet_bad_ip ip mask E) as [e [He Hk]].
    eauto.
  - destruct (parseSubnetMask_shape mask)
      as [[k [Hk Hm]] | [e [k [Hm [Hek _]]]]].
    + left. destruct (calculateSubnet_ok ip mask a b c d k E Hk Hm)
        as [r [Hr _]]. eauto.
    + right. exists e, k. split; [| exact Hek].
      apply (calculateSubnet_mask_error ip mask a b c d e E Hm).
Qed.

(** ** C10: white space around the two inputs *)

(** C10: for an address and a mask that [calculateSubnet] accepts, spaces
    around the mask do not change the result, and a space before the
    address makes the computation fail with [InvalidIPAddress]. *)
Theorem mask_trimmed_address_not (ip m : string) (r : SubnetResult) :
  calculateSubnet ip m = Ret (Some r, None) ->
  calculateSubnet ip (" " ++ m ++ " ") = Ret (Some r, None)
  /\ failsWith (calculateSubnet (" " ++ ip) m) InvalidIPAddress
  /\ calculateSubnet (" " ++ ip) m
     = Ret (None, Some ("invalid IP address:  " ++ ip)%string).
Proof.
  intros H. split; [rewrite calculateSubnet_padded; exact H |].
  split.
  - apply calculateSubnet_bad_ip. cbn [append].
    rewrite ParseIP_space. reflexivity.
  - unfold calculateSubnet. cbn [append]. rewrite ParseIP_space.
    cbn [isNil]. unfold fmt.Errorf. rewrite append_empty_r. reflexivity.
Qed.

Lemma mask_trimmed_address_not_witness :
  calculateSubnet "192.168.1.100" "/24"
  = Ret (Some (resultOf "192.168.1.0" "192.168.1.255" "192.168.1.1"
                 "192.168.1.254" "254"), None)
  /\ calculateSubnet "192.168.1.100" (" " ++ "/24" ++ " ")
     = Ret (Some (resultOf "192.168.1.0" "192.168.1.255" "192.168.1.1"
                    "192.168.1.254" "254"), None)
  /\ failsWith (calculateSubnet (" " ++ "192.168.1.100") "/24")
       InvalidIPAddress
  /\ calculateSubnet (" " ++ "192.168.1.100") "/24"
     = Ret (None, Some ("invalid IP address:  " ++ "192.168.1.100")%string).
Proof.
  split; [vm_compute; reflexivity |].
  apply (mask_trimmed_address_not "192.168.1.100" "/24").
  vm_compute. reflexivity.
Defined.

(** * Further properties of the program *)

(** ** [isValidSubnetMask] and the length of the mask *)

(** X1: [isValidSubnetMask] panics exactly on the slices of fewer than
    four bytes; on a longer slice it looks at the first four bytes only. *)
Theorem isValidSubnetMask_length (mask : net.IPMask) :
  ((exists msg, isValidSubnetMask mask = Panic msg)
   <-> (List.length mask < 4)%nat)
  /\ isValidSubnetMask mask = isValidSubnetMask (firstn 4 mask).
Proof.
  destruct mask as [| a [| b [| c [| d rest]]]];
    try (split; [split; [intros _; simpl; lia
                        | intros _; eexists; reflexivity]
                | reflexivity]).
  split; [| reflexivity].
  split.
  - intros [msg H].
    change (isValidSubnetMask (a :: b :: c :: d :: rest))
      with (isValidSubnetMask [a; b; c; d]) in H.
    rewrite isValidSubnetMask_run in H. discriminate H.
  - simpl. lia.
Qed.

(** ** The mask parser *)

Lemma calculateSubnet_mask_ext (ip s1 s2 : string) :
  parseSubnetMask s1 = parseSubnetMask s2 ->
  calculateSubnet ip s1 = calculateSubnet ip s2.
Proof. intros H. unfold calculateSubnet. rewrite H. reflexivity. Qed.

Lemma parseSubnetMask_dotted (k : Z) :
  0 <= k <= 32 ->
  parseSubnetMask (net.String_ (net.CIDRMask k 32))
  = Ret (net.CIDRMask k 32, None).
Proof.
  intros Hk. enum_Z k 33%nat; vm_compute; reflexivity.
Qed.

(** X2: [parseSubnetMask] never panics.  It returns either a mask and the
    nil error, or the nil mask and an error about the mask; a returned
    mask has four bytes, its value is [0xFFFFFFFF << (32 - k)] on 32 bits
    and [Size] reports [(k, 32)] for a [k] in [[0,32]]. *)
Theorem parseSubnetMask_total (s : string) :
  (exists k m0 m1 m2 m3,
      0 <= k <= 32
      /\ parseSubnetMask s = Ret ([m0; m1; m2; m3], None)
      /\ be32 m0 m1 m2 m3 = prefixMask k
      /\ net.Size [m0; m1; m2; m3] = (k, 32))
  \/ (exists e kind,
         parseSubnetMask s = Ret ([], Some e)
         /\ errorKind e = Some kind
         /\ (kind = InvalidCIDR \/ kind = InvalidMaskFormat
             \/ kind = NonContiguousMask)).
Proof.
  destruct (parseSubnetMask_shape s) as [[k [Hk Hm]] | [e [kind H]]].
  - left. destruct (be32_CIDRMask k Hk) as [m0 [m1 [m2 [m3 [Em Ev]]]]].
    exists k, m0, m1, m2, m3. split; [exact Hk |].
    split; [rewrite Hm, Em; reflexivity |].
    split; [rewrite Ev; symmetry; apply prefixMask_value, Hk |].
    rewrite <- Em. apply CIDRMask_Size, Hk.
  - right. exists e, kind. exact H.
Qed.

(** X3: every mask string that [parseSubnetMask] accepts, in either
    notation, is equivalent to the CIDR string of its prefix length and to
    the dotted-decimal text of its mask: both parse to the same mask, and
    [calculateSubnet] returns the same for all three on every address. *)
Theorem accepted_mask_notations (s : string) (mask : net.IPMask) :
  parseSubnetMask s = Ret (mask, None) ->
  exists k,
    0 <= k <= 32
    /\ net.Size mask = (k, 32)
    /\ parseSubnetMask ("/" ++ strconv.FormatInt k) = Ret (mask, None)
    /\ parseSubnetMask (net.String_ mask) = Ret (mask, None)
    /\ forall ip,
         calculateSubnet ip s
         = calculateSubnet ip ("/" ++ strconv.FormatInt k)
         /\ calculateSubnet ip s = calculateSubnet ip (net.String_ mask).
Proof.
  intros H.
  destruct (parseSubnetMask_shape s) as [[k [Hk Hm]] | [e [kind [Hm _]]]];
    [| congruence].
  assert (mask = net.CIDRMask k 32) by congruence. subst mask.
  exists k. split; [exact Hk |].
  split; [apply CIDRMask_Size, Hk |].
  split; [apply parseSubnetMask_cidr, Hk |].
  split; [apply parseSubnetMask_dotted, Hk |].
  intros ip. split; apply calculateSubnet_mask_ext; rewrite H; symmetry.
  - apply parseSubnetMask_cidr, Hk.
  - apply parseSubnetMask_dotted, Hk.
Qed.

Lemma accepted_mask_notations_witness :
  parseSubnetMask " 255.255.255.192 "
  = Ret ([byte_of_Z 255; byte_of_Z 255; byte_of_Z 255; byte_of_Z 192], None)
  /\ exists k,
       0 <= k <= 32
       /\ net.Size [byte_of_Z 255; byte_of_Z 255; byte_of_Z 255; byte_of_Z 192]
          = (k, 32)
       /\ parseSubnetMask ("/" ++ strconv.FormatInt k)
          = Ret ([byte_of_Z 255; byte_of_Z 255; byte_of_Z 255; byte_of_Z 192],
                 None)
       /\ parseSubnetMask
            (net.String_
               [byte_of_Z 255; byte_of_Z 255; byte_of_Z 255; byte_of_Z 192])
          = Ret ([byte_of_Z 255; byte_of_Z 255; byte_of_Z 255; byte_of_Z 192],
                 None)
       /\ forall ip,
            calculateSubnet ip " 255.255.255.192 "
            = calculateSubnet ip ("/" ++ strconv.FormatInt k)
            /\ calculateSubnet ip " 255.255.255.192 "
               = calculateSubnet ip
                   (net.String_
                      [byte_of_Z 255; byte_of_Z 255; byte_of_Z 255;
                       byte_of_Z 192]).
Proof.
  split; [vm_compute; reflexivity |].
  apply (accepted_mask_notations " 255.255.255.192 ").
  vm_compute. reflexivity.
Defined.

(** ** Network and broadcast address as numbers *)

Ltac eval_consts :=
  repeat match goal with
         | |- context [clearBits ?k ?i] =>
             let v := eval vm_compute in (clearBits k i) in
             change (clearBits k i) with v
         end;
  repeat match goal with
         | |- context [2 ^ ?e] =>
             let v := eval vm_compute in (2 ^ e) in
             change (2 ^ e) with v
         end.

Lemma CIDRMask_clearBits (k : Z) :
  0 <= k <= 32 ->
  net.CIDRMask k 32
  = [maskByte (clearBits k 0); maskByte (clearBits k 1);
     maskByte (clearBits k 2); maskByte (clearBits k 3)].
Proof.
  intros Hk. enum_Z k 33%nat; vm_compute; reflexivity.
Qed.

Lemma byte_and_maskByte (x : byte) (t : Z) :
  0 <= t <= 8 ->
  Z_of_byte (byte_and x (maskByte t)) = 2 ^ t * (Z_of_byte x / 2 ^ t).
Proof.
  intros Ht. apply Z.eqb_eq. revert x.
  enum_Z t 9%nat; apply forall_byte; vm_compute; reflexivity.
Qed.

Lemma byte_or_maskByte (x : byte) (t : Z) :
  0 <= t <= 8 ->
  Z_of_byte (byte_or (byte_and x (maskByte t)) (byte_not (maskByte t)))
  = 2 ^ t * (Z_of_byte x / 2 ^ t) + 2 ^ t - 1.
Proof.
  intros Ht. apply Z.eqb_eq. revert x.
  enum_Z t 9%nat; apply forall_byte; vm_compute; reflexivity.
Qed.

Lemma clearBits_range (k i : Z) : 0 <= clearBits k i <= 8.
Proof. unfold clearBits. lia. Qed.

(** The network address is the address with its low [32 - k] bits
    cleared, the broadcast address the address with these bits set. *)
Lemma network_broadcast_value (k : Z) (a b c d : byte) :
  0 <= k <= 32 ->
  let network := networkOf [a; b; c; d] (net.CIDRMask k 32) in
  let size := 2 ^ (32 - k) in
  ipValue network = Some (size * (be32 a b c d / size))
  /\ ipValue (broadcastOf network (net.CIDRMask k 32))
     = Some (size * (be32 a b c d / size) + size - 1).
Proof.
  intros Hk network size. subst network size.
  rewrite (CIDRMask_clearBits k Hk).
  unfold networkOf, broadcastOf. cbn [combine map ipValue]. unfold be32.
  rewrite !byte_and_maskByte, !byte_or_maskByte by apply clearBits_range.
  pose proof (Z_of_byte_range a). pose proof (Z_of_byte_range b).
  pose proof (Z_of_byte_range c). pose proof (Z_of_byte_range d).
  enum_Z k 33%nat; eval_consts; split; f_equal;
    Z.div_mod_to_equations; lia.
Qed.

Lemma addrValue_of_ipValue (l : net.IP) (v : Z) :
  ipValue l = Some v -> addrValue (net.String_ l) = Some v.
Proof.
  destruct l as [| a [| b [| c [| d [| ? ?]]]]]; try discriminate.
  intros H. rewrite addrValue_String. exact H.
Qed.

Lemma addrValue_accepted (ip : string) (a b c d : byte) :
  net.To4 (net.ParseIP ip) = [a; b; c; d] ->
  addrValue ip = Some (be32 a b c d).
Proof. intros H. unfold addrValue. rewrite H. reflexivity. Qed.

(** The numbers behind a successful run. *)
Lemma run_values (ip mask : string) (r : SubnetResult) :
  calculateSubnet ip mask = Ret (Some r, None) ->
  exists k a b c d,
    0 <= k <= 32
    /\ net.To4 (net.ParseIP ip) = [a; b; c; d]
    /\ parseSubnetMask mask = Ret (net.CIDRMask k 32, None)
    /\ addrValue (NetworkAddress r)
       = Some (2 ^ (32 - k) * (be32 a b c d / 2 ^ (32 - k)))
    /\ addrValue (BroadcastAddress r)
       = Some (2 ^ (32 - k) * (be32 a b c d / 2 ^ (32 - k))
               + 2 ^ (32 - k) - 1).
Proof.
  intros H.
  destruct (calculateSubnet_success_inv ip mask r H)
    as [a [b [c [d [k [Hip [Hk Hm]]]]]]].
  destruct (calculateSubnet_ok ip mask a b c d k Hip Hk Hm)
    as [r' [Hr [_ [_ [_ Hcases]]]]].
  rewrite Hr in H. injection H as <-.
  destruct (network_broadcast_value k a b c d Hk) as [Vn Vb].
  exists k, a, b, c, d.
  split; [exact Hk |]. split; [exact Hip |]. split; [exact Hm |].
  destruct Hcases as [[E [Hn [Hb _]]]
                     | [[_ [Hn [Hb _]]] | [_ [Hn [Hb _]]]]];
    rewrite Hn, Hb.
  - subst k. change (2 ^ (32 - 32)) with 1.
    rewrite addrValue_String, Z.div_1_r. split; f_equal; lia.
  - split; apply addrValue_of_ipValue; assumption.
  - split; apply addrValue_of_ipValue; assumption.
Qed.

(** X4: in every successful computation with a mask of prefix length [k],
    the network address is the input address rounded down to a multiple of
    [2^(32-k)] and the broadcast address is the last address of that
    block, [2^(32-k) - 1] above the network address. *)
Theorem network_broadcast_numbers (ip mask : string) (r : SubnetResult) :
  calculateSubnet ip mask = Ret (Some r, None) ->
  exists k m a,
    0 <= k <= 32
    /\ parseSubnetMask mask = Ret (m, None)
    /\ net.Size m = (k, 32)
    /\ addrValue ip = Some a
    /\ addrValue (NetworkAddress r)
       = Some (2 ^ (32 - k) * (a / 2 ^ (32 - k)))
    /\ addrValue (BroadcastAddress r)
       = Some (2 ^ (32 - k) * (a / 2 ^ (32 - k)) + 2 ^ (32 - k) - 1).
Proof.
  intros H.
  destruct (run_values ip mask r H)
    as [k [a [b [c [d [Hk [Hip [Hm [Vn Vb]]]]]]]]].
  exists k, (net.CIDRMask k 32), (be32 a b c d).
  split; [exact Hk |]. split; [exact Hm |].
  split; [apply CIDRMask_Size, Hk |].
  split; [apply addrValue_accepted, Hip |].
  split; assumption.
Qed.

Lemma network_broadcast_numbers_witness :
  calculateSubnet "172.16.0.50" "255.255.255.192"
  = Ret (Some (resultOf "172.16.0.0" "172.16.0.63" "172.16.0.1"
                 "172.16.0.62" "62"), None)
  /\ exists k m a,
       0 <= k <= 32
       /\ parseSubnetMask "255.255.255.192" = Ret (m, None)
       /\ net.Size m = (k, 32)
       /\ addrValue "172.16.0.50" = Some a
       /\ addrValue "172.16.0.0" = Some (2 ^ (32 - k) * (a / 2 ^ (32 - k)))
       /\ addrValue "172.16.0.63"
          = Some (2 ^ (32 - k) * (a / 2 ^ (32 - k)) + 2 ^ (32 - k) - 1).
Proof.
  split; [vm_compute; reflexivity |].
  apply (network_broadcast_numbers "172.16.0.50" "255.255.255.192"
           (resultOf "172.16.0.0" "172.16.0.63" "172.16.0.1"
              "172.16.0.62" "62")).
  vm_compute. reflexivity.
Defined.

(** ** The host range *)

(** X5: a successful computation either reports no hosts (the two bounds
    are "N/A" and the count is "0"), which happens exactly for the prefix
    lengths 31 and 32, or reports the first host one above the network
    address and the last host one below the broadcast address, with at
    least two hosts and a count equal to the number of addresses from the
    first to the last host, [broadcast - network - 1]. *)
Theorem host_range (ip mask : string) (r : SubnetResult) :
  calculateSubnet ip mask = Ret (Some r, None) ->
  exists k m,
    parseSubnetMask mask = Ret (m, None) /\ net.Size m = (k, 32)
    /\ ((31 <= k <= 32
         /\ MinHostAddress r = "N/A" /\ MaxHostAddress r = "N/A"
         /\ UsableHosts r = "0")
        \/ (0 <= k <= 30
            /\ exists n lo hi b,
                 addrValue (NetworkAddress r) = Some n
                 /\ addrValue (MinHostAddress r) = Some lo
                 /\ addrValue (MaxHostAddress r) = Some hi
                 /\ addrValue (BroadcastAddress r) = Some b
                 /\ lo = n + 1 /\ hi = b - 1 /\ lo < hi
                 /\ strconv.Atoi (UsableHosts r) = Some (hi - lo + 1)
                 /\ hi - lo + 1 = b - n - 1)).
Proof.
  intros H.
  destruct (calculateSubnet_success_inv ip mask r H)
    as [a [b [c [d [k [Hip [Hk Hm]]]]]]].
  destruct (calculateSubnet_ok ip mask a b c d k Hip Hk Hm)
    as [r' [Hr [_ [_ [_ Hcases]]]]].
  rewrite Hr in H. injection H as <-.
  exists k, (net.CIDRMask k 32).
  split; [exact Hm |]. split; [apply CIDRMask_Size, Hk |].
  destruct Hcases as [[E [_ [_ [Hmin [Hmax Hu]]]]]
                     | [[E [_ [_ [Hmin [Hmax Hu]]]]]
                       | [Hk30 [Hn [Hb [Hhosts Hu]]]]]].
  - left. repeat split; try assumption; lia.
  - left. repeat split; try assumption; lia.
  - right. split; [lia |].
    destruct Hhosts as [mn [mx [n [bc [Hmin [Hmax [Vn [Vb [Vmin Vmax]]]]]]]]].
    destruct (network_broadcast_value k a b c d Hk) as [Vn' Vb'].
    rewrite Vn in Vn'. rewrite Vb in Vb'.
    injection Vn' as Vn'. injection Vb' as Vb'.
    pose proof (pow2_host_bits k ltac:(lia)) as Hp.
    assert (Hbc : bc = n + 2 ^ (32 - k) - 1) by (rewrite Vn', Vb'; reflexivity).
    clear Vn' Vb'.
    exists n, (n + 1), (bc - 1), bc.
    rewrite Hn, Hb, Hmin, Hmax, Hu.
    split; [apply addrValue_of_ipValue, Vn |].
    split; [apply addrValue_of_ipValue, Vmin |].
    split; [apply addrValue_of_ipValue, Vmax |].
    split; [apply addrValue_of_ipValue, Vb |].
    split; [reflexivity |]. split; [reflexivity |]. split; [lia |].
    split; [| lia].
    replace (bc - 1 - (n + 1) + 1) with (2 ^ (32 - k) - 2) by lia.
    apply FormatInt_Atoi_usable. lia.
Qed.

Lemma host_range_witness :
  calculateSubnet "172.16.0.50" "255.255.255.192"
  = Ret (Some (resultOf "172.16.0.0" "172.16.0.63" "172.16.0.1"
                 "172.16.0.62" "62"), None)
  /\ exists k m,
       parseSubnetMask "255.255.255.192" = Ret (m, None)
       /\ net.Size m = (k, 32)
       /\ ((31 <= k <= 32
            /\ "172.16.0.1" = "N/A" /\ "172.16.0.62" = "N/A" /\ "62" = "0")
           \/ (0 <= k <= 30
               /\ exists n lo hi b,
                    addrValue "172.16.0.0" = Some n
                    /\ addrValue "172.16.0.1" = Some lo
                    /\ addrValue "172.16.0.62" = Some hi
                    /\ addrValue "172.16.0.63" = Some b
                    /\ lo = n + 1 /\ hi = b - 1 /\ lo < hi
                    /\ strconv.Atoi "62" = Some (hi - lo + 1)
                    /\ hi - lo + 1 = b - n - 1)).
Proof.
  split; [vm_compute; reflexivity |].
  apply (host_range "172.16.0.50" "255.255.255.192"
           (resultOf "172.16.0.0" "172.16.0.63" "172.16.0.1"
              "172.16.0.62" "62")).
  vm_compute. reflexivity.
Defined.

(** ** Addresses of the same subnet *)

Lemma be32_inj (a b c d a' b' c' d' : byte) :
  be32 a b c d = be32 a' b' c' d' -> [a; b; c; d] = [a'; b'; c'; d'].
Proof.
  intros H. rewrite <- (bytesOf_be32 a b c d), <- (bytesOf_be32 a' b' c' d').
  now rewrite H.
Qed.

Lemma ipValue_inj (l l' : net.IP) (v : Z) :
  ipValue l = Some v -> ipValue l' = Some v -> l = l'.
Proof.
  destruct l as [| a [| b [| c [| d [| ? ?]]]]]; try discriminate.
  destruct l' as [| a' [| b' [| c' [| d' [| ? ?]]]]]; try discriminate.
  cbn [ipValue]. intros H H'. apply be32_inj. congruence.
Qed.

(** [calculateSubnet] uses the address through its network address only,
    except for a /32, where it prints the address itself. *)
Lemma calculateSubnet_congr (ip1 ip2 m : string) (a b c d a' b' c' d' : byte)
    (k : Z) :
  net.To4 (net.ParseIP ip1) = [a; b; c; d] ->
  net.To4 (net.ParseIP ip2) = [a'; b'; c'; d'] ->
  0 <= k <= 32 ->
  parseSubnetMask m = Ret (net.CIDRMask k 32, None) ->
  (k = 32 -> [a; b; c; d] = [a'; b'; c'; d']) ->
  networkOf [a; b; c; d] (net.CIDRMask k 32)
  = networkOf [a'; b'; c'; d'] (net.CIDRMask k 32) ->
  calculateSubnet ip1 m = calculateSubnet ip2 m.
Proof.
  intros H1 H2 Hk Hm H32 Hnet. unfold calculateSubnet.
  rewrite (ParseIP_not_nil _ _ _ _ _ H1), (ParseIP_not_nil _ _ _ _ _ H2).
  rewrite H1, H2, Hm. cbn [isNil bind]. rewrite (CIDRMask_Size k Hk).
  destruct (be32_CIDRMask k Hk) as [m0 [m1 [m2 [m3 [Em _]]]]].
  rewrite Em in *. rewrite !Mask_four, Hnet.
  destruct (broadcastLoop 4 0 _ _ _) as [bc | msg]; [| reflexivity].
  cbn [bind].
  destruct (Z.eqb_spec k 32) as [E | E]; [| reflexivity].
  rewrite (H32 E). reflexivity.
Qed.

(** X6: every address between the network address and the broadcast
    address of a successful computation gives, with the same mask, the
    same result; so does each of the addresses the result itself
    reports. *)
Theorem same_subnet_same_result (ip ip2 mask : string) (r : SubnetResult)
    (n v b : Z) :
  calculateSubnet ip mask = Ret (Some r, None) ->
  addrValue (NetworkAddress r) = Some n ->
  addrValue (BroadcastAddress r) = Some b ->
  addrValue ip2 = Some v ->
  n <= v <= b ->
  calculateSubnet ip2 mask = Ret (Some r, None).
Proof.
  intros H Hn Hb Hv Hrange.
  destruct (run_values ip mask r H)
    as [k [x0 [x1 [x2 [x3 [Hk [Hip [Hm [Vn Vb]]]]]]]]].
  remember (2 ^ (32 - k)) as size eqn:Esize.
  remember (be32 x0 x1 x2 x3 / size) as q eqn:Eq.
  assert (Vn' : n = size * q) by congruence.
  assert (Vb' : b = size * q + size - 1) by congruence.
  clear Vn Vb Hn Hb.
  unfold addrValue in Hv.
  destruct (net.To4 (net.ParseIP ip2))
    as [| y0 [| y1 [| y2 [| y3 [| ? ?]]]]] eqn:Hip2; try discriminate Hv.
  assert (Hv' : be32 y0 y1 y2 y3 = v) by (cbn [ipValue] in Hv; congruence).
  clear Hv. rewrite <- H. symmetry.
  assert (Hsize : 0 < size) by (subst size; apply Z.pow_pos_nonneg; lia).
  assert (Hq : v / size = q).
  { symmetry. apply (Z.div_unique v size q (v - n)); lia. }
  apply (calculateSubnet_congr ip ip2 mask x0 x1 x2 x3 y0 y1 y2 y3 k);
    try assumption.
  - intros E. subst k. change (2 ^ (32 - 32)) with 1 in Esize. subst size.
    rewrite Z.div_1_r in Hq, Eq. apply be32_inj. congruence.
  - destruct (network_broadcast_value k x0 x1 x2 x3 Hk) as [V1 _].
    destruct (network_broadcast_value k y0 y1 y2 y3 Hk) as [V2 _].
    rewrite <- Esize in V1, V2. rewrite <- Eq in V1. rewrite Hv', Hq in V2.
    eapply ipValue_inj; eassumption.
Qed.

Lemma same_subnet_same_result_witness :
  calculateSubnet "172.16.0.50" "255.255.255.192"
  = Ret (Some (resultOf "172.16.0.0" "172.16.0.63" "172.16.0.1"
                 "172.16.0.62" "62"), None)
  /\ addrValue "172.16.0.0" = Some 2886729728
  /\ addrValue "172.16.0.63" = Some 2886729791
  /\ addrValue "::ffff:172.16.0.9" = Some 2886729737
  /\ 2886729728 <= 2886729737 <= 2886729791
  /\ calculateSubnet "::ffff:172.16.0.9" "255.255.255.192"
     = Ret (Some (resultOf "172.16.0.0" "172.16.0.63" "172.16.0.1"
                    "172.16.0.62" "62"), None).
Proof.
  split; [vm_compute; reflexivity |].
  split; [vm_compute; reflexivity |].
  split; [vm_compute; reflexivity |].
  split; [vm_compute; reflexivity |].
  split; [lia |].
  apply (same_subnet_same_result "172.16.0.50" "::ffff:172.16.0.9"
           "255.255.255.192"
           (resultOf "172.16.0.0" "172.16.0.63" "172.16.0.1"
              "172.16.0.62" "62")
           2886729728 2886729737 2886729791);
    try (vm_compute; reflexivity). lia.
Defined.

(** ** The two loops that step an address *)

(** X7: on any four octets, the loop that adds one computes the successor
    modulo [2^32], carrying across all four octets (255.255.255.255 wraps
    to 0.0.0.0), the loop that subtracts one computes the predecessor
    modulo [2^32], and each undoes the other. *)
Theorem addOne_subOne_inverse (a b c d : byte) :
  (exists l,
      addOneLoop 4 [a; b; c; d] = Ret l
      /\ ipValue l = Some ((be32 a b c d + 1) mod 2 ^ 32)
      /\ subOneLoop 4 l = Ret [a; b; c; d])
  /\ (exists l,
         subOneLoop 4 [a; b; c; d] = Ret l
         /\ ipValue l = Some ((be32 a b c d - 1) mod 2 ^ 32)
         /\ addOneLoop 4 l = Ret [a; b; c; d]).
Proof.
  pose proof (be32_range a b c d) as Hr.
  change (2 ^ 32) with 4294967296 in *.
  split.
  - destruct (addOneLoop_four a b c d) as [x0 [x1 [x2 [x3 [E V]]]]].
    exists [x0; x1; x2; x3]. split; [exact E |].
    change (2 ^ 32) with 4294967296 in V.
    split; [cbn [ipValue]; rewrite V; reflexivity |].
    destruct (subOneLoop_four x0 x1 x2 x3) as [y0 [y1 [y2 [y3 [E' V']]]]].
    change (2 ^ 32) with 4294967296 in V'.
    rewrite E'. f_equal. apply be32_inj. rewrite V', V.
    Z.div_mod_to_equations. lia.
  - destruct (subOneLoop_four a b c d) as [x0 [x1 [x2 [x3 [E V]]]]].
    exists [x0; x1; x2; x3]. split; [exact E |].
    change (2 ^ 32) with 4294967296 in V.
    split; [cbn [ipValue]; rewrite V; reflexivity |].
    destruct (addOneLoop_four x0 x1 x2 x3) as [y0 [y1 [y2 [y3 [E' V']]]]].
    change (2 ^ 32) with 4294967296 in V'.
    rewrite E'. f_equal. apply be32_inj. rewrite V', V.
    Z.div_mod_to_equations. lia.
Qed.

Lemma last_mask_byte (k : Z) :
  0 <= k <= 30 ->
  exists m0 m1 m2 m3,
    net.CIDRMask k 32 = [m0; m1; m2; m3] /\ Z_of_byte m3 <= 252.
Proof.
  intros Hk. enum_Z k 31%nat; eexists _, _, _, _;
    (split; [vm_compute; reflexivity | vm_compute; discriminate]).
Qed.

(** X8: when hosts are reported, the first host is the network address
    with its last octet increased by one and the last host is the
    broadcast address with its last octet decreased by one: the last
    octet of the network address is at most 252 and that of the broadcast
    address at least 3, so [calculateSubnet] never takes the carry or the
    borrow branch of its two loops. *)
Theorem hosts_differ_in_last_octet (ip mask : string) (r : SubnetResult) :
  calculateSubnet ip mask = Ret (Some r, None) ->
  MinHostAddress r <> "N/A" ->
  exists n0 n1 n2 n3 b0 b1 b2 b3,
    NetworkAddress r = netip.string4 n0 n1 n2 n3
    /\ BroadcastAddress r = netip.string4 b0 b1 b2 b3
    /\ Z_of_byte n3 <= 252 /\ 3 <= Z_of_byte b3
    /\ MinHostAddress r
       = netip.string4 n0 n1 n2 (byte_of_Z (Z_of_byte n3 + 1))
    /\ MaxHostAddress r
       = netip.string4 b0 b1 b2 (byte_of_Z (Z_of_byte b3 - 1)).
Proof.
  intros H Hna.
  destruct (calculateSubnet_success_inv ip mask r H)
    as [a [b [c [d [k [Hip [Hk Hm]]]]]]].
  destruct (calculateSubnet_ok ip mask a b c d k Hip Hk Hm)
    as [r' [Hr [_ [_ [_ Hcases]]]]].
  rewrite Hr in H. injection H as <-.
  destruct Hcases as [[_ [_ [_ [Hmin _]]]]
                     | [[_ [_ [_ [Hmin _]]]]
                       | [Hk30 [Hn [Hb [Hhosts _]]]]]];
    [contradiction | contradiction |].
  destruct Hhosts as [mn [mx [n [bc [Hmin [Hmax [Vn [Vb [Vmin Vmax]]]]]]]]].
  destruct (last_mask_byte k ltac:(lia)) as [m0 [m1 [m2 [m3 [Em Hm3]]]]].
  rewrite Em in *. unfold networkOf, broadcastOf in *.
  cbn [combine map ipValue] in *.
  pose proof (byte_and_le_r d m3) as Hlo.
  pose proof (byte_or_not_ge_r d m3) as Hhi.
  set (n0 := byte_and a m0) in *. set (n1 := byte_and b m1) in *.
  set (n2 := byte_and c m2) in *. set (n3 := byte_and d m3) in *.
  set (b0 := byte_or n0 (byte_not m0)) in *.
  set (b1 := byte_or n1 (byte_not m1)) in *.
  set (b2 := byte_or n2 (byte_not m2)) in *.
  set (b3 := byte_or n3 (byte_not m3)) in *.
  pose proof (Z_of_byte_range n3). pose proof (Z_of_byte_range b3).
  exists n0, n1, n2, n3, b0, b1, b2, b3.
  split; [exact Hn |]. split; [exact Hb |].
  split; [lia |]. split; [lia |].
  assert (Emin : mn = [n0; n1; n2; byte_of_Z (Z_of_byte n3 + 1)]).
  { apply (ipValue_inj _ _ (n + 1) Vmin). cbn [ipValue]. f_equal.
    assert (n = be32 n0 n1 n2 n3) by congruence. subst n.
    unfold be32. rewrite Z_of_byte_of_Z, Z.mod_small by lia. lia. }
  assert (Emax : mx = [b0; b1; b2; byte_of_Z (Z_of_byte b3 - 1)]).
  { apply (ipValue_inj _ _ (bc - 1) Vmax). cbn [ipValue]. f_equal.
    assert (bc = be32 b0 b1 b2 b3) by congruence. subst bc.
    unfold be32. rewrite Z_of_byte_of_Z, Z.mod_small by lia. lia. }
  rewrite Hmin, Hmax, Emin, Emax. split; reflexivity.
Qed.

Lemma hosts_differ_in_last_octet_witness :
  calculateSubnet "172.16.0.50" "255.255.255.192"
  = Ret (Some (resultOf "172.16.0.0" "172.16.0.63" "172.16.0.1"
                 "172.16.0.62" "62"), None)
  /\ "172.16.0.1" <> "N/A"
  /\ exists n0 n1 n2 n3 b0 b1 b2 b3,
       "172.16.0.0" = netip.string4 n0 n1 n2 n3
       /\ "172.16.0.63" = netip.string4 b0 b1 b2 b3
       /\ Z_of_byte n3 <= 252 /\ 3 <= Z_of_byte b3
       /\ "172.16.0.1"
          = netip.string4 n0 n1 n2 (byte_of_Z (Z_of_byte n3 + 1))
       /\ "172.16.0.62"
          = netip.string4 b0 b1 b2 (byte_of_Z (Z_of_byte b3 - 1)).
Proof.
  split; [vm_compute; reflexivity |].
  split; [discriminate |].
  apply (hosts_differ_in_last_octet "172.16.0.50" "255.255.255.192"
           (resultOf "172.16.0.0" "172.16.0.63" "172.16.0.1"
              "172.16.0.62" "62")).
  - vm_compute. reflexivity.
  - discriminate.
Defined.

(** ** White space around the inputs *)

Section AsciiSpace.

Variable w : ascii.
Hypothesis Hw : strings.asciiSpace w = true.

Lemma asciiSpace_code : code w < 128 /\ unicode.IsSpace (code w) = true.
Proof.
  pose proof Hw as H. unfold strings.asciiSpace in H. cbv zeta in H.
  rewrite !orb_true_iff, !Z.eqb_eq in H.
  destruct H as [[[[[H | H] | H] | H] | H] | H]; rewrite H;
    (split; [lia | reflexivity]).
Qed.

Lemma decode_ws (r : string) :
  utf8.DecodeRuneInString (String w r) = (code w, 1%nat).
Proof.
  destruct asciiSpace_code as [Hc _].
  unfold utf8.DecodeRuneInString, utf8.first, utf8.RuneSelf.
  destruct (code w <? 194) eqn:E1; [| apply Z.ltb_ge in E1; lia].
  destruct (code w <? 128) eqn:E2; [reflexivity | apply Z.ltb_ge in E2; lia].
Qed.

Lemma decode_append_ws (c : ascii) (r : string) :
  utf8.DecodeRuneInString (String c r ++ String w EmptyString)
  = utf8.DecodeRuneInString (String c r).
Proof.
  destruct asciiSpace_code as [Hc _].
  unfold utf8.DecodeRuneInString. cbn [append].
  destruct (utf8.first (code c)) as [[sz [lo hi]] |] eqn:F; [| reflexivity].
  apply first_facts in F. destruct F as [Hsz Hlo].
  unfold utf8.cont, utf8.locb, utf8.hicb.
  destruct r as [| c1 [| c2 [| c3 r3]]]; cbn [append String.length];
    destruct Hsz as [-> | [-> | ->]]; split_ifs;
    try reflexivity; exfalso; bool_hyps; lia.
Qed.

Lemma trimLeftLoop_append_ws (n : nat) :
  forall t,
    (String.length t <= n)%nat ->
    strings.trimLeftLoop (S n) unicode.IsSpace (t ++ String w EmptyString)
    = match strings.trimLeftLoop n unicode.IsSpace t with
      | EmptyString => EmptyString
      | u => (u ++ String w EmptyString)%string
      end.
Proof.
  destruct asciiSpace_code as [_ Hs].
  assert (Hbase : forall n,
             strings.trimLeftLoop (S n) unicode.IsSpace (String w EmptyString)
             = EmptyString).
  { intros m. cbn [strings.trimLeftLoop]. rewrite decode_ws, Hs.
    cbn [drop]. apply trimLeftLoop_empty. }
  induction n as [| n IH]; intros t Hlen.
  - destruct t; [| simpl in Hlen; lia]. cbn [append]. apply Hbase.
  - destruct t as [| c r].
    + cbn [append]. rewrite Hbase, trimLeftLoop_empty. reflexivity.
    + change (strings.trimLeftLoop (S (S n)) unicode.IsSpace
                (String c r ++ String w EmptyString))
        with (let '(rn, size) :=
                utf8.DecodeRuneInString (String c r ++ String w EmptyString) in
              if unicode.IsSpace rn
              then strings.trimLeftLoop (S n) unicode.IsSpace
                     (drop size (String c r ++ String w EmptyString))
              else (String c r ++ String w EmptyString)%string).
      change (strings.trimLeftLoop (S n) unicode.IsSpace (String c r))
        with (let '(rn, size) := utf8.DecodeRuneInString (String c r) in
              if unicode.IsSpace rn
              then strings.trimLeftLoop n unicode.IsSpace
                     (drop size (String c r))
              else String c r).
      rewrite decode_append_ws.
      pose proof (decode_size c r) as Hsz.
      destruct (utf8.DecodeRuneInString (String c r)) as [rn size].
      cbn [snd] in Hsz.
      destruct (unicode.IsSpace rn); [| reflexivity].
      rewrite drop_append by (cbn [String.length] in Hsz |- *; lia).
      apply IH. rewrite length_drop.
      cbn [String.length] in Hlen, Hsz |- *. lia.
Qed.

Lemma TrimLeftFunc_append_ws (t : string) :
  strings.TrimLeftFunc (t ++ String w EmptyString) unicode.IsSpace
  = match strings.TrimLeftFunc t unicode.IsSpace with
    | EmptyString => EmptyString
    | u => (u ++ String w EmptyString)%string
    end.
Proof.
  unfold strings.TrimLeftFunc. rewrite length_append.
  replace (String.length t + String.length (String w EmptyString))%nat
    with (S (String.length t)) by (simpl; lia).
  apply trimLeftLoop_append_ws. lia.
Qed.

Lemma lastIndexFunc_append_ws (u : string) :
  strings.lastIndexFunc (u ++ String w EmptyString) unicode.IsSpace
  = strings.lastIndexFunc u unicode.IsSpace.
Proof.
  destruct asciiSpace_code as [Hc Hs].
  unfold strings.lastIndexFunc.
  rewrite length_append, list_ascii_append, rev_app_distr.
  replace (String.length u + String.length (String w EmptyString))%nat
    with (S (String.length u)) by (simpl; lia).
  cbn [list_ascii_of_string rev app strings.lastIndexLoop].
  unfold utf8.DecodeLastRune, utf8.RuneSelf.
  destruct (code w <? 128) eqn:E; [| apply Z.ltb_ge in E; lia].
  rewrite Hs. reflexivity.
Qed.

Lemma TrimRightFunc_append_ws (u : string) :
  strings.TrimRightFunc (u ++ String w EmptyString) unicode.IsSpace
  = strings.TrimRightFunc u unicode.IsSpace.
Proof.
  unfold strings.TrimRightFunc. rewrite lastIndexFunc_append_ws.
  destruct (strings.lastIndexFunc u unicode.IsSpace) as [i |] eqn:E;
    [| reflexivity].
  unfold strings.lastIndexFunc in E. apply lastIndexLoop_bound in E.
  rewrite length_rev, length_list_ascii in E.
  rewrite get_append by exact E.
  destruct (String.get i u) as [c |] eqn:G.
  - destruct (utf8.RuneSelf <=? code c).
    + rewrite drop_append by lia.
      assert (Hd : exists c' r', drop i u = String c' r').
      { destruct (drop i u) as [| c' r'] eqn:D; [| eauto].
        pose proof (length_drop i u) as L. rewrite D in L. simpl in L. lia. }
      destruct Hd as [c' [r' D]]. rewrite D, decode_append_ws.
      pose proof (decode_size c' r') as Hsz.
      assert (L : String.length (String c' r') = (String.length u - i)%nat)
        by (rewrite <- D; apply length_drop).
      apply take_append. lia.
    + apply take_append. lia.
  - apply take_append. lia.
Qed.

Lemma trimSpaceStart_append_ws (s : string) :
  strings.trimSpaceStart (s ++ String w EmptyString)
  = match strings.trimSpaceStart s with
    | (true, t) => (true, (t ++ String w EmptyString)%string)
    | (false, EmptyString) => (false, EmptyString)
    | (false, t) => (false, (t ++ String w EmptyString)%string)
    end.
Proof.
  destruct asciiSpace_code as [Hc _].
  induction s as [| c r IH].
  - cbn [append strings.trimSpaceStart]. unfold utf8.RuneSelf.
    destruct (128 <=? code w) eqn:E; [apply Z.leb_le in E; lia |].
    rewrite Hw. reflexivity.
  - cbn [append strings.trimSpaceStart].
    destruct (utf8.RuneSelf <=? code c); [reflexivity |].
    destruct (strings.asciiSpace c); [exact IH | reflexivity].
Qed.

Lemma trimSpaceStop_append_ws (t : string) :
  strings.trimSpaceStop (t ++ String w EmptyString) = strings.trimSpaceStop t.
Proof.
  destruct asciiSpace_code as [Hc _].
  induction t as [| c r IH].
  - cbn [append strings.trimSpaceStop]. unfold utf8.RuneSelf.
    destruct (128 <=? code w) eqn:E; [apply Z.leb_le in E; lia |].
    rewrite Hw. reflexivity.
  - cbn [append strings.trimSpaceStop]. rewrite IH. reflexivity.
Qed.

Lemma TrimSpace_append_ws (s : string) :
  strings.TrimSpace (s ++ String w EmptyString) = strings.TrimSpace s.
Proof.
  unfold strings.TrimSpace. rewrite trimSpaceStart_append_ws.
  destruct (strings.trimSpaceStart s) as [[|] [| c t]].
  - unfold strings.TrimFunc. rewrite TrimLeftFunc_append_ws. reflexivity.
  - unfold strings.TrimFunc. rewrite TrimLeftFunc_append_ws.
    destruct (strings.TrimLeftFunc (String c t) unicode.IsSpace);
      [reflexivity | apply TrimRightFunc_append_ws].
  - reflexivity.
  - rewrite trimSpaceStop_append_ws. reflexivity.
Qed.

Lemma TrimSpace_cons_ws (s : string) :
  strings.TrimSpace (String w s) = strings.TrimSpace s.
Proof.
  destruct asciiSpace_code as [Hc _].
  unfold strings.TrimSpace. cbn [strings.trimSpaceStart].
  unfold utf8.RuneSelf.
  destruct (128 <=? code w) eqn:E; [apply Z.leb_le in E; lia |].
  rewrite Hw. reflexivity.
Qed.

End AsciiSpace.

Lemma TrimSpace_prepend (ws s : string) :
  allAsciiSpace ws = true ->
  strings.TrimSpace (ws ++ s) = strings.TrimSpace s.
Proof.
  induction ws as [| c r IH]; intros H; [reflexivity |].
  cbn [allAsciiSpace] in H. apply andb_true_iff in H. destruct H as [Hc Hr].
  cbn [append]. rewrite (TrimSpace_cons_ws c Hc). apply IH, Hr.
Qed.

Lemma TrimSpace_append (ws : string) :
  forall s,
    allAsciiSpace ws = true ->
    strings.TrimSpace (s ++ ws) = strings.TrimSpace s.
Proof.
  induction ws as [| c r IH]; intros s H.
  - rewrite append_empty_r. reflexivity.
  - cbn [allAsciiSpace] in H. apply andb_true_iff in H. destruct H as [Hc Hr].
    change (String c r) with (String c EmptyString ++ r)%string.
    rewrite <- append_assoc, (IH _ Hr). apply (TrimSpace_append_ws c Hc).
Qed.

Lemma TrimSpace_surrounded (before after s : string) :
  allAsciiSpace before = true -> allAsciiSpace after = true ->
  strings.TrimSpace (before ++ s ++ after) = strings.TrimSpace s.
Proof.
  intros Hb Ha. rewrite (TrimSpace_prepend _ _ Hb). apply TrimSpace_append, Ha.
Qed.

(** X9: ASCII white space (spaces, tabs, line feeds, vertical tabs, form
    feeds, carriage returns) before and after the mask string is ignored:
    [parseSubnetMask] returns the same mask or the same error, and
    [calculateSubnet] the same result or the same error. *)
Theorem mask_white_space_ignored (before after s : string) :
  allAsciiSpace before = true ->
  allAsciiSpace after = true ->
  parseSubnetMask (before ++ s ++ after) = parseSubnetMask s
  /\ forall ip,
       calculateSubnet ip (before ++ s ++ after) = calculateSubnet ip s.
Proof.
  intros Hb Ha.
  assert (E : parseSubnetMask (before ++ s ++ after) = parseSubnetMask s).
  { unfold parseSubnetMask. rewrite TrimSpace_surrounded by assumption.
    reflexivity. }
  split; [exact E |]. intros ip. apply calculateSubnet_mask_ext, E.
Qed.

Lemma mask_white_space_ignored_witness :
  allAsciiSpace (String (ascii_of_nat 9) " ") = true
  /\ allAsciiSpace (String (ascii_of_nat 13) (String (ascii_of_nat 10) ""))
     = true
  /\ parseSubnetMask
       (String (ascii_of_nat 9) " " ++ "/24"
        ++ String (ascii_of_nat 13) (String (ascii_of_nat 10) ""))
     = parseSubnetMask "/24"
  /\ forall ip,
       calculateSubnet ip
         (String (ascii_of_nat 9) " " ++ "/24"
          ++ String (ascii_of_nat 13) (String (ascii_of_nat 10) ""))
       = calculateSubnet ip "/24".
Proof.
  split; [reflexivity |]. split; [reflexivity |].
  apply (mask_white_space_ignored (String (ascii_of_nat 9) " ") _ "/24");
    reflexivity.
Defined.

(** ** The request handler *)

Lemma usable_nonempty (k : Z) :
  0 <= k <= 30 -> strconv.FormatInt (2 ^ (32 - k) - 2) <> EmptyString.
Proof.
  intros Hk. enum_Z k 31%nat; vm_compute; discriminate.
Qed.

Lemma String_four_nonempty (l : net.IP) (v : Z) :
  ipValue l = Some v -> net.String_ l <> EmptyString.
Proof.
  destruct l as [| a [| b [| c [| d [| ? ?]]]]]; try discriminate.
  intros _. rewrite String_four. unfold netip.string4.
  apply appendDecimal_nonempty.
Qed.

(** A run of [calculateSubnet] yields a result whose five fields are all
    filled in, or an error with a message. *)
Lemma calculateSubnet_cases (ip mask : string) :
  (exists r,
      calculateSubnet ip mask = Ret (Some r, None)
      /\ NetworkAddress r <> EmptyString /\ BroadcastAddress r <> EmptyString
      /\ MinHostAddress r <> EmptyString /\ MaxHostAddress r <> EmptyString
      /\ UsableHosts r <> EmptyString)
  \/ (exists e, calculateSubnet ip mask = Ret (None, Some e)
                 /\ e <> EmptyString).
Proof.
  assert (Hmsg : forall e kind, errorKind e = Some kind -> e <> EmptyString).
  { intros e kind H ->. discriminate H. }
  destruct (To4_ParseIP_shape ip) as [E | [a [b [c [d E]]]]].
  - right. destruct (calculateSubnet_bad_ip ip mask E) as [e [He Hk]].
    exists e. split; [exact He | eapply Hmsg, Hk].
  - destruct (parseSubnetMask_shape mask)
      as [[k [Hk Hm]] | [e [kind [Hm [Hek _]]]]].
    + left. destruct (calculateSubnet_ok ip mask a b c d k E Hk Hm)
        as [r [Hr [_ [_ [_ Hcases]]]]].
      exists r. split; [exact Hr |].
      destruct (network_broadcast_value k a b c d Hk) as [Vn Vb].
      destruct Hcases as [[_ [Hn [Hb [Hmin [Hmax Hu]]]]]
                         | [[_ [Hn [Hb [Hmin [Hmax Hu]]]]]
                           | [Hk30 [Hn [Hb [Hhosts Hu]]]]]].
      * rewrite Hn, Hb, Hmin, Hmax, Hu.
        assert (net.String_ [a; b; c; d] <> EmptyString)
          by (eapply String_four_nonempty; reflexivity).
        repeat split; try assumption; discriminate.
      * rewrite Hn, Hb, Hmin, Hmax, Hu.
        repeat split;
          try (eapply String_four_nonempty; eassumption); discriminate.
      * destruct Hhosts
          as [mn [mx [n [bc [Hmin [Hmax [_ [_ [Vmin Vmax]]]]]]]]].
        rewrite Hn, Hb, Hmin, Hmax, Hu.
        repeat split;
          try (eapply String_four_nonempty; eassumption).
        apply usable_nonempty. lia.
    + right. exists e. split; [| eapply Hmsg, Hek].
      apply (calculateSubnet_mask_error ip mask a b c d e E Hm).
Qed.

(** X10: the handler never panics.  For a request that is not a POST, or
    whose address or mask is empty after trimming, nothing is computed and
    no error is shown.  Otherwise the page shows either the error message
    of [calculateSubnet], which is not empty, and no computed field, or no
    error and the five fields of the result, none of them empty.  The two
    inputs are echoed trimmed. *)
Theorem handler_result_or_error (method ipForm maskForm : string) :
  let ip := strings.TrimSpace ipForm in
  let mask := strings.TrimSpace maskForm in
  exists res,
    handlerResult method ipForm maskForm = Ret res
    /\ ((method <> MethodPost
         /\ res = mkSubnetResult "" "" "" "" "" "" "" "")
        \/ (method = MethodPost
            /\ (ip = EmptyString \/ mask = EmptyString)
            /\ res = mkSubnetResult ip mask "" "" "" "" "" "")
        \/ (method = MethodPost
            /\ ip <> EmptyString /\ mask <> EmptyString
            /\ exists e,
                 calculateSubnet ip mask = Ret (None, Some e)
                 /\ e <> EmptyString
                 /\ res = mkSubnetResult ip mask "" "" "" "" "" e)
        \/ (method = MethodPost
            /\ ip <> EmptyString /\ mask <> EmptyString
            /\ exists c,
                 calculateSubnet ip mask = Ret (Some c, None)
                 /\ res = mkSubnetResult ip mask (NetworkAddress c)
                            (BroadcastAddress c) (MinHostAddress c)
                            (MaxHostAddress c) (UsableHosts c) ""
                 /\ NetworkAddress c <> EmptyString
                 /\ BroadcastAddress c <> EmptyString
                 /\ MinHostAddress c <> EmptyString
                 /\ MaxHostAddress c <> EmptyString
                 /\ UsableHosts c <> EmptyString)).
Proof.
  intros ip mask. unfold handlerResult. fold ip. fold mask.
  destruct (String.eqb_spec method MethodPost) as [Em | Em].
  - destruct (String.eqb_spec ip "") as [Ei | Ei].
    + eexists. split; [reflexivity |]. right. left.
      split; [exact Em |]. split; [left; exact Ei | reflexivity].
    + destruct (String.eqb_spec mask "") as [Ek | Ek].
      * eexists. split; [reflexivity |]. right. left.
        split; [exact Em |]. split; [right; exact Ek | reflexivity].
      * cbn [negb andb].
        destruct (calculateSubnet_cases ip mask)
          as [[c [Hc Hfields]] | [e [He Hne]]].
        -- rewrite Hc. eexists. split; [reflexivity |].
           right. right. right. repeat (split; [assumption |]).
           exists c. split; [reflexivity |]. split; [reflexivity |].
           exact Hfields.
        -- rewrite He. eexists. split; [reflexivity |].
           right. right. left. repeat (split; [assumption |]).
           exists e. split; [reflexivity |]. split; [exact Hne | reflexivity].
  - eexists. split; [reflexivity |]. left. split; [exact Em | reflexivity].
Qed.

(** X11: unlike [calculateSubnet], the handler tolerates ASCII white space
    around the address as well as around the mask: the padded inputs give
    the same page data as the bare ones. *)
Theorem handler_trims_both_inputs
    (method ipForm maskForm b1 a1 b2 a2 : string) :
  allAsciiSpace b1 = true -> allAsciiSpace a1 = true ->
  allAsciiSpace b2 = true -> allAsciiSpace a2 = true ->
  handlerResult method (b1 ++ ipForm ++ a1) (b2 ++ maskForm ++ a2)
  = handlerResult method ipForm maskForm.
Proof.
  intros H1 H2 H3 H4. unfold handlerResult.
  rewrite !TrimSpace_surrounded by assumption. reflexivity.
Qed.

Lemma handler_trims_both_inputs_witness :
  allAsciiSpace " " = true /\ allAsciiSpace newline = true
  /\ allAsciiSpace "  " = true /\ allAsciiSpace "" = true
  /\ handlerResult "POST" (" " ++ "192.168.1.100" ++ newline)
       ("  " ++ "/24" ++ "")
     = handlerResult "POST" "192.168.1.100" "/24".
Proof.
  split; [reflexivity |]. split; [reflexivity |].
  split; [reflexivity |]. split; [reflexivity |].
  apply (handler_trims_both_inputs "POST" "192.168.1.100" "/24");
    reflexivity.
Defined.

(** ** The port of [main] *)

Lemma digit_code (d : Z) :
  0 <= d <= 9 ->
  strconv.isDigit (strconv.digit d) = true
  /\ code (strconv.digit d) - 48 = d.
Proof.
  intros Hd. enum_Z d 10%nat; vm_compute; split; reflexivity.
Qed.

Lemma digitsValue_formatBits (fuel : nat) :
  forall n acc,
    0 <= n < 10 ^ Z.of_nat fuel ->
    strconv.digitsValue (strconv.formatBits fuel n acc) 0
    = strconv.digitsValue acc n.
Proof.
  induction fuel as [| f IH]; intros n acc Hn.
  - cbn [strconv.formatBits]. change (10 ^ Z.of_nat 0) with 1 in Hn.
    replace n with 0 by lia. reflexivity.
  - cbn [strconv.formatBits].
    assert (Hm : 0 <= n mod 10 <= 9)
      by (pose proof (Z.mod_pos_bound n 10); lia).
    destruct (digit_code (n mod 10) Hm) as [Hd Hc].
    destruct (n <? 10) eqn:E.
    + apply Z.ltb_lt in E. cbn [strconv.digitsValue]. rewrite Hd, Hc.
      rewrite Z.mod_small by lia. reflexivity.
    + apply Z.ltb_ge in E. rewrite IH.
      * cbn [strconv.digitsValue]. rewrite Hd, Hc. f_equal.
        pose proof (Z.div_mod n 10). lia.
      * rewrite Nat2Z.inj_succ, Z.pow_succ_r in Hn by lia.
        split; [apply Z.div_pos; lia |].
        apply Z.div_lt_upper_bound; lia.
Qed.

Lemma formatBits_head (fuel : nat) :
  forall n acc,
    0 <= n ->
    exists c t,
      strconv.formatBits (S fuel) n acc = String c t
      /\ strconv.isDigit c = true.
Proof.
  induction fuel as [| f IH]; intros n acc Hn;
    assert (Hm : 0 <= n mod 10 <= 9)
      by (pose proof (Z.mod_pos_bound n 10); lia);
    destruct (digit_code (n mod 10) Hm) as [Hd _];
    cbn [strconv.formatBits]; destruct (n <? 10) eqn:E;
    try (eexists _, _; split; [reflexivity | exact Hd]).
  apply Z.ltb_ge in E.
  apply (IH (n / 10)). apply Z.div_pos; lia.
Qed.

Lemma isDigit_not_sign (c : ascii) :
  strconv.isDigit c = true -> char_eqb c "-" = false /\ char_eqb c "+" = false.
Proof.
  intros H. apply isDigit_range in H. unfold char_eqb.
  change (code "-") with 45. change (code "+") with 43. lia.
Qed.

(** Printing an [int] in decimal and reading it back. *)
Lemma Atoi_FormatInt (n : Z) :
  minInt <= n <= maxInt -> strconv.Atoi (strconv.FormatInt n) = Some n.
Proof.
  intros Hn. unfold strconv.FormatInt.
  assert (Hmax : maxInt < 10 ^ Z.of_nat 20 /\ - minInt < 10 ^ Z.of_nat 20)
    by (vm_compute; split; reflexivity).
  destruct (n <? 0) eqn:E.
  - apply Z.ltb_lt in E.
    destruct (formatBits_head 19 (- n) EmptyString ltac:(lia))
      as [c [t [Ef Hd]]].
    unfold strconv.Atoi. change (char_eqb "-" "-") with true. cbn [orb].
    pose proof (digitsValue_formatBits 20 (- n) EmptyString ltac:(lia)) as V.
    rewrite Ef in *. rewrite V. cbn [strconv.digitsValue].
    rewrite Z.opp_involutive.
    destruct ((minInt <=? n) && (n <=? maxInt)) eqn:R; [reflexivity | lia].
  - apply Z.ltb_ge in E.
    destruct (formatBits_head 19 n EmptyString E) as [c [t [Ef Hd]]].
    pose proof (digitsValue_formatBits 20 n EmptyString ltac:(lia)) as V.
    rewrite Ef in *. unfold strconv.Atoi.
    destruct (isDigit_not_sign c Hd) as [-> ->]. cbn [orb].
    rewrite V. cbn [strconv.digitsValue].
    destruct ((minInt <=? n) && (n <=? maxInt)) eqn:R; [reflexivity | lia].
Qed.

Lemma FormatInt_nonempty (n : Z) : strconv.FormatInt n <> EmptyString.
Proof.
  unfold strconv.FormatInt. destruct (n <? 0) eqn:E; [discriminate |].
  apply Z.ltb_ge in E.
  destruct (formatBits_head 19 n EmptyString E) as [c [t [Ef _]]].
  rewrite Ef. discriminate.
Qed.

Lemma digitsValue_non_digit (pre post : string) (c : ascii) :
  strconv.isDigit c = false ->
  forall acc, strconv.digitsValue (pre ++ String c post) acc = None.
Proof.
  intros Hc. induction pre as [| p r IH]; intros acc; cbn.
  - rewrite Hc. reflexivity.
  - destruct (strconv.isDigit p); [apply IH | reflexivity].
Qed.

Lemma Atoi_non_digit (pre post : string) (c : ascii) :
  strconv.isDigit c = false ->
  pre <> EmptyString \/ (char_eqb c "-" = false /\ char_eqb c "+" = false) ->
  strconv.Atoi (pre ++ String c post) = None.
Proof.
  intros Hc Hpre. unfold strconv.Atoi.
  destruct pre as [| p r].
  - destruct Hpre as [Hpre | [H1 H2]]; [contradiction |].
    cbn [append]. rewrite H1, H2. cbn [orb].
    rewrite (digitsValue_non_digit EmptyString post c Hc). reflexivity.
  - cbn [append].
    destruct (char_eqb p "-" || char_eqb p "+").
    + destruct (r ++ String c post)%string eqn:E; [reflexivity |].
      rewrite <- E, digitsValue_non_digit by exact Hc. reflexivity.
    + rewrite (digitsValue_non_digit (String p r) post c Hc). reflexivity.
Qed.

(** X12: [main] checks only that the port is an integer.  The decimal
    text of every integer that fits an [int], negative numbers and numbers
    above 65535 included, is accepted and becomes the listen address
    unchanged; a value with a byte that is not a decimal digit, other than
    a leading sign, stops the program with "Invalid port number"; the
    empty value stands for port 8080. *)
Theorem port_is_only_checked_numeric :
  (forall n,
      minInt <= n <= maxInt ->
      mainAction_of (strconv.FormatInt n)
      = ListenAndServe
          ("IPv4 Subnet Calculator starting on http://localhost:"
           ++ strconv.FormatInt n ++ newline)
          (":" ++ strconv.FormatInt n))
  /\ (forall pre c post,
         strconv.isDigit c = false ->
         pre <> EmptyString
         \/ (char_eqb c "-" = false /\ char_eqb c "+" = false) ->
         mainAction_of (pre ++ String c post)
         = Fatalf ("Invalid port number: " ++ pre ++ String c post))
  /\ mainAction_of ""
     = ListenAndServe
         ("IPv4 Subnet Calculator starting on http://localhost:8080"
          ++ newline)
         ":8080".
Proof.
  split; [| split; [| reflexivity]].
  - intros n Hn. unfold mainAction_of.
    destruct (String.eqb_spec (strconv.FormatInt n) "") as [E | _];
      [exfalso; exact (FormatInt_nonempty n E) |].
    rewrite (Atoi_FormatInt n Hn). reflexivity.
  - intros pre c post Hc Hpre. unfold mainAction_of.
    destruct (String.eqb_spec (pre ++ String c post) "") as [E | _].
    + destruct pre; discriminate E.
    + rewrite (Atoi_non_digit pre post c Hc Hpre). reflexivity.
Qed.

Lemma port_is_only_checked_numeric_witness :
  minInt <= -1 <= maxInt
  /\ mainAction_of (strconv.FormatInt (-1))
     = ListenAndServe
         ("IPv4 Subnet Calculator starting on http://localhost:"
          ++ strconv.FormatInt (-1) ++ newline)
         (":" ++ strconv.FormatInt (-1))
  /\ mainAction_of ("80" ++ String "a"%char "")
     = Fatalf ("Invalid port number: " ++ "80" ++ String "a"%char "").
Proof.
  split; [vm_compute; split; discriminate |].
  split.
  - apply (proj1 port_is_only_checked_numeric (-1)).
    vm_compute. split; discriminate.
  - apply (proj1 (proj2 port_is_only_checked_numeric) "80" "a"%char "").
    + reflexivity.
    + left. discriminate.
Defined.

(** ** When [calculateSubnet] succeeds *)

(** X13: [calculateSubnet] succeeds exactly when the address is accepted
    and the mask parser accepts the mask; the two inputs are judged
    independently.  When the address is accepted and the mask is not, the
    error is the one of the mask parser, unchanged. *)
Theorem success_iff_both_accepted (ip mask : string) :
  ((exists r, calculateSubnet ip mask = Ret (Some r, None))
   <-> (acceptsIP ip = true
        /\ exists m, parseSubnetMask mask = Ret (m, None)))
  /\ (forall e,
         acceptsIP ip = true ->
         parseSubnetMask mask = Ret ([], Some e) ->
         calculateSubnet ip mask = Ret (None, Some e)).
Proof.
  split.
  - split.
    + intros [r H].
      destruct (calculateSubnet_success_inv ip mask r H)
        as [a [b [c [d [k [Hip [Hk Hm]]]]]]].
      split; [unfold acceptsIP; rewrite Hip; reflexivity | eauto].
    + intros [Ha [m Hm]]. unfold acceptsIP in Ha.
      destruct (To4_ParseIP_shape ip) as [E | [a [b [c [d E]]]]];
        [rewrite E in Ha; discriminate |].
      destruct (parseSubnetMask_shape mask)
        as [[k [Hk Hm']] | [e [kind [Hm' _]]]]; [| congruence].
      destruct (calculateSubnet_ok ip mask a b c d k E Hk Hm')
        as [r [Hr _]]. eauto.
  - intros e Ha Hm. unfold acceptsIP in Ha.
    destruct (To4_ParseIP_shape ip) as [E | [a [b [c [d E]]]]];
      [rewrite E in Ha; discriminate |].
    apply (calculateSubnet_mask_error ip mask a b c d e E Hm).
Qed.

(** ** The bytes of an accepted address *)

Lemma allAddrChars_append (s t : string) :
  allAddrChars (s ++ t) = allAddrChars s && allAddrChars t.
Proof.
  induction s as [| c s IH]; [reflexivity |].
  cbn [append allAddrChars]. rewrite IH, andb_assoc. reflexivity.
Qed.

Lemma appendDecimal_addrChars (x : byte) :
  allAddrChars (netip.appendDecimal x) = true.
Proof. revert x. apply forall_byte. vm_compute. reflexivity. Qed.

Lemma string4_addrChars (a b c d : byte) :
  allAddrChars (netip.string4 a b c d) = true.
Proof.
  unfold netip.string4.
  rewrite !allAddrChars_append, !appendDecimal_addrChars. reflexivity.
Qed.

Lemma hexGroup_split (s : string) :
  forall off acc off' acc' rest,
    netip.hexGroup s off acc = Some (off', acc', rest) ->
    exists pre, s = (pre ++ rest)%string /\ allAddrChars pre = true.
Proof.
  induction s as [| c r IH]; intros off acc off' acc' rest H.
  - cbn in H. injection H as _ _ <-. exists EmptyString. auto.
  - cbn [netip.hexGroup] in H.
    destruct (netip.hexVal c) as [dgt |] eqn:Hc.
    + cbv zeta in H.
      destruct (3 <? off)%nat; [discriminate |].
      destruct (65535 <? _); [discriminate |].
      apply IH in H. destruct H as [pre [E Hp]].
      exists (String c pre). split; [cbn; rewrite <- E; reflexivity |].
      cbn [allAddrChars]. unfold isAddrChar. rewrite Hc, Hp. reflexivity.
    + injection H as _ _ <-. exists EmptyString. auto.
Qed.

Lemma colon_addrChar (c : ascii) : char_eqb c ":" = true -> isAddrChar c = true.
Proof.
  intros H. unfold isAddrChar. rewrite H, orb_true_r.
  destruct (netip.hexVal c); reflexivity.
Qed.

Lemma v6Loop_addrChars (k : nat) :
  forall s e ip st,
    netip.v6Loop k s e ip = Some st ->
    netip.v6_s st = EmptyString ->
    allAddrChars s = true.
Proof.
  induction k as [| k IH]; intros s e ip st H Hs.
  - cbn in H. injection H as <-. cbn in Hs. subst s. reflexivity.
  - cbn [netip.v6Loop] in H.
    destruct (netip.hexGroup s 0 0) as [[[off acc] rest] |] eqn:G;
      [| discriminate].
    destruct (hexGroup_split s _ _ _ _ _ G) as [pre [E Hp]].
    destruct (off =? 0)%nat; [discriminate |].
    destruct rest as [| c rest'].
    + rewrite E, append_empty_r. exact Hp.
    + destruct (netip.isDot c).
      * destruct (match e with
                  | Some _ => false
                  | None => negb (16 - 2 * S k =? 12)%nat
                  end); [discriminate |].
        destruct (16 <? 16 - 2 * S k + 4)%nat; [discriminate |].
        destruct (netip.parseIPv4Fields s) as [f |] eqn:F; [| discriminate].
        apply parseIPv4Fields_render in F.
        destruct F as [a [b [c' [d [_ ->]]]]]. apply string4_addrChars.
      * destruct (char_eqb c ":") eqn:Hc; [| discriminate].
        cbn [negb drop] in H.
        rewrite E, allAddrChars_append, Hp. cbn [andb allAddrChars].
        rewrite (colon_addrChar c Hc). cbn [andb].
        destruct rest' as [| c' r']; [discriminate |].
        destruct (char_eqb c' ":") eqn:Hc'.
        -- destruct e; [discriminate |].
           cbn [allAddrChars]. rewrite (colon_addrChar c' Hc'). cbn [andb].
           destruct r' as [| c'' r'']; [reflexivity |].
           apply (IH _ _ _ _ H Hs).
        -- apply (IH _ _ _ _ H Hs).
Qed.

Lemma splitZone_none (s t : string) :
  netip.splitZone s = (t, None) -> t = s.
Proof.
  revert t. induction s as [| c r IH]; intros t H.
  - cbn in H. congruence.
  - cbn [netip.splitZone] in H.
    destruct (char_eqb c "%"); [discriminate |].
    destruct (netip.splitZone r) as [a z].
    injection H as <- ->. rewrite (IH a eq_refl). reflexivity.
Qed.

Lemma parseIPv6_addrChars (s : string) (a : netip.Addr) :
  netip.parseIPv6 s = Some a -> netip.zone a = EmptyString ->
  allAddrChars s = true.
Proof.
  unfold netip.parseIPv6. intros H Hz.
  destruct (netip.splitZone s) as [t z] eqn:Z.
  destruct z as [[| z0 zr] |].
  - discriminate.
  - exfalso.
    repeat match type of H with
           | match ?x with _ => _ end = _ => destruct x; try discriminate
           | (let '(_, _) := ?x in _) = _ => destruct x; try discriminate
           | (if ?x then _ else _) = _ => destruct x; try discriminate
           end;
      injection H as <-; discriminate Hz.
  - apply splitZone_none in Z. subst t.
    destruct s as [| c0 [| c1 r]].
    + cbn in H. discriminate.
    + destruct (netip.v6Loop 8 (String c0 EmptyString) None (make 16))
        as [st |] eqn:L; [| discriminate].
      destruct (netip.v6_s st) eqn:S; [| discriminate].
      apply (v6Loop_addrChars _ _ _ _ _ L S).
    + destruct (char_eqb c0 ":" && char_eqb c1 ":") eqn:Hl.
      * apply andb_true_iff in Hl. destruct Hl as [H0 H1].
        cbn [allAddrChars].
        rewrite (colon_addrChar c0 H0), (colon_addrChar c1 H1). cbn [andb].
        destruct r as [| c2 r2]; [reflexivity |].
        destruct (netip.v6Loop 8 (String c2 r2) (Some 0%nat) (make 16))
          as [st |] eqn:L; [| discriminate].
        destruct (netip.v6_s st) eqn:S; [| discriminate].
        apply (v6Loop_addrChars _ _ _ _ _ L S).
      * destruct (netip.v6Loop 8 (String c0 (String c1 r)) None (make 16))
          as [st |] eqn:L; [| discriminate].
        destruct (netip.v6_s st) eqn:S; [| discriminate].
        apply (v6Loop_addrChars _ _ _ _ _ L S).
Qed.

Lemma scan_either (s whole : string) (a : netip.Addr) :
  netip.parseAddrScan s whole = Some a ->
  netip.parseIPv4 whole = Some a \/ netip.parseIPv6 whole = Some a.
Proof.
  induction s as [| c r IH]; intros H; [discriminate |].
  cbn [netip.parseAddrScan] in H.
  destruct (netip.isDot c); [left; exact H |].
  destruct (char_eqb c ":"); [right; exact H |].
  destruct (char_eqb c "%"); [discriminate |].
  apply IH, H.
Qed.

Lemma ParseIP_addrChars (s : string) :
  net.ParseIP s <> [] -> allAddrChars s = true.
Proof.
  unfold net.ParseIP. intros H.
  destruct (netip.ParseAddr s) as [a |] eqn:E; [| contradiction].
  destruct (netip.zone a) eqn:Z; [| contradiction].
  apply scan_either in E. destruct E as [E | E].
  - unfold netip.parseIPv4 in E.
    destruct (netip.parseIPv4Fields s) as [f |] eqn:F; [| discriminate].
    apply parseIPv4Fields_render in F.
    destruct F as [x0 [x1 [x2 [x3 [_ ->]]]]]. apply string4_addrChars.
  - apply (parseIPv6_addrChars s a E Z).
Qed.

(** X14: an address string that contains any byte other than a
    hexadecimal digit, a dot or a colon (white space anywhere, a sign, a
    slash, a percent sign) is rejected with [InvalidIPAddress], whatever
    the mask; the message repeats the string as given. *)
Theorem address_bytes (pre post mask : string) (c : ascii) :
  isAddrChar c = false ->
  calculateSubnet (pre ++ String c post) mask
  = Ret (None, Some ("invalid IP address: " ++ pre ++ String c post)%string)
  /\ failsWith (calculateSubnet (pre ++ String c post) mask) InvalidIPAddress.
Proof.
  intros Hc.
  assert (E : net.ParseIP (pre ++ String c post) = []).
  { destruct (net.ParseIP (pre ++ String c post)) as [| x l] eqn:P;
      [reflexivity | exfalso].
    assert (Hne : net.ParseIP (pre ++ String c post) <> [])
      by (rewrite P; discriminate).
    apply ParseIP_addrChars in Hne.
    rewrite allAddrChars_append in Hne. cbn [allAddrChars] in Hne.
    rewrite Hc in Hne. cbn [andb] in Hne. rewrite andb_false_r in Hne.
    discriminate. }
  split.
  - unfold calculateSubnet. rewrite E. cbn [isNil]. unfold fmt.Errorf.
    rewrite append_empty_r. reflexivity.
  - apply calculateSubnet_bad_ip. rewrite E. reflexivity.
Qed.

Lemma address_bytes_witness :
  isAddrChar " " = false
  /\ calculateSubnet ("192.168.1.1" ++ String " " "") "/24"
     = Ret (None,
            Some ("invalid IP address: " ++ "192.168.1.1" ++ String " " "")%string)
  /\ failsWith (calculateSubnet ("192.168.1.1" ++ String " " "") "/24")
       InvalidIPAddress.
Proof.
  split; [reflexivity |].
  apply (address_bytes "192.168.1.1" "" "/24" " "). reflexivity.
Defined.

(** ** [isValidSubnetMask] and [IPMask.Size] *)

Lemma leadingOnesOfByte_snd (fuel : nat) :
  forall v n m,
    snd (net.leadingOnesOfByte fuel v n) = snd (net.leadingOnesOfByte fuel v m).
Proof.
  induction fuel as [| f IH]; intros v n m; [reflexivity |].
  cbn [net.leadingOnesOfByte].
  destruct (negb (Z.land (Z_of_byte v) 128 =? 0)); [apply IH | reflexivity].
Qed.

Lemma maskByte_of_zero_rest (v : byte) (n n' : Z) (v' : byte) :
  net.leadingOnesOfByte 8 v n = (n', v') ->
  byte_eqb v' zero = true ->
  exists t, In t (upto 9) /\ v = maskByte t.
Proof.
  intros L Hz.
  assert (G : maskByteCheck v = true)
    by (revert v L; intros v _; revert v; apply forall_byte;
        vm_compute; reflexivity).
  unfold maskByteCheck in G.
  rewrite (leadingOnesOfByte_snd 8 v 0 n), L in G. cbn [snd] in G.
  rewrite Hz in G. apply existsb_exists in G.
  destruct G as [t [Ht E]]. exists t. split; [exact Ht |].
  apply byte_eqb_eq, E.
Qed.

Lemma isZeros_eq (l : list byte) :
  net.isZeros l = true -> l = repeat zero (List.length l).
Proof.
  induction l as [| x l IH]; intros H; [reflexivity |].
  cbn [net.isZeros forallb] in H. apply andb_true_iff in H.
  destruct H as [Hx Hl]. apply byte_eqb_eq in Hx. subst x.
  cbn [List.length repeat]. f_equal. apply IH, Hl.
Qed.

Lemma leadingOnes_prefixMask (k : Z) :
  0 <= k <= 32 ->
  leadingOnesLoop 32 (prefixMask k) 0 = k
  /\ net.simpleMaskLength (net.CIDRMask k 32) = k.
Proof.
  intros Hk. enum_Z k 33%nat; vm_compute; split; reflexivity.
Qed.

Ltac mask_shape_step H :=
  match type of H with
  | context [byte_eqb ?v (byte_of_Z 255)] =>
      destruct (byte_eqb v (byte_of_Z 255)) eqn:?;
      [ match goal with
        | E : byte_eqb v _ = true |- _ => apply byte_eqb_eq in E; subst v
        end
      | match type of H with
        | context [net.leadingOnesOfByte 8 v ?n] =>
            let L := fresh "L" in
            let Z0 := fresh "Z0" in
            let R := fresh "R" in
            destruct (net.leadingOnesOfByte 8 v n) as [? ?] eqn:L;
            match type of H with
            | context [byte_eqb ?v' zero] =>
                destruct (byte_eqb v' zero) eqn:Z0;
                [| exfalso; apply H; reflexivity];
                cbn [negb] in H;
                match type of H with
                | context [net.isZeros ?rest] =>
                    destruct (net.isZeros rest) eqn:R;
                    [| exfalso; apply H; reflexivity];
                    apply isZeros_eq in R; cbn in R;
                    destruct (maskByte_of_zero_rest _ _ _ _ L Z0)
                      as [t [Ht ->]];
                    vm_compute in Ht;
                    repeat (destruct Ht as [<- | Ht]);
                    try contradiction;
                    inversion R; subst;
                    vm_compute; reflexivity
                end
            end
        end ]
  end.

(** X15: on four bytes, [isValidSubnetMask] accepts exactly the masks for
    which [IPMask.Size] finds a prefix length ([simpleMaskLength] is not
    [-1]), and for an accepted mask the leading ones it counts are the
    prefix length that [calculateSubnet] reads from [Size]. *)
Theorem valid_mask_iff_Size (a b c d : byte) :
  (isValidSubnetMask [a; b; c; d] = Ret true
   <-> net.simpleMaskLength [a; b; c; d] <> -1)
  /\ (isValidSubnetMask [a; b; c; d] = Ret true ->
      net.Size [a; b; c; d]
      = (leadingOnesLoop 32 (be32 a b c d) 0, 32)).
Proof.
  assert (Hfwd : isValidSubnetMask [a; b; c; d] = Ret true ->
                 exists k, 0 <= k <= 32
                           /\ [a; b; c; d] = net.CIDRMask k 32
                           /\ be32 a b c d = prefixMask k).
  { intros V. destruct (valid_mask_is_CIDRMask a b c d V) as [k [Hk E]].
    exists k. split; [exact Hk |]. split; [exact E |].
    destruct (be32_CIDRMask k Hk) as [m0 [m1 [m2 [m3 [Em Ev]]]]].
    rewrite Em in E. injection E as -> -> -> ->.
    rewrite Ev. symmetry. apply prefixMask_value, Hk. }
  split; [split |].
  - intros V. destruct (Hfwd V) as [k [Hk [E _]]]. rewrite E.
    destruct (leadingOnes_prefixMask k Hk) as [_ ->]. lia.
  - intros H. unfold net.simpleMaskLength in H.
    cbn [net.simpleMaskLengthLoop] in H.
    mask_shape_step H. mask_shape_step H.
    mask_shape_step H. mask_shape_step H.
    vm_compute. reflexivity.
  - intros V. destruct (Hfwd V) as [k [Hk [E Ev]]].
    rewrite Ev. destruct (leadingOnes_prefixMask k Hk) as [-> _].
    rewrite E. apply CIDRMask_Size, Hk.
Qed.

(** ** The test helper [ipEqual] *)

Lemma bytesEqual_eq (p q : list byte) : net.bytesEqual p q = true <-> p = q.
Proof.
  unfold net.bytesEqual. split.
  - revert q. induction p as [| x p IH]; intros [| y q] H;
      try reflexivity; try discriminate H.
    cbn in H. apply andb_true_iff in H. destruct H as [Hl H].
    apply andb_true_iff in H. destruct H as [Hx Hf].
    apply byte_eqb_eq in Hx. subst y. f_equal. apply IH.
    apply andb_true_iff. split; assumption.
  - intros <-. apply andb_true_iff. split; [apply Nat.eqb_refl |].
    induction p as [| x p IH]; [reflexivity |].
    cbn. rewrite IH, andb_true_r. apply byte_eqb_eq. reflexivity.
Qed.

Lemma ParseIP_length (s : string) :
  net.ParseIP s = [] \/ List.length (net.ParseIP s) = 16%nat.
Proof.
  unfold net.ParseIP. destruct (netip.ParseAddr s) as [a |]; [| auto].
  destruct (netip.zone a); [right; reflexivity | auto].
Qed.

Lemma IP_Equal_parsed (p q : net.IP) :
  p = [] \/ List.length p = 16%nat ->
  q = [] \/ List.length q = 16%nat ->
  IP_Equal p q = true <-> p = q.
Proof.
  intros Hp Hq. unfold IP_Equal.
  destruct (Nat.eqb_spec (List.length p) (List.length q)) as [E | E].
  - apply bytesEqual_eq.
  - assert (Hne : p <> q) by (intros ->; contradiction).
    destruct Hp as [-> | Lp]; destruct Hq as [-> | Lq];
      try contradiction; cbn [List.length] in *; try rewrite Lp;
      try rewrite Lq; cbn; split; intros; try discriminate; contradiction.
Qed.

(** X16: [ipEqual] holds exactly when [net.ParseIP] returns the same for
    both strings.  So two strings that are not addresses at all compare
    equal, an address compares equal to its IPv4-mapped IPv6 spelling, and
    two dotted-decimal texts compare equal exactly when their octets are
    the same. *)
Theorem ipEqual_iff (ip1 ip2 : string) :
  (ipEqual ip1 ip2 = true <-> net.ParseIP ip1 = net.ParseIP ip2)
  /\ (net.ParseIP ip1 = [] -> net.ParseIP ip2 = [] -> ipEqual ip1 ip2 = true)
  /\ (forall a b c d a' b' c' d',
         ipEqual (netip.string4 a b c d) (netip.string4 a' b' c' d') = true
         <-> [a; b; c; d] = [a'; b'; c'; d']).
Proof.
  assert (Hiff : forall s1 s2,
             ipEqual s1 s2 = true <-> net.ParseIP s1 = net.ParseIP s2).
  { intros s1 s2. unfold ipEqual. apply IP_Equal_parsed; apply ParseIP_length. }
  split; [apply Hiff |]. split.
  - intros H1 H2. apply Hiff. congruence.
  - intros a b c d a' b' c' d'. rewrite Hiff. split.
    + intros H. apply (f_equal net.To4) in H.
      rewrite !To4_ParseIP_string4 in H. exact H.
    + intros H. injection H as -> -> -> ->. reflexivity.
Qed.

Lemma ipEqual_iff_witness :
  net.ParseIP "not an address" = []
  /\ net.ParseIP "999.1.1.1" = []
  /\ ipEqual "not an address" "999.1.1.1" = true
  /\ ipEqual "::ffff:10.0.0.1" "10.0.0.1" = true.
Proof.
  split; [vm_compute; reflexivity |]. split; [vm_compute; reflexivity |].
  split.
  - apply (proj1 (proj2 (ipEqual_iff "not an address" "999.1.1.1")));
      vm_compute; reflexivity.
  - apply (proj1 (ipEqual_iff "::ffff:10.0.0.1" "10.0.0.1")).
    vm_compute. reflexivity.
Defined.

(** ** The number in the CIDR notation *)

Lemma trimSpaceStop_last (s : string) (c : ascii) :
  code c < 128 -> strings.asciiSpace c = false ->
  strings.trimSpaceStop (s ++ String c EmptyString)
  = (false, (s ++ String c EmptyString)%string).
Proof.
  intros Hc Hs. induction s as [| x s IH].
  - cbn [append strings.trimSpaceStop]. unfold utf8.RuneSelf.
    destruct (128 <=? code c) eqn:E; [apply Z.leb_le in E; lia |].
    rewrite Hs. reflexivity.
  - cbn [append strings.trimSpaceStop]. rewrite IH.
    destruct s; reflexivity.
Qed.

Lemma digit_not_space (c : ascii) :
  strconv.isDigit c = true -> code c < 128 /\ strings.asciiSpace c = false.
Proof.
  intros H. apply isDigit_range in H. split; [lia |].
  unfold strings.asciiSpace. cbv zeta.
  repeat (rewrite (proj2 (Z.eqb_neq (code c) _)) by lia). reflexivity.
Qed.

(** A string that starts with a slash and ends with a digit is not
    changed by [TrimSpace]. *)
Lemma TrimSpace_slash_digit (pre : string) (c : ascii) :
  strconv.isDigit c = true ->
  strings.TrimSpace (String "/" (pre ++ String c EmptyString))
  = String "/" (pre ++ String c EmptyString).
Proof.
  intros Hd. destruct (digit_not_space c Hd) as [Hc Hs].
  assert (S1 : strings.trimSpaceStart
                 (String "/" (pre ++ String c EmptyString))
               = (false, String "/" (pre ++ String c EmptyString)))
    by reflexivity.
  pose proof (trimSpaceStop_last (String "/" pre) c Hc Hs) as S2.
  change (String "/" pre ++ String c EmptyString)%string
    with (String "/" (pre ++ String c EmptyString)) in S2.
  unfold strings.TrimSpace. rewrite S1, S2. reflexivity.
Qed.

Lemma formatBits_step (fuel : nat) (n : Z) (acc : string) :
  strconv.formatBits (S fuel) n acc
  = if n <? 10 then String (strconv.digit (n mod 10)) acc
    else strconv.formatBits fuel (n / 10)
           (String (strconv.digit (n mod 10)) acc).
Proof. reflexivity. Qed.

Lemma formatBits_last (fuel : nat) :
  forall n acc,
    0 <= n ->
    exists pre,
      strconv.formatBits (S fuel) n acc
      = (pre ++ String (strconv.digit (n mod 10)) acc)%string.
Proof.
  induction fuel as [| f IH]; intros n acc Hn;
    rewrite formatBits_step; destruct (n <? 10) eqn:E;
    try (exists EmptyString; reflexivity).
  apply Z.ltb_ge in E.
  destruct (IH (n / 10) (String (strconv.digit (n mod 10)) acc)
              ltac:(apply Z.div_pos; lia)) as [pre Hpre].
  exists (pre ++ String (strconv.digit (n / 10 mod 10)) EmptyString)%string.
  rewrite Hpre, append_assoc. reflexivity.
Qed.

Lemma FormatInt_last (n : Z) :
  exists pre c,
    strconv.FormatInt n = (pre ++ String c EmptyString)%string
    /\ strconv.isDigit c = true.
Proof.
  unfold strconv.FormatInt.
  destruct (n <? 0) eqn:E.
  - apply Z.ltb_lt in E.
    destruct (formatBits_last 19 (- n) EmptyString ltac:(lia)) as [pre Hp].
    exists (String "-" pre), (strconv.digit (- n mod 10)).
    split; [rewrite Hp; reflexivity |].
    apply digit_code. pose proof (Z.mod_pos_bound (- n) 10). lia.
  - apply Z.ltb_ge in E.
    destruct (formatBits_last 19 n EmptyString E) as [pre Hp].
    exists pre, (strconv.digit (n mod 10)).
    split; [exact Hp |].
    apply digit_code. pose proof (Z.mod_pos_bound n 10). lia.
Qed.

Lemma digitsValue_zeros (z : nat) (s : string) :
  strconv.digitsValue (zeros z ++ s) 0 = strconv.digitsValue s 0.
Proof.
  induction z as [| z IH]; [reflexivity |].
  cbn [zeros append strconv.digitsValue].
  change (strconv.isDigit "0") with true. cbv iota. exact IH.
Qed.

Lemma Atoi_zeros (z : nat) (n : Z) :
  0 <= n <= maxInt ->
  strconv.Atoi (zeros z ++ strconv.FormatInt n) = Some n
  /\ strconv.Atoi (String "+" (zeros z ++ strconv.FormatInt n)) = Some n.
Proof.
  intros Hn.
  assert (Hmin : minInt <= n) by (unfold minInt, intSize; lia).
  pose proof (Atoi_FormatInt n ltac:(lia)) as A.
  unfold strconv.FormatInt in *.
  destruct (n <? 0) eqn:E; [apply Z.ltb_lt in E; lia |].
  apply Z.ltb_ge in E.
  destruct (formatBits_head 19 n EmptyString E) as [c [t [Ef Hd]]].
  rewrite Ef in *.
  destruct (isDigit_not_sign c Hd) as [H1 H2].
  unfold strconv.Atoi in A. rewrite H1, H2 in A. cbn [orb] in A.
  assert (V : strconv.digitsValue (zeros z ++ String c t) 0
              = strconv.digitsValue (String c t) 0)
    by apply digitsValue_zeros.
  split.
  - unfold strconv.Atoi. destruct z as [| z].
    + cbn [zeros append]. rewrite H1, H2. cbn [orb]. exact A.
    + cbn [zeros append] in *.
      change (char_eqb "0" "-") with false.
      change (char_eqb "0" "+") with false. cbn [orb].
      rewrite V. exact A.
  - unfold strconv.Atoi.
    change (char_eqb "+" "-") with false.
    change (char_eqb "+" "+") with true. cbn [orb].
    destruct (zeros z ++ String c t)%string eqn:Z0.
    + destruct z; discriminate Z0.
    + rewrite V. exact A.
Qed.

Lemma parseSubnetMask_slash (body pre : string) (c : ascii) :
  body = (pre ++ String c EmptyString)%string ->
  strconv.isDigit c = true ->
  parseSubnetMask (String "/" body)
  = match strconv.Atoi body with
    | None =>
        Ret ([], Some ("invalid CIDR notation: " ++ String "/" body)%string)
    | Some cidr =>
        if (cidr <? 0) || (32 <? cidr)
        then Ret ([], Some ("invalid CIDR notation: " ++ String "/" body)%string)
        else Ret (net.CIDRMask cidr 32, None)
    end.
Proof.
  intros -> Hd. unfold parseSubnetMask.
  rewrite (TrimSpace_slash_digit pre c Hd).
  change (strings.HasPrefix (String "/" (pre ++ String c EmptyString)) "/")
    with true. cbv iota.
  change (sliceFrom (String "/" (pre ++ String c EmptyString)) 1)
    with (Ret (pre ++ String c EmptyString)%string).
  cbn [bind]. unfold fmt.Errorf. rewrite append_empty_r. reflexivity.
Qed.

(** X17: the number after the slash is checked against [[0,32]]: for
    every integer [n] that fits an [int], the mask "/n" is accepted, with
    the prefix mask of length [n], exactly when [0 <= n <= 32]; any other
    [n], negative ones included, is rejected with [InvalidCIDR] and a
    message that names the mask. *)
Theorem cidr_range (n : Z) :
  minInt <= n <= maxInt ->
  (0 <= n <= 32 ->
   parseSubnetMask ("/" ++ strconv.FormatInt n)
   = Ret (net.CIDRMask n 32, None))
  /\ (n < 0 \/ 32 < n ->
      parseSubnetMask ("/" ++ strconv.FormatInt n)
      = Ret ([], Some ("invalid CIDR notation: /" ++ strconv.FormatInt n)%string)
      /\ errorKind ("invalid CIDR notation: /" ++ strconv.FormatInt n)
         = Some InvalidCIDR).
Proof.
  intros Hn.
  destruct (FormatInt_last n) as [pre [c [E Hd]]].
  pose proof (parseSubnetMask_slash _ pre c E Hd) as P.
  rewrite (Atoi_FormatInt n Hn) in P.
  change ("/" ++ strconv.FormatInt n)%string
    with (String "/" (strconv.FormatInt n)).
  split.
  - intros H. rewrite P.
    destruct ((n <? 0) || (32 <? n)) eqn:R; [lia | reflexivity].
  - intros H. split; [| reflexivity]. rewrite P.
    destruct ((n <? 0) || (32 <? n)) eqn:R; [reflexivity | lia].
Qed.

Lemma cidr_range_witness :
  minInt <= 33 <= maxInt
  /\ (33 < 0 \/ 32 < 33)
  /\ parseSubnetMask ("/" ++ strconv.FormatInt 33)
     = Ret ([], Some ("invalid CIDR notation: /" ++ strconv.FormatInt 33)%string)
  /\ errorKind ("invalid CIDR notation: /" ++ strconv.FormatInt 33)
     = Some InvalidCIDR.
Proof.
  assert (H : minInt <= 33 <= maxInt) by (vm_compute; split; discriminate).
  split; [exact H |]. split; [right; lia |].
  apply (proj2 (cidr_range 33 H)). right. lia.
Defined.

(** X18: the number after the slash is read by [strconv.Atoi], so a plus
    sign and leading zeros are accepted: for [n] in [[0,32]], "/+n" and
    "/n" with any number of zeros before the digits parse to the prefix
    mask of length [n]. *)
Theorem cidr_sign_and_zeros (n : Z) (z : nat) :
  0 <= n <= 32 ->
  parseSubnetMask ("/" ++ zeros z ++ strconv.FormatInt n)
  = Ret (net.CIDRMask n 32, None)
  /\ parseSubnetMask ("/+" ++ zeros z ++ strconv.FormatInt n)
     = Ret (net.CIDRMask n 32, None).
Proof.
  intros Hn.
  assert (Hmax : 0 <= n <= maxInt) by (unfold maxInt, intSize; lia).
  destruct (FormatInt_last n) as [pre [c [E Hd]]].
  destruct (Atoi_zeros z n Hmax) as [A1 A2].
  split.
  - change ("/" ++ zeros z ++ strconv.FormatInt n)%string
      with (String "/" (zeros z ++ strconv.FormatInt n)).
    rewrite (parseSubnetMask_slash _ (zeros z ++ pre) c)
      by (try exact Hd; rewrite E, append_assoc; reflexivity).
    rewrite A1. destruct ((n <? 0) || (32 <? n)) eqn:R; [lia | reflexivity].
  - change ("/+" ++ zeros z ++ strconv.FormatInt n)%string
      with (String "/" (String "+" (zeros z ++ strconv.FormatInt n))).
    rewrite (parseSubnetMask_slash _ (String "+" (zeros z ++ pre)) c)
      by (try exact Hd; rewrite E; cbn [append]; rewrite append_assoc;
          reflexivity).
    rewrite A2. destruct ((n <? 0) || (32 <? n)) eqn:R; [lia | reflexivity].
Qed.

Lemma cidr_sign_and_zeros_witness :
  0 <= 24 <= 32
  /\ parseSubnetMask ("/" ++ zeros 2 ++ strconv.FormatInt 24)
     = Ret (net.CIDRMask 24 32, None)
  /\ parseSubnetMask ("/+" ++ zeros 2 ++ strconv.FormatInt 24)
     = Ret (net.CIDRMask 24 32, None).
Proof.
  split; [lia |]. apply (cidr_sign_and_zeros 24 2). lia.
Defined.
